(** * SMAC3 [RunHistory]: a shallow embedding of [smac/runhistory/runhistory.py]

    The ledger of trial results is embedded method by method.  Python
    dictionaries are insertion-ordered association lists, the mutable
    [self] is threaded through a state-and-exception monad (the state
    survives a raised exception, as the Python object does), and Python
    floats are exact rationals extended with the IEEE special values
    [inf], [-inf] and [nan]: rounding is not part of the model.  The
    theorems compare and store costs, count trials, or say that a value is
    returned; where one computes a cost, it is at numbers that doubles
    represent exactly. *)

From Stdlib Require Import ZArith QArith Qreduction String List Lia.
From Stdlib Require Import DecimalString DecimalZ.
From stdpp Require Import base decidable option list strings.

Set Warnings "-register-all".
Local Open Scope string_scope.
Local Open Scope Z_scope.

(** ** Python floats *)

Inductive pyfloat :=
| Fin (q : Q)
| PInf
| NInf
| NaN.

#[global] Instance Q_eq_dec : EqDecision Q.
Proof. solve_decision. Defined.

#[global] Instance pyfloat_eq_dec : EqDecision pyfloat.
Proof. solve_decision. Defined.

Module PyFloat.

(** [float(x)]: the canonical representative of the number. *)
Definition float (x : pyfloat) : pyfloat :=
  match x with
  | Fin q => Fin (Qred q)
  | _ => x
  end.

Definition of_Z (z : Z) : pyfloat := Fin (inject_Z z).

Definition zero : pyfloat := Fin 0.

Definition isnan (x : pyfloat) : bool :=
  match x with NaN => true | _ => false end.

Definition Qltb (a b : Q) : bool := negb (Qle_bool b a).

(** [x < y]; every comparison with [nan] is false. *)
Definition ltb (x y : pyfloat) : bool :=
  match x, y with
  | NaN, _ | _, NaN => false
  | _, NInf => false
  | NInf, _ => true
  | PInf, _ => false
  | _, PInf => true
  | Fin a, Fin b => Qltb a b
  end.

(** [x == y], numerically; [nan == nan] is false. *)
Definition eqb (x y : pyfloat) : bool :=
  match x, y with
  | Fin a, Fin b => Qeq_bool a b
  | PInf, PInf | NInf, NInf => true
  | _, _ => false
  end.

Definition neg (x : pyfloat) : pyfloat :=
  match x with
  | Fin q => Fin (Qred (- q))
  | PInf => NInf
  | NInf => PInf
  | NaN => NaN
  end.

(** [x + y] as the exact number: no rounding, and no overflow to [inf]. *)
Definition add (x y : pyfloat) : pyfloat :=
  match x, y with
  | NaN, _ | _, NaN => NaN
  | PInf, NInf | NInf, PInf => NaN
  | PInf, _ | _, PInf => PInf
  | NInf, _ | _, NInf => NInf
  | Fin a, Fin b => Fin (Qred (a + b))
  end.

(** An infinity scaled by a finite number: the sign decides. *)
Definition scale_inf (positive : bool) (q : Q) : pyfloat :=
  match Qnum q with
  | Z0 => NaN
  | Zpos _ => if positive then PInf else NInf
  | Zneg _ => if positive then NInf else PInf
  end.

(** [x * y] as the exact number: no rounding. *)
Definition mul (x y : pyfloat) : pyfloat :=
  match x, y with
  | NaN, _ | _, NaN => NaN
  | Fin a, Fin b => Fin (Qred (a * b))
  | PInf, Fin b => scale_inf true b
  | NInf, Fin b => scale_inf false b
  | Fin a, PInf => scale_inf true a
  | Fin a, NInf => scale_inf false a
  | PInf, PInf | NInf, NInf => PInf
  | PInf, NInf | NInf, PInf => NInf
  end.

(** numpy's true division: a zero divisor gives [inf], [-inf] or [nan]
    (with a warning), never an exception.  The quotient of two finite
    numbers is the exact one: no rounding. *)
Definition np_div (x y : pyfloat) : pyfloat :=
  match x, y with
  | NaN, _ | _, NaN => NaN
  | Fin a, Fin b =>
      match Qnum b with
      | Z0 => match Qnum a with Z0 => NaN | Zpos _ => PInf | Zneg _ => NInf end
      | _ => Fin (Qred (a / b))
      end
  | Fin _, (PInf | NInf) => Fin 0
  | PInf, Fin b => match Qnum b with Zneg _ => NInf | _ => PInf end
  | NInf, Fin b => match Qnum b with Zneg _ => PInf | _ => NInf end
  | (PInf | NInf), (PInf | NInf) => NaN
  end.

Definition is_zero (x : pyfloat) : bool :=
  match x with Fin q => match Qnum q with Z0 => true | _ => false end | _ => false end.

(** [np.minimum] and [np.maximum]: a [nan] operand propagates. *)
Definition np_minimum (x y : pyfloat) : pyfloat :=
  if isnan x then NaN else if isnan y then NaN else if ltb y x then y else x.

Definition np_maximum (x y : pyfloat) : pyfloat :=
  if isnan x then NaN else if isnan y then NaN else if ltb x y then y else x.

Definition sum (l : list pyfloat) : pyfloat := fold_left add l zero.

(** [np.mean] of a flat array: [nan] (with a warning) when it is empty. *)
Definition mean (l : list pyfloat) : pyfloat :=
  np_div (sum l) (of_Z (Z.of_nat (length l))).

(** Reduction of a non-empty array by a binary ufunc. *)
Definition reduce (f : pyfloat -> pyfloat -> pyfloat) (l : list pyfloat) : option pyfloat :=
  match l with
  | [] => None
  | x :: r => Some (fold_left f r x)
  end.

(** The builtin [max] of a list: the first item not exceeded by a later one. *)
Definition builtin_max (l : list pyfloat) : option pyfloat :=
  reduce (fun cur x => if ltb cur x then x else cur) l.

End PyFloat.

(** ** Python values that meet [json] *)

(** What [additional_info], a configuration's dictionary and a parsed JSON
    document are made of.  [PyObject] stands for any object the JSON
    encoder rejects (a set, a function, a numpy array, ...). *)
Inductive pyval :=
| PyNone
| PyBool (b : bool)
| PyInt (z : Z)
| PyFloat (f : pyfloat)
| PyStr (s : string)
| PyList (l : list pyval)
| PyDict (d : list (string * pyval))
| PyObject (name : string).

(** [json.dumps(obj)] succeeds. *)
Fixpoint json_serializable (v : pyval) : bool :=
  match v with
  | PyObject _ => false
  | PyList l => forallb json_serializable l
  | PyDict d => forallb (fun kv => json_serializable (snd kv)) d
  | _ => true
  end.

(** ** Exceptions and the two monads *)

Inductive exn :=
| TypeError (msg : string)
| ValueError (msg : string)
| KeyError (msg : string)
| IndexError (msg : string)
| AttributeError (msg : string)
| AssertionError
| ZeroDivisionError.

Inductive outcome (A : Type) :=
| Ok (a : A)
| Raise (e : exn).
Arguments Ok {A} a.
Arguments Raise {A} e.

Definition obind {A B} (r : outcome A) (k : A -> outcome B) : outcome B :=
  match r with
  | Ok a => k a
  | Raise e => Raise e
  end.

Notation "'let?' x ':=' r 'in' k" := (obind r (fun x => k))
  (at level 10, x name, r at level 100, k at level 200).

(** [d[k]] on an optional lookup result. *)
Definition subscript {A} (o : option A) (what : string) : outcome A :=
  match o with
  | Some a => Ok a
  | None => Raise (KeyError what)
  end.

Definition assert (b : bool) : outcome unit :=
  if b then Ok tt else Raise AssertionError.

(** A list comprehension whose body may raise. *)
Fixpoint map_ok {A B} (f : A -> outcome B) (l : list A) : outcome (list B) :=
  match l with
  | [] => Ok []
  | x :: r => let? y := f x in let? ys := map_ok f r in Ok (y :: ys)
  end.

(** ** Insertion-ordered dictionaries *)

Definition dict (K V : Type) := list (K * V).

Section Dict.
Context {K V : Type} `{EqDecision K}.

Fixpoint dict_get (k : K) (d : dict K V) : option V :=
  match d with
  | [] => None
  | (k', v) :: r => if decide (k = k') then Some v else dict_get k r
  end.

Definition dict_get_default (k : K) (default : V) (d : dict K V) : V :=
  match dict_get k d with Some v => v | None => default end.

Definition dict_contains (k : K) (d : dict K V) : bool :=
  match dict_get k d with Some _ => true | None => false end.

(** [d[k] = v]: an existing key keeps its place (and its key object),
    a new key goes last. *)
Fixpoint dict_set (k : K) (v : V) (d : dict K V) : dict K V :=
  match d with
  | [] => [(k, v)]
  | (k', v') :: r =>
      if decide (k = k') then (k', v) :: r else (k', v') :: dict_set k v r
  end.

Definition dict_keys (d : dict K V) : list K := map fst d.
Definition dict_values (d : dict K V) : list V := map snd d.

(** [list(dict.fromkeys(l))]: duplicates removed, first occurrences kept in order. *)
Fixpoint fromkeys_acc (seen : list K) (l : list K) : list K :=
  match l with
  | [] => []
  | x :: r =>
      if bool_decide (x ∈ seen) then fromkeys_acc seen r
      else x :: fromkeys_acc (x :: seen) r
  end.

Definition dict_fromkeys (l : list K) : list K := fromkeys_acc [] l.

End Dict.

(** ** Value types of the ledger *)

(** Modelled from the spec: [smac.runhistory.enumerations] is not among the
    sources.  The status values are the ones the spec and the callers name;
    [status_value] is the integer the enumeration member serialises to. *)
Inductive StatusType :=
| SUCCESS
| RUNNING
| CRASHED
| DONOTADVANCE
| TIMEOUT
| MEMORYOUT.

Inductive DataOrigin :=
| INTERNAL
| EXTERNAL_SAME_INSTANCES
| EXTERNAL_DIFFERENT_INSTANCES.

#[global] Instance StatusType_eq_dec : EqDecision StatusType.
Proof. solve_decision. Defined.

#[global] Instance DataOrigin_eq_dec : EqDecision DataOrigin.
Proof. solve_decision. Defined.

Definition status_value (s : StatusType) : Z :=
  match s with
  | RUNNING => 0
  | SUCCESS => 1
  | CRASHED => 2
  | TIMEOUT => 3
  | MEMORYOUT => 4
  | DONOTADVANCE => 5
  end.

(** [StatusType(n)]: the member with that value, or a [ValueError]. *)
Definition StatusType_of_value (n : Z) : outcome StatusType :=
  match n with
  | 0 => Ok RUNNING
  | 1 => Ok SUCCESS
  | 2 => Ok CRASHED
  | 3 => Ok TIMEOUT
  | 4 => Ok MEMORYOUT
  | 5 => Ok DONOTADVANCE
  | _ => Raise (ValueError "not a valid StatusType")
  end.

(** A cost as the ledger stores it: a float, or a list of floats when
    there are several objectives. *)
Inductive cost_t :=
| CScalar (x : pyfloat)
| CList (l : list pyfloat).

#[global] Instance cost_t_eq_dec : EqDecision cost_t.
Proof. solve_decision. Defined.

(** Modelled from the spec: [smac.runhistory.dataclasses] is not among the
    sources; the four value types are the tuples the spec lists. *)
Record TrialKey := {
  config_id : Z;
  tk_instance : option string;
  tk_seed : option Z;
  tk_budget : option pyfloat
}.

Record TrialValue := {
  cost : cost_t;
  time : pyfloat;
  status : StatusType;
  starttime : pyfloat;
  endtime : pyfloat;
  additional_info : pyval
}.

Record InstanceSeedKey := {
  isk_instance : option string;
  isk_seed : option Z
}.

Record InstanceSeedBudgetKey := {
  isb_instance : option string;
  isb_seed : option Z;
  isb_budget : option pyfloat
}.

#[global] Instance TrialKey_eq_dec : EqDecision TrialKey.
Proof. solve_decision. Defined.

#[global] Instance InstanceSeedKey_eq_dec : EqDecision InstanceSeedKey.
Proof. solve_decision. Defined.

#[global] Instance InstanceSeedBudgetKey_eq_dec : EqDecision InstanceSeedBudgetKey.
Proof. solve_decision. Defined.

(** ** Logging *)

Inductive log_level := DEBUG | INFO | WARNING.

Record log_record := { level : log_level; message : string }.

(** ** numpy on lists of costs *)

(** [np.array(costs)] for a list of stored costs: a vector when all are
    floats, a matrix when all are lists of one length; numpy refuses a
    ragged or mixed list. *)
Inductive ndarray :=
| Arr1 (v : list pyfloat)
| Arr2 (rows : list (list pyfloat)).

Definition as_scalar (c : cost_t) : option pyfloat :=
  match c with CScalar x => Some x | CList _ => None end.

Definition as_list (c : cost_t) : option (list pyfloat) :=
  match c with CList l => Some l | CScalar _ => None end.

Fixpoint all_some {A} (l : list (option A)) : option (list A) :=
  match l with
  | [] => Some []
  | Some a :: r => match all_some r with Some r' => Some (a :: r') | None => None end
  | None :: _ => None
  end.

Definition same_length (rows : list (list pyfloat)) : bool :=
  match rows with
  | [] => true
  | r :: rest => forallb (fun r' => Nat.eqb (length r') (length r)) rest
  end.

Definition np_array (costs : list cost_t) : outcome ndarray :=
  match all_some (map as_scalar costs) with
  | Some v => Ok (Arr1 v)
  | None =>
      match all_some (map as_list costs) with
      | Some rows =>
          if same_length rows then Ok (Arr2 rows)
          else Raise (ValueError "inhomogeneous shape")
      | None => Raise (ValueError "inhomogeneous shape")
      end
  end.

(** Reduction of the rows of a matrix along axis 0 by a binary ufunc. *)
Definition zip_with_float (f : pyfloat -> pyfloat -> pyfloat) (a b : list pyfloat) : list pyfloat :=
  map (fun p => f (fst p) (snd p)) (combine a b).

Definition reduce_axis0 (f : pyfloat -> pyfloat -> pyfloat) (rows : list (list pyfloat))
  : option (list pyfloat) :=
  match rows with
  | [] => None
  | r :: rest => Some (fold_left (zip_with_float f) rest r)
  end.

Definition sum_axis0 (rows : list (list pyfloat)) : list pyfloat :=
  match reduce_axis0 PyFloat.add rows with
  | Some s => s
  | None => []
  end.

(** [np.mean(costs, axis=0).tolist()] *)
Definition np_mean_axis0 (costs : list cost_t) : outcome cost_t :=
  let? a := np_array costs in
  match a with
  | Arr1 v => Ok (CScalar (PyFloat.mean v))
  | Arr2 rows =>
      Ok (CList (map (fun s => PyFloat.np_div s (PyFloat.of_Z (Z.of_nat (length rows))))
                     (sum_axis0 rows)))
  end.

(** [np.sum(costs, axis=0).tolist()] *)
Definition np_sum_axis0 (costs : list cost_t) : outcome cost_t :=
  let? a := np_array costs in
  match a with
  | Arr1 v => Ok (CScalar (PyFloat.sum v))
  | Arr2 rows => Ok (CList (sum_axis0 rows))
  end.

(** [np.min(costs, axis=0).tolist()]; numpy refuses an empty reduction. *)
Definition np_min_axis0 (costs : list cost_t) : outcome cost_t :=
  let? a := np_array costs in
  match a with
  | Arr1 v =>
      match PyFloat.reduce PyFloat.np_minimum v with
      | Some m => Ok (CScalar m)
      | None => Raise (ValueError "zero-size array to reduction operation minimum")
      end
  | Arr2 rows =>
      match reduce_axis0 PyFloat.np_minimum rows with
      | Some m => Ok (CList m)
      | None => Raise (ValueError "zero-size array to reduction operation minimum")
      end
  end.

Definition flatten (a : ndarray) : list pyfloat :=
  match a with
  | Arr1 v => v
  | Arr2 rows => concat rows
  end.

(** [float(np.mean(costs))], [float(np.sum(costs))], [float(np.min(costs))] *)
Definition np_mean (costs : list cost_t) : outcome pyfloat :=
  let? a := np_array costs in Ok (PyFloat.mean (flatten a)).

Definition np_sum (costs : list cost_t) : outcome pyfloat :=
  let? a := np_array costs in Ok (PyFloat.sum (flatten a)).

Definition np_min (costs : list cost_t) : outcome pyfloat :=
  let? a := np_array costs in
  match PyFloat.reduce PyFloat.np_minimum (flatten a) with
  | Some m => Ok m
  | None => Raise (ValueError "zero-size array to reduction operation minimum")
  end.

(** ** Collaborators *)

(** The ConfigSpace library and [smac.multi_objective.utils] are not among
    the sources; the ledger uses of them only what this interface lists:
    a configuration's value equality, its dictionary of hyperparameters, its
    [origin] tag, its constructor, and the normalisation of a cost vector by
    the objective bounds. *)
Class Collaborators := {
  Configuration : Type;
  Configuration_eq_dec :: EqDecision Configuration;
  ConfigurationSpace : Type;
  get_dictionary : Configuration -> pyval;
  Configuration_origin : Configuration -> pyval;
  Configuration_init : ConfigurationSpace -> pyval -> pyval -> outcome Configuration;
  normalize_costs : cost_t -> list (pyfloat * pyfloat) -> outcome (list pyfloat)
}.

(** ** The ledger *)

Section Ledger.
Context `{Collaborators}.

Record RunHistory := {
  _overwrite_existing_trials : bool;
  _data : dict TrialKey TrialValue;
  _config_id_to_isk_to_budget : dict Z (dict InstanceSeedKey (list (option pyfloat)));
  _config_ids : dict Configuration Z;
  _ids_config : dict Z Configuration;
  _n_id : Z;
  _cost_per_config : dict Z cost_t;
  _min_cost_per_config : dict Z cost_t;
  _num_trials_per_config : dict Z Z;
  _external : dict TrialKey DataOrigin;
  _n_objectives : Z;
  _objective_bounds : list (pyfloat * pyfloat)
}.

(** A file as [open] and [json.load] see it. *)
Inductive file :=
| Unreadable
| NotJson
| JsonText (doc : pyval).

(** What a method call can touch: the ledger object, the module's
    logger and the files on disk. *)
Record World := {
  self : RunHistory;
  logged : list log_record;
  files : dict string file
}.

Definition M (A : Type) : Type := World -> outcome A * World.

Definition ret {A} (a : A) : M A := fun w => (Ok a, w).

Definition bind {A B} (m : M A) (k : A -> M B) : M B :=
  fun w =>
    match m w with
    | (Ok a, w') => k a w'
    | (Raise e, w') => (Raise e, w')
    end.

Definition raise {A} (e : exn) : M A := fun w => (Raise e, w).

Definition lift {A} (r : outcome A) : M A := fun w => (r, w).

Definition read {A} (f : RunHistory -> A) : M A := fun w => (Ok (f (self w)), w).

Definition query {A} (f : RunHistory -> outcome A) : M A := fun w => (f (self w), w).

Definition modify (f : RunHistory -> RunHistory) : M unit :=
  fun w => (Ok tt, {| self := f (self w); logged := logged w; files := files w |}).

Definition log (l : log_level) (msg : string) : M unit :=
  fun w => (Ok tt, {| self := self w;
                      logged := logged w ++ [{| level := l; message := msg |}];
                      files := files w |}).

Fixpoint for_each {A} (l : list A) (body : A -> M unit) : M unit :=
  match l with
  | [] => ret tt
  | x :: r => bind (body x) (fun _ => for_each r body)
  end.

End Ledger.

Notation "'let*' x ':=' m 'in' k" := (bind m (fun x => k))
  (at level 10, x name, m at level 100, k at level 200).
Notation "m ';;;' k" := (bind m (fun _ => k))
  (at level 100, k at level 200, right associativity).

Section Fields.
Context `{Collaborators}.

(** Assignments to the attributes of [self]. *)
Definition set_data (v : dict TrialKey TrialValue) (r : RunHistory) : RunHistory :=
  {| _overwrite_existing_trials := _overwrite_existing_trials r; _data := v;
     _config_id_to_isk_to_budget := _config_id_to_isk_to_budget r;
     _config_ids := _config_ids r; _ids_config := _ids_config r; _n_id := _n_id r;
     _cost_per_config := _cost_per_config r;
     _min_cost_per_config := _min_cost_per_config r;
     _num_trials_per_config := _num_trials_per_config r; _external := _external r;
     _n_objectives := _n_objectives r; _objective_bounds := _objective_bounds r |}.

Definition set_config_id_to_isk_to_budget
    (v : dict Z (dict InstanceSeedKey (list (option pyfloat)))) (r : RunHistory) : RunHistory :=
  {| _overwrite_existing_trials := _overwrite_existing_trials r; _data := _data r;
     _config_id_to_isk_to_budget := v;
     _config_ids := _config_ids r; _ids_config := _ids_config r; _n_id := _n_id r;
     _cost_per_config := _cost_per_config r;
     _min_cost_per_config := _min_cost_per_config r;
     _num_trials_per_config := _num_trials_per_config r; _external := _external r;
     _n_objectives := _n_objectives r; _objective_bounds := _objective_bounds r |}.

Definition set_config_ids (v : dict Configuration Z) (r : RunHistory) : RunHistory :=
  {| _overwrite_existing_trials := _overwrite_existing_trials r; _data := _data r;
     _config_id_to_isk_to_budget := _config_id_to_isk_to_budget r;
     _config_ids := v; _ids_config := _ids_config r; _n_id := _n_id r;
     _cost_per_config := _cost_per_config r;
     _min_cost_per_config := _min_cost_per_config r;
     _num_trials_per_config := _num_trials_per_config r; _external := _external r;
     _n_objectives := _n_objectives r; _objective_bounds := _objective_bounds r |}.

Definition set_ids_config (v : dict Z Configuration) (r : RunHistory) : RunHistory :=
  {| _overwrite_existing_trials := _overwrite_existing_trials r; _data := _data r;
     _config_id_to_isk_to_budget := _config_id_to_isk_to_budget r;
     _config_ids := _config_ids r; _ids_config := v; _n_id := _n_id r;
     _cost_per_config := _cost_per_config r;
     _min_cost_per_config := _min_cost_per_config r;
     _num_trials_per_config := _num_trials_per_config r; _external := _external r;
     _n_objectives := _n_objectives r; _objective_bounds := _objective_bounds r |}.

Definition set_n_id (v : Z) (r : RunHistory) : RunHistory :=
  {| _overwrite_existing_trials := _overwrite_existing_trials r; _data := _data r;
     _config_id_to_isk_to_budget := _config_id_to_isk_to_budget r;
     _config_ids := _config_ids r; _ids_config := _ids_config r; _n_id := v;
     _cost_per_config := _cost_per_config r;
     _min_cost_per_config := _min_cost_per_config r;
     _num_trials_per_config := _num_trials_per_config r; _external := _external r;
     _n_objectives := _n_objectives r; _objective_bounds := _objective_bounds r |}.

Definition set_cost_per_config (v : dict Z cost_t) (r : RunHistory) : RunHistory :=
  {| _overwrite_existing_trials := _overwrite_existing_trials r; _data := _data r;
     _config_id_to_isk_to_budget := _config_id_to_isk_to_budget r;
     _config_ids := _config_ids r; _ids_config := _ids_config r; _n_id := _n_id r;
     _cost_per_config := v;
     _min_cost_per_config := _min_cost_per_config r;
     _num_trials_per_config := _num_trials_per_config r; _external := _external r;
     _n_objectives := _n_objectives r; _objective_bounds := _objective_bounds r |}.

Definition set_min_cost_per_config (v : dict Z cost_t) (r : RunHistory) : RunHistory :=
  {| _overwrite_existing_trials := _overwrite_existing_trials r; _data := _data r;
     _config_id_to_isk_to_budget := _config_id_to_isk_to_budget r;
     _config_ids := _config_ids r; _ids_config := _ids_config r; _n_id := _n_id r;
     _cost_per_config := _cost_per_config r;
     _min_cost_per_config := v;
     _num_trials_per_config := _num_trials_per_config r; _external := _external r;
     _n_objectives := _n_objectives r; _objective_bounds := _objective_bounds r |}.

Definition set_num_trials_per_config (v : dict Z Z) (r : RunHistory) : RunHistory :=
  {| _overwrite_existing_trials := _overwrite_existing_trials r; _data := _data r;
     _config_id_to_isk_to_budget := _config_id_to_isk_to_budget r;
     _config_ids := _config_ids r; _ids_config := _ids_config r; _n_id := _n_id r;
     _cost_per_config := _cost_per_config r;
     _min_cost_per_config := _min_cost_per_config r;
     _num_trials_per_config := v; _external := _external r;
     _n_objectives := _n_objectives r; _objective_bounds := _objective_bounds r |}.

Definition set_external (v : dict TrialKey DataOrigin) (r : RunHistory) : RunHistory :=
  {| _overwrite_existing_trials := _overwrite_existing_trials r; _data := _data r;
     _config_id_to_isk_to_budget := _config_id_to_isk_to_budget r;
     _config_ids := _config_ids r; _ids_config := _ids_config r; _n_id := _n_id r;
     _cost_per_config := _cost_per_config r;
     _min_cost_per_config := _min_cost_per_config r;
     _num_trials_per_config := _num_trials_per_config r; _external := v;
     _n_objectives := _n_objectives r; _objective_bounds := _objective_bounds r |}.

Definition set_n_objectives (v : Z) (r : RunHistory) : RunHistory :=
  {| _overwrite_existing_trials := _overwrite_existing_trials r; _data := _data r;
     _config_id_to_isk_to_budget := _config_id_to_isk_to_budget r;
     _config_ids := _config_ids r; _ids_config := _ids_config r; _n_id := _n_id r;
     _cost_per_config := _cost_per_config r;
     _min_cost_per_config := _min_cost_per_config r;
     _num_trials_per_config := _num_trials_per_config r; _external := _external r;
     _n_objectives := v; _objective_bounds := _objective_bounds r |}.

Definition set_objective_bounds (v : list (pyfloat * pyfloat)) (r : RunHistory) : RunHistory :=
  {| _overwrite_existing_trials := _overwrite_existing_trials r; _data := _data r;
     _config_id_to_isk_to_budget := _config_id_to_isk_to_budget r;
     _config_ids := _config_ids r; _ids_config := _ids_config r; _n_id := _n_id r;
     _cost_per_config := _cost_per_config r;
     _min_cost_per_config := _min_cost_per_config r;
     _num_trials_per_config := _num_trials_per_config r; _external := _external r;
     _n_objectives := _n_objectives r; _objective_bounds := v |}.

End Fields.

(** ** The methods of [RunHistory] *)

Section Methods.
Context `{Collaborators}.

(** [reset()], reached from [__init__]: everything but the overwrite flag
    returns to its default. *)
Definition reset : M unit :=
  modify (fun r =>
    {| _overwrite_existing_trials := _overwrite_existing_trials r;
       _data := [];
       _config_id_to_isk_to_budget := [];
       _config_ids := [];
       _ids_config := [];
       _n_id := 0;
       _cost_per_config := [];
       _min_cost_per_config := [];
       _num_trials_per_config := [];
       _external := [];
       _n_objectives := -1;
       _objective_bounds := [] |}).

(** [RunHistory(overwrite_existing_trials)] *)
Definition RunHistory_init (overwrite_existing_trials : bool) : RunHistory :=
  {| _overwrite_existing_trials := overwrite_existing_trials;
     _data := [];
     _config_id_to_isk_to_budget := [];
     _config_ids := [];
     _ids_config := [];
     _n_id := 0;
     _cost_per_config := [];
     _min_cost_per_config := [];
     _num_trials_per_config := [];
     _external := [];
     _n_objectives := -1;
     _objective_bounds := [] |}.

Definition ledger_len (r : RunHistory) : nat := length (_data r).

Definition empty (r : RunHistory) : bool := Nat.eqb (length (_data r)) 0.

(** *** Reading trials and costs *)

(** One entry of [get_trials] collapsed to its maximal observed budget. *)
Definition max_observed_budget (v : list (option pyfloat)) : outcome (list (option pyfloat)) :=
  if bool_decide (None ∈ v) then Ok [None]
  else
    match PyFloat.builtin_max (omap id v) with
    | Some m => Ok [Some m]
    | None => Raise (ValueError "max() arg is an empty sequence")
    end.

Definition get_trials (r : RunHistory) (config : Configuration)
    (only_max_observed_budget : bool) : outcome (list InstanceSeedBudgetKey) :=
  let config_id := dict_get config (_config_ids r) in
  let trials :=
    match config_id with
    | Some i => dict_get_default i [] (_config_id_to_isk_to_budget r)
    | None => []
    end in
  let? trials :=
    if only_max_observed_budget
    then map_ok (fun kv => let? v := max_observed_budget (snd kv) in Ok (fst kv, v)) trials
    else Ok trials in
  Ok (flat_map (fun kv =>
                  map (fun budget =>
                         {| isb_instance := isk_instance (fst kv);
                            isb_seed := isk_seed (fst kv);
                            isb_budget := budget |})
                      (snd kv))
               trials).

Definition get_configs (r : RunHistory) : list Configuration :=
  dict_keys (_config_ids r).

Definition _cost (r : RunHistory) (config : Configuration)
    (instance_seed_budget_keys : option (list InstanceSeedBudgetKey)) : outcome (list cost_t) :=
  match dict_get config (_config_ids r) with
  | None => Ok []
  | Some id_ =>
      let? keys :=
        match instance_seed_budget_keys with
        | None => get_trials r config true
        | Some keys => Ok keys
        end in
      map_ok
        (fun key =>
           let k := {| config_id := id_; tk_instance := isb_instance key;
                       tk_seed := isb_seed key; tk_budget := isb_budget key |} in
           let? v := subscript (dict_get k (_data r)) "trial key" in
           Ok (cost v))
        keys
  end.

Definition average_cost (r : RunHistory) (config : Configuration)
    (instance_seed_budget_keys : option (list InstanceSeedBudgetKey))
    (normalize : bool) : outcome cost_t :=
  let? costs := _cost r config instance_seed_budget_keys in
  match costs with
  | [] => Ok (CScalar NaN)
  | _ :: _ =>
      if 1 <? _n_objectives r then
        let? averaged_costs := np_mean_axis0 costs in
        if normalize then
          let? normalized_costs := normalize_costs averaged_costs (_objective_bounds r) in
          Ok (CScalar (PyFloat.float (PyFloat.mean normalized_costs)))
        else Ok averaged_costs
      else
        let? m := np_mean costs in Ok (CScalar (PyFloat.float m))
  end.

Definition sum_cost (r : RunHistory) (config : Configuration)
    (instance_seed_budget_keys : option (list InstanceSeedBudgetKey))
    (normalize : bool) : outcome cost_t :=
  let? costs := _cost r config instance_seed_budget_keys in
  let summed := let? s := np_sum costs in Ok (CScalar (PyFloat.float s)) in
  match costs with
  | [] => summed
  | _ :: _ =>
      if 1 <? _n_objectives r then
        let? summed_costs := np_sum_axis0 costs in
        if normalize then
          let? normalized_costs := normalize_costs summed_costs (_objective_bounds r) in
          Ok (CScalar (PyFloat.float (PyFloat.mean normalized_costs)))
        else Ok summed_costs
      else summed
  end.

Definition min_cost (r : RunHistory) (config : Configuration)
    (instance_seed_budget_keys : option (list InstanceSeedBudgetKey))
    (normalize : bool) : outcome cost_t :=
  let? costs := _cost r config instance_seed_budget_keys in
  match costs with
  | [] => Ok (CScalar NaN)
  | _ :: _ =>
      if 1 <? _n_objectives r then
        let? min_costs := np_min_axis0 costs in
        if normalize then
          let? normalized_costs := normalize_costs min_costs (_objective_bounds r) in
          Ok (CScalar (PyFloat.float (PyFloat.mean normalized_costs)))
        else Ok min_costs
      else
        let? m := np_min costs in Ok (CScalar (PyFloat.float m))
  end.

(** The cached value under an optional id: [cache.get(config_id, np.nan)]. *)
Definition cache_get (config_id : option Z) (cache : dict Z cost_t) : cost_t :=
  match config_id with
  | Some i => dict_get_default i (CScalar NaN) cache
  | None => CScalar NaN
  end.

Definition get_cost (r : RunHistory) (config : Configuration) : outcome pyfloat :=
  let config_id := dict_get config (_config_ids r) in
  let cost := cache_get config_id (_cost_per_config r) in
  if 1 <? _n_objectives r then
    match cost with
    | CList _ =>
        let? costs := normalize_costs cost (_objective_bounds r) in
        Ok (PyFloat.float (PyFloat.mean costs))
    | CScalar _ => Raise AssertionError
    end
  else
    match cost with
    | CScalar x => Ok (PyFloat.float x)
    | CList _ => Raise AssertionError
    end.

Definition get_min_cost (r : RunHistory) (config : Configuration) : outcome pyfloat :=
  let config_id := dict_get config (_config_ids r) in
  let cost := cache_get config_id (_min_cost_per_config r) in
  if 1 <? _n_objectives r then
    match cost with
    | CList _ =>
        let? costs := normalize_costs cost (_objective_bounds r) in
        Ok (PyFloat.float (PyFloat.mean costs))
    | CScalar _ => Raise AssertionError
    end
  else
    match cost with
    | CScalar x => Ok (PyFloat.float x)
    | CList _ => Raise AssertionError
    end.

(** The loop of [get_incumbent] over the remaining configurations. *)
Fixpoint incumbent_scan (r : RunHistory) (configs : list Configuration)
    (incumbent : option Configuration) (lowest_cost : pyfloat)
  : outcome (option Configuration) :=
  match configs with
  | [] => Ok incumbent
  | config :: rest =>
      let? cost := get_cost r config in
      if PyFloat.ltb cost lowest_cost
      then incumbent_scan r rest (Some config) cost
      else incumbent_scan r rest incumbent lowest_cost
  end.

Definition get_incumbent (r : RunHistory) : outcome (option Configuration) :=
  incumbent_scan r (dict_keys (_config_ids r)) None PInf.

End Methods.

(** ** Updating the ledger *)

Section Updates.
Context `{Collaborators}.

(** *** The cost caches *)

Definition update_cost (config : Configuration) : M unit :=
  let* config_id := query (fun r => subscript (dict_get config (_config_ids r)) "config") in
  let* inst_seed_budgets :=
    query (fun r => let? t := get_trials r config true in Ok (dict_fromkeys t)) in
  let* average := query (fun r => average_cost r config (Some inst_seed_budgets) false) in
  modify (fun r => set_cost_per_config (dict_set config_id average (_cost_per_config r)) r) ;;;
  modify (fun r => set_num_trials_per_config
                     (dict_set config_id (Z.of_nat (length inst_seed_budgets))
                               (_num_trials_per_config r)) r) ;;;
  let* all_isb :=
    query (fun r => let? t := get_trials r config false in Ok (dict_fromkeys t)) in
  let* minimum := query (fun r => min_cost r config (Some all_isb) false) in
  modify (fun r => set_min_cost_per_config (dict_set config_id minimum (_min_cost_per_config r)) r).

(** numpy arithmetic on cost vectors, with broadcasting. *)
Definition np_broadcast (f : pyfloat -> pyfloat -> pyfloat) (a b : cost_t) : outcome cost_t :=
  match a, b with
  | CScalar x, CScalar y => Ok (CScalar (f x y))
  | CScalar x, CList l => Ok (CList (map (f x) l))
  | CList l, CScalar y => Ok (CList (map (fun x => f x y) l))
  | CList [x], CList l => Ok (CList (map (f x) l))
  | CList l, CList [y] => Ok (CList (map (fun x => f x y) l))
  | CList l1, CList l2 =>
      if Nat.eqb (length l1) (length l2) then Ok (CList (zip_with_float f l1 l2))
      else Raise (ValueError "operands could not be broadcast together")
  end.

Definition incremental_update_cost (config : Configuration) (cost : cost_t) : M unit :=
  let* config_id := query (fun r => subscript (dict_get config (_config_ids r)) "config") in
  let* n_trials := read (fun r => dict_get_default config_id 0 (_num_trials_per_config r)) in
  let* n_objectives := read _n_objectives in
  (if 1 <? n_objectives then
     let costs := cost in
     let* old_costs :=
       read (fun r => dict_get_default config_id
                        (CList (repeat (Fin 0) (Z.to_nat n_objectives)))
                        (_cost_per_config r)) in
     let* scaled := lift (np_broadcast PyFloat.mul old_costs (CScalar (PyFloat.of_Z n_trials))) in
     let* summed := lift (np_broadcast PyFloat.add scaled costs) in
     let* new_costs :=
       lift (np_broadcast PyFloat.np_div summed (CScalar (PyFloat.of_Z (n_trials + 1)))) in
     modify (fun r => set_cost_per_config (dict_set config_id new_costs (_cost_per_config r)) r)
   else
     let* old_cost := read (fun r => dict_get_default config_id (CScalar (Fin 0)) (_cost_per_config r)) in
     match cost, old_cost with
     | CScalar c, CScalar old =>
         if n_trials + 1 =? 0 then raise ZeroDivisionError
         else
           modify (fun r =>
             set_cost_per_config
               (dict_set config_id
                  (CScalar (PyFloat.np_div
                              (PyFloat.add (PyFloat.mul old (PyFloat.of_Z n_trials)) c)
                              (PyFloat.of_Z (n_trials + 1))))
                  (_cost_per_config r)) r)
     | _, _ => raise AssertionError
     end) ;;;
  modify (fun r => set_num_trials_per_config
                     (dict_set config_id (n_trials + 1) (_num_trials_per_config r)) r).

(** The body of the loop of [update_costs] for one registered configuration. *)
Definition update_costs_step (instances : option (list string))
    (entry : Configuration * Z) : M unit :=
  let config := fst entry in
  let config_id := snd entry in
  let* inst_seed_budgets :=
    query (fun r => let? t := get_trials r config true in Ok (dict_fromkeys t)) in
  let inst_seed_budgets :=
    match instances with
    | None => inst_seed_budgets
    | Some instances =>
        List.filter (fun x => match isb_instance x with
                              | Some i => bool_decide (i ∈ instances)
                              | None => false
                              end) inst_seed_budgets
    end in
  match inst_seed_budgets with
  | [] => ret tt
  | _ :: _ =>
      let* average := query (fun r => average_cost r config (Some inst_seed_budgets) false) in
      modify (fun r => set_cost_per_config (dict_set config_id average (_cost_per_config r)) r) ;;;
      let* minimum := query (fun r => min_cost r config (Some inst_seed_budgets) false) in
      modify (fun r => set_min_cost_per_config
                         (dict_set config_id minimum (_min_cost_per_config r)) r) ;;;
      modify (fun r => set_num_trials_per_config
                         (dict_set config_id (Z.of_nat (length inst_seed_budgets))
                                   (_num_trials_per_config r)) r)
  end.

Definition update_costs (instances : option (list string)) : M unit :=
  modify (set_cost_per_config []) ;;;
  modify (set_num_trials_per_config []) ;;;
  let* configs := read _config_ids in
  for_each configs (update_costs_step instances).

(** *** Objective bounds *)

(** The rows [_update_objective_bounds] collects: the cost of every
    [SUCCESS] trial, a float wrapped into a one-element row. *)
Fixpoint collect_costs (n_objectives : Z) (values : list TrialValue)
  : outcome (list (list pyfloat)) :=
  match values with
  | [] => Ok []
  | run_value :: rest =>
      if decide (status run_value = SUCCESS) then
        let costs := match cost run_value with CScalar x => [x] | CList l => l end in
        let? _ := assert (Z.of_nat (length costs) =? n_objectives) in
        let? more := collect_costs n_objectives rest in
        Ok (costs :: more)
      else collect_costs n_objectives rest
  end.

Definition _update_objective_bounds : M unit :=
  let* all_costs := query (fun r => collect_costs (_n_objectives r) (dict_values (_data r))) in
  match reduce_axis0 PyFloat.np_minimum all_costs,
        reduce_axis0 PyFloat.np_maximum all_costs with
  | Some min_values, Some max_values =>
      modify (set_objective_bounds (combine min_values max_values))
  | _, _ =>
      modify (fun r => set_objective_bounds
                         (repeat (PInf, NInf) (Z.to_nat (_n_objectives r))) r)
  end.

(** *** Insertion *)

(** [isinstance(x, str)] for an [InstanceSeedKey]: the key object is a
    dataclass instance, never a string. *)
Definition isinstance_str (x : InstanceSeedKey) : bool := false.

(** [isinstance(b, float)] for a budget, which is a float or [None]. *)
Definition isinstance_float (b : option pyfloat) : bool :=
  match b with Some _ => true | None => false end.

(** [k.budget != isk.instance]: a float never equals a string. *)
Definition budget_ne_instance (b : option pyfloat) (i : option string) : bool :=
  match b, i with
  | None, None => false
  | _, _ => true
  end.

(** [k.budget != isk.seed]: a float and an integer compare by value. *)
Definition budget_ne_seed (b : option pyfloat) (s : option Z) : bool :=
  match b, s with
  | None, None => false
  | Some f, Some z => negb (PyFloat.eqb f (PyFloat.of_Z z))
  | _, _ => true
  end.

(** [k.budget == 0] *)
Definition budget_eq_zero (b : option pyfloat) : bool :=
  match b with
  | Some f => PyFloat.eqb f PyFloat.zero
  | None => false
  end.

(** [origin in (INTERNAL, EXTERNAL_SAME_INSTANCES) and status != RUNNING] *)
Definition registers_cost (origin : DataOrigin) (status : StatusType) : bool :=
  bool_decide (origin ∈ [INTERNAL; EXTERNAL_SAME_INSTANCES])
  && negb (bool_decide (status = RUNNING)).

Definition set_isk_budgets (config_id : Z) (isk : InstanceSeedKey)
    (budgets : list (option pyfloat)) (r : RunHistory) : RunHistory :=
  let m := _config_id_to_isk_to_budget r in
  set_config_id_to_isk_to_budget
    (dict_set config_id (dict_set isk budgets (dict_get_default config_id [] m)) m) r.

Definition _add (k : TrialKey) (v : TrialValue) (status : StatusType)
    (origin : DataOrigin) : M unit :=
  modify (fun r => set_data (dict_set k v (_data r)) r) ;;;
  modify (fun r => set_external (dict_set k origin (_external r)) r) ;;;
  _update_objective_bounds ;;;
  if registers_cost origin status then
    let isk := {| isk_instance := tk_instance k; isk_seed := tk_seed k |} in
    modify (fun r =>
      let m := _config_id_to_isk_to_budget r in
      set_config_id_to_isk_to_budget
        (dict_set (config_id k) (dict_get_default (config_id k) [] m) m) r) ;;;
    let* recorded :=
      query (fun r => subscript (dict_get (config_id k) (_config_id_to_isk_to_budget r))
                                "config id") in
    for_each (dict_keys recorded)
      (fun isk_ =>
         if negb (Bool.eqb (isinstance_str isk_) (isinstance_str isk))
         then raise (ValueError "Can not mix instances of different types.")
         else ret tt) ;;;
    match dict_get isk recorded with
    | None => modify (set_isk_budgets (config_id k) isk [tk_budget k])
    | Some budgets =>
        if budget_ne_instance (tk_budget k) (isk_instance isk)
           && budget_ne_seed (tk_budget k) (isk_seed isk)
        then
          let* first :=
            lift (match budgets with
                  | b :: _ => Ok b
                  | [] => Raise (IndexError "list index out of range")
                  end) in
          if negb (Bool.eqb (isinstance_float first) (isinstance_float (tk_budget k)))
          then raise (ValueError
                        "Can not mix budgets of different types for the same instance-seed pair.")
          else modify (set_isk_budgets (config_id k) isk (budgets ++ [tk_budget k]))
        else ret tt
    end ;;;
    let* overwrite := read _overwrite_existing_trials in
    if negb overwrite && budget_eq_zero (tk_budget k) then
      log DEBUG "Incremental update cost for config" ;;;
      let* config := query (fun r => subscript (dict_get (config_id k) (_ids_config r))
                                               "config id") in
      incremental_update_cost config (cost v)
    else
      log DEBUG "Update cost for config" ;;;
      let* config := query (fun r => subscript (dict_get (config_id k) (_ids_config r))
                                               "config id") in
      update_cost config
  else ret tt.

(** [np.asarray(cost).squeeze()] and [np.size] of the result. *)
Definition squeeze (c : cost_t) : cost_t :=
  match c with
  | CList [x] => CScalar x
  | _ => c
  end.

Definition np_size (c : cost_t) : Z :=
  match c with
  | CScalar _ => 1
  | CList l => Z.of_nat (length l)
  end.

(** [cost_array.tolist()] turned into floats: [float(c)] for one
    objective, [[float(i) for i in c]] otherwise. *)
Definition to_floats (n_objectives : Z) (cost_array : cost_t) : outcome cost_t :=
  if n_objectives =? 1 then
    match cost_array with
    | CScalar x => Ok (CScalar (PyFloat.float x))
    | CList _ => Raise (TypeError "float() argument must be a string or a real number")
    end
  else
    match cost_array with
    | CList l => Ok (CList (map PyFloat.float l))
    | CScalar _ => Raise (TypeError "'float' object is not iterable")
    end.

Definition _check_json_serializable (key : string) (obj : pyval)
    (trial_key : TrialKey) (trial_value : TrialValue) : outcome unit :=
  if json_serializable obj then Ok tt
  else Raise (ValueError ("Cannot add " ++ key
                ++ " to runhistory because it raises an error during JSON encoding")).

Definition pyval_of_cost (c : cost_t) : pyval :=
  match c with
  | CScalar x => PyFloat x
  | CList l => PyList (map PyFloat l)
  end.

Definition pyval_of_option {A} (f : A -> pyval) (o : option A) : pyval :=
  match o with
  | Some a => f a
  | None => PyNone
  end.

Definition cardinality_message : string :=
  "Cost is not of the same length as the number of objectives".

Definition duplicate_message : string :=
  "Entry was not added to the runhistory because existing trials will not be overwritten.".

(** [add].  The two [TypeError] guards on [config] are discharged by its
    type. *)
Definition add (config : Configuration) (cost : cost_t) (time : pyfloat)
    (status : StatusType) (instance : option string) (seed : option Z)
    (budget : option pyfloat) (starttime endtime : pyfloat) (additional_info : pyval)
    (origin : DataOrigin) (force_update : bool) : M unit :=
  let cost_array := squeeze cost in
  let n_objectives := np_size cost_array in
  let* config_id := read (fun r => dict_get config (_config_ids r)) in
  let* config_id :=
    match config_id with
    | Some i => ret i
    | None =>
        modify (fun r => set_n_id (_n_id r + 1) r) ;;;
        modify (fun r => set_config_ids (dict_set config (_n_id r) (_config_ids r)) r) ;;;
        modify (fun r => set_ids_config (dict_set (_n_id r) config (_ids_config r)) r) ;;;
        read _n_id
    end in
  let* known := read _n_objectives in
  (if known =? -1 then modify (set_n_objectives n_objectives)
   else if negb (known =? n_objectives)
        then raise (ValueError cardinality_message)
        else ret tt) ;;;
  let* fixed := read _n_objectives in
  let* c := lift (to_floats fixed cost_array) in
  let budget := option_map PyFloat.float budget in
  let k := {| config_id := config_id; tk_instance := instance;
              tk_seed := seed; tk_budget := budget |} in
  let v := Build_TrialValue c time status starttime endtime additional_info in
  for_each
    [ ("config", get_dictionary config);
      ("config_id", PyInt config_id);
      ("instance", pyval_of_option PyStr instance);
      ("seed", pyval_of_option PyInt seed);
      ("budget", pyval_of_option PyFloat budget);
      ("cost", pyval_of_cost c);
      ("time", PyFloat time);
      ("status", PyInt (status_value status));
      ("starttime", PyFloat starttime);
      ("endtime", PyFloat endtime);
      ("additional_info", additional_info);
      ("origin", Configuration_origin config) ]
    (fun kv => lift (_check_json_serializable (fst kv) (snd kv) k v)) ;;;
  let* present := read (fun r => dict_contains k (_data r)) in
  let* overwrite := read _overwrite_existing_trials in
  if overwrite || force_update || negb present then _add k v status origin
  else log INFO duplicate_message.

End Updates.

(** ** Persistence *)

(** Python's dynamic operations on a parsed JSON document. *)
Module Py.

(** [str(i)] and [int(s)] for decimal numerals. *)
Definition str_of_int (z : Z) : string := NilZero.string_of_int (Z.to_int z).

Definition int_of_str (s : string) : outcome Z :=
  match NilZero.int_of_string s with
  | Some d => Ok (Z.of_int d)
  | None => Raise (ValueError "invalid literal for int() with base 10")
  end.

(** [d.get(key, default)] *)
Definition get (d : pyval) (key : string) (default : pyval) : outcome pyval :=
  match d with
  | PyDict l => Ok (dict_get_default key default l)
  | _ => Raise (AttributeError "object has no attribute 'get'")
  end.

(** [d[key]] for a string key *)
Definition getitem (d : pyval) (key : string) : outcome pyval :=
  match d with
  | PyDict l => subscript (dict_get key l) key
  | PyList _ | PyStr _ => Raise (TypeError "indices must be integers")
  | _ => Raise (TypeError "object is not subscriptable")
  end.

(** [d.items()] *)
Definition items (d : pyval) : outcome (list (string * pyval)) :=
  match d with
  | PyDict l => Ok l
  | _ => Raise (AttributeError "object has no attribute 'items'")
  end.

Fixpoint chars (s : string) : list pyval :=
  match s with
  | EmptyString => []
  | String a r => PyStr (String a EmptyString) :: chars r
  end.

(** [for x in v] *)
Definition iter (v : pyval) : outcome (list pyval) :=
  match v with
  | PyList l => Ok l
  | PyDict d => Ok (map (fun kv => PyStr (fst kv)) d)
  | PyStr s => Ok (chars s)
  | _ => Raise (TypeError "object is not iterable")
  end.

(** [v[i]] for a non-negative integer literal [i] *)
Definition index (v : pyval) (i : nat) : outcome pyval :=
  match v with
  | PyList l =>
      match nth_error l i with
      | Some x => Ok x
      | None => Raise (IndexError "list index out of range")
      end
  | PyStr s =>
      match nth_error (chars s) i with
      | Some x => Ok x
      | None => Raise (IndexError "string index out of range")
      end
  | PyDict _ => Raise (KeyError "integer key")
  | _ => Raise (TypeError "object is not subscriptable")
  end.

(** [len(v)] *)
Definition len (v : pyval) : outcome Z :=
  match v with
  | PyList l => Ok (Z.of_nat (length l))
  | PyDict d => Ok (Z.of_nat (length d))
  | PyStr s => Ok (Z.of_nat (String.length s))
  | _ => Raise (TypeError "object has no len()")
  end.

(** [isinstance(v, float) or isinstance(v, int)]; a bool is an int. *)
Definition is_number (v : pyval) : bool :=
  match v with
  | PyFloat _ | PyInt _ | PyBool _ => true
  | _ => false
  end.

(** [float(v)].  Of the strings only the integer numerals are read. *)
Definition float (v : pyval) : outcome pyfloat :=
  match v with
  | PyFloat f => Ok (PyFloat.float f)
  | PyInt z => Ok (PyFloat.of_Z z)
  | PyBool b => Ok (PyFloat.of_Z (if b then 1 else 0))
  | PyStr s =>
      match NilZero.int_of_string s with
      | Some d => Ok (PyFloat.of_Z (Z.of_int d))
      | None => Raise (ValueError "could not convert string to float")
      end
  | _ => Raise (TypeError "float() argument must be a string or a real number")
  end.

(** [int(v)]; a finite float is truncated towards zero. *)
Definition int (v : pyval) : outcome Z :=
  match v with
  | PyInt z => Ok z
  | PyBool b => Ok (if b then 1 else 0)
  | PyFloat (Fin q) => Ok (Z.quot (Qnum q) (Z.pos (Qden q)))
  | PyFloat NaN => Raise (ValueError "cannot convert float NaN to integer")
  | PyFloat _ => Raise (ValueError "cannot convert float infinity to integer")
  | PyStr s => int_of_str s
  | _ => Raise (TypeError "int() argument must be a string or a real number")
  end.

(** A value handed to a parameter annotated [str | None], [int | None] or
    [float | None].  The typed ledger holds nothing else: a document with
    another type in such a field is stopped here. *)
Definition optional_str (v : pyval) : outcome (option string) :=
  match v with
  | PyNone => Ok None
  | PyStr s => Ok (Some s)
  | _ => Raise (TypeError "instance must be str or None")
  end.

Definition optional_int (v : pyval) : outcome (option Z) :=
  match v with
  | PyNone => Ok None
  | PyInt z => Ok (Some z)
  | _ => Raise (TypeError "seed must be int or None")
  end.

Definition optional_float (v : pyval) : outcome (option pyfloat) :=
  match v with
  | PyNone => Ok None
  | PyFloat f => Ok (Some f)
  | PyInt z => Ok (Some (PyFloat.of_Z z))
  | _ => Raise (TypeError "budget must be float or None")
  end.

Definition number (v : pyval) : outcome pyfloat :=
  match v with
  | PyFloat f => Ok f
  | PyInt z => Ok (PyFloat.of_Z z)
  | _ => Raise (TypeError "must be float")
  end.

(** [StatusType(v)] *)
Definition status_type (v : pyval) : outcome StatusType :=
  match v with
  | PyInt z => StatusType_of_value z
  | PyBool b => StatusType_of_value (if b then 1 else 0)
  | _ => Raise (ValueError "not a valid StatusType")
  end.

(** [s.endswith(suffix)] *)
Definition endswith (s suffix : string) : bool :=
  let n := String.length s in
  let m := String.length suffix in
  (m <=? n)%nat && String.eqb (String.substring (n - m) m s) suffix.

End Py.

Section Persistence.
Context `{Collaborators}.

Definition warning_message : string :=
  "Encountered exception while reading runhistory. Not adding any trials!".

Definition get_file (filename : string) : M (option file) :=
  fun w => (Ok (dict_get filename (files w)), w).

Definition put_file (filename : string) (f : file) : M unit :=
  fun w => (Ok tt, {| self := self w; logged := logged w;
                      files := dict_set filename f (files w) |}).

(** One tuple of the [data] list of [save_json], as the JSON encoder
    writes it. *)
Definition json_entry (k : TrialKey) (v : TrialValue) : pyval :=
  PyList [ PyInt (config_id k);
           pyval_of_option PyStr (tk_instance k);
           pyval_of_option PyInt (tk_seed k);
           pyval_of_option (fun b => PyFloat (PyFloat.float b)) (tk_budget k);
           pyval_of_cost (cost v);
           PyFloat (time v);
           PyInt (status_value (status v));
           PyFloat (starttime v);
           PyFloat (endtime v);
           additional_info v ].

Fixpoint saved_entries (r : RunHistory) (save_external : bool)
    (items : list (TrialKey * TrialValue)) : outcome (list (TrialKey * TrialValue)) :=
  match items with
  | [] => Ok []
  | (k, v) :: rest =>
      let? keep :=
        if save_external then Ok true
        else let? o := subscript (dict_get k (_external r)) "trial key" in
             Ok (bool_decide (o = INTERNAL)) in
      let? more := saved_entries r save_external rest in
      Ok (if keep then (k, v) :: more else more)
  end.

(** [save_json].  The directory can be created and the file written; an
    object the encoder rejects leaves a truncated file behind. *)
Definition save_json (filename : string) (save_external : bool) : M unit :=
  let* entries := query (fun r => saved_entries r save_external (_data r)) in
  let data := map (fun kv => json_entry (fst kv) (snd kv)) entries in
  let config_ids_to_serialize := map (fun kv => config_id (fst kv)) entries in
  let* ids_config := read _ids_config in
  let configs :=
    flat_map (fun ic => if bool_decide (fst ic ∈ config_ids_to_serialize)
                        then [(Py.str_of_int (fst ic), get_dictionary (snd ic))]
                        else []) ids_config in
  let config_origins :=
    map (fun ic => (Py.str_of_int (fst ic), Configuration_origin (snd ic))) ids_config in
  lift (assert (Py.endswith filename ".json")) ;;;
  let doc := PyDict [ ("data", PyList data);
                      ("configs", PyDict configs);
                      ("config_origins", PyDict config_origins) ] in
  if json_serializable doc then put_file filename (JsonText doc)
  else put_file filename NotJson ;;;
       raise (TypeError "Object is not JSON serializable").

(** The body of the loop of [load_json] over [all_data["data"]]. *)
Definition load_entry (entry : pyval) : M unit :=
  let* known := read _n_objectives in
  (if known =? -1 then
     let* e4 := lift (Py.index entry 4) in
     if Py.is_number e4 then modify (set_n_objectives 1)
     else let* n := lift (Py.len e4) in modify (set_n_objectives n)
   else ret tt) ;;;
  let* fixed := read _n_objectives in
  let* e4 := lift (Py.index entry 4) in
  let* cost :=
    lift (if fixed =? 1 then let? x := Py.float e4 in Ok (CScalar x)
          else let? xs := Py.iter e4 in
               let? l := map_ok Py.float xs in Ok (CList l)) in
  let* e0 := lift (Py.index entry 0) in
  let* id_ := lift (Py.int e0) in
  let* config := query (fun r => subscript (dict_get id_ (_ids_config r)) "config id") in
  let* e5 := lift (Py.index entry 5) in
  let* time := lift (Py.float e5) in
  let* e6 := lift (Py.index entry 6) in
  let* status := lift (Py.status_type e6) in
  let* e1 := lift (Py.index entry 1) in
  let* instance := lift (Py.optional_str e1) in
  let* e2 := lift (Py.index entry 2) in
  let* seed := lift (Py.optional_int e2) in
  let* e3 := lift (Py.index entry 3) in
  let* budget := lift (Py.optional_float e3) in
  let* e7 := lift (Py.index entry 7) in
  let* starttime := lift (Py.number e7) in
  let* e8 := lift (Py.index entry 8) in
  let* endtime := lift (Py.number e8) in
  let* additional_info := lift (Py.index entry 9) in
  add config cost time status instance seed budget starttime endtime additional_info
      INTERNAL false.

Definition load_json (filename : string) (configspace : ConfigurationSpace) : M unit :=
  let* f := get_file filename in
  match f with
  | None | Some Unreadable | Some NotJson =>
      log WARNING warning_message
  | Some (JsonText all_data) =>
      let* config_origins := lift (Py.get all_data "config_origins" (PyDict [])) in
      modify (set_ids_config []) ;;;
      let* configs := lift (let? c := Py.getitem all_data "configs" in Py.items c) in
      for_each configs
        (fun iv =>
           let* origin := lift (Py.get config_origins (fst iv) PyNone) in
           let* config := lift (Configuration_init configspace (snd iv) origin) in
           let* id_ := lift (Py.int_of_str (fst iv)) in
           modify (fun r => set_ids_config (dict_set id_ config (_ids_config r)) r)) ;;;
      modify (fun r =>
        set_config_ids
          (fold_left (fun d ic => dict_set (snd ic) (fst ic) d) (_ids_config r) []) r) ;;;
      modify (fun r => set_n_id (Z.of_nat (length (_config_ids r))) r) ;;;
      let* entries := lift (let? d := Py.getitem all_data "data" in Py.iter d) in
      for_each entries load_entry
  end.

End Persistence.

(** * Reasoning about the ledger *)

(** ** Auxiliary definitions *)

Section Helpers.
Context `{Collaborators}.

(** [m] does not change the part [proj] of the world. *)
Definition keeps {A B} (proj : World -> B) (m : M A) : Prop :=
  forall w, proj (snd (m w)) = proj w.


(** The attributes a cost update never touches. *)
Definition registry (w : World) :=
  (_overwrite_existing_trials (self w), _config_ids (self w), _ids_config (self w),
   _n_id (self w), _n_objectives (self w)).

Definition ledger (w : World) :=
  (_data (self w), _external (self w), _objective_bounds (self w)).

Definition budgets (w : World) := _config_id_to_isk_to_budget (self w).

Definition caches (w : World) :=
  (_cost_per_config (self w), _min_cost_per_config (self w),
   _num_trials_per_config (self w)).


Definition with_self (w : World) (r : RunHistory) : World :=
  {| self := r; logged := logged w; files := files w |}.

(** The first exception of a loop whose body only checks. *)
Fixpoint first_failure {A} (f : A -> outcome unit) (l : list A) : outcome unit :=
  match l with
  | [] => Ok tt
  | x :: r => match f x with Ok _ => first_failure f r | Raise e => Raise e end
  end.


(** The ledger once [config] has its id. *)
Definition register (config : Configuration) (r : RunHistory) : RunHistory :=
  match dict_get config (_config_ids r) with
  | Some _ => r
  | None =>
      set_ids_config (dict_set (_n_id r + 1) config (_ids_config r))
        (set_config_ids (dict_set config (_n_id r + 1) (_config_ids r))
           (set_n_id (_n_id r + 1) r))
  end.

Definition id_of (config : Configuration) (r : RunHistory) : Z :=
  match dict_get config (_config_ids r) with
  | Some i => i
  | None => _n_id r + 1
  end.

Definition fix_objectives (n : Z) (r : RunHistory) : RunHistory :=
  if _n_objectives r =? -1 then set_n_objectives n r else r.

Definition payload (config : Configuration) (config_id : Z) (instance : option string)
    (seed : option Z) (budget : option pyfloat) (c : cost_t) (time : pyfloat)
    (status : StatusType) (starttime endtime : pyfloat) (additional_info : pyval)
  : list (string * pyval) :=
  [ ("config", get_dictionary config);
    ("config_id", PyInt config_id);
    ("instance", pyval_of_option PyStr instance);
    ("seed", pyval_of_option PyInt seed);
    ("budget", pyval_of_option PyFloat budget);
    ("cost", pyval_of_cost c);
    ("time", PyFloat time);
    ("status", PyInt (status_value status));
    ("starttime", PyFloat starttime);
    ("endtime", PyFloat endtime);
    ("additional_info", additional_info);
    ("origin", Configuration_origin config) ].



(** Any exception but the objective-count mismatch of [add]. *)
Definition benign (e : exn) : Prop := e <> ValueError cardinality_message.

Definition osafe {A} (o : outcome A) : Prop :=
  match o with Ok _ => True | Raise e => benign e end.

Definition msafe {A} (m : M A) : Prop := forall w, osafe (fst (m w)).


Definition payload_ok (config : Configuration) (additional_info : pyval) : bool :=
  json_serializable (get_dictionary config)
  && json_serializable additional_info
  && json_serializable (Configuration_origin config).


(** What [_update_objective_bounds] assigns, from the rows it collected. *)
Definition bounds_of_rows (n_objectives : Z) (rows : list (list pyfloat))
  : list (pyfloat * pyfloat) :=
  match reduce_axis0 PyFloat.np_minimum rows, reduce_axis0 PyFloat.np_maximum rows with
  | Some min_values, Some max_values => combine min_values max_values
  | _, _ => repeat (PInf, NInf) (Z.to_nat n_objectives)
  end.

End Helpers.

(** ** Sequences of calls *)

Section Calls.
Context `{Collaborators}.

(** The arguments of one call of [add]. *)
Record add_call := {
  call_config : Configuration;
  call_cost : cost_t;
  call_time : pyfloat;
  call_status : StatusType;
  call_instance : option string;
  call_seed : option Z;
  call_budget : option pyfloat;
  call_starttime : pyfloat;
  call_endtime : pyfloat;
  call_additional_info : pyval;
  call_origin : DataOrigin;
  call_force_update : bool
}.

Definition call (a : add_call) : M unit :=
  add (call_config a) (call_cost a) (call_time a) (call_status a) (call_instance a)
      (call_seed a) (call_budget a) (call_starttime a) (call_endtime a)
      (call_additional_info a) (call_origin a) (call_force_update a).

(** The world after a sequence of calls, whatever each one returned. *)
Definition after_calls (calls : list add_call) (w : World) : World :=
  fold_left (fun w a => snd (call a w)) calls w.

(** The number of objectives a cost argument stands for. *)
Definition cardinality (cost : cost_t) : Z := np_size (squeeze cost).

(** The key and the value [add] builds for a call. *)
Definition key_of_call (r : RunHistory) (a : add_call) : TrialKey :=
  {| config_id := id_of (call_config a) r;
     tk_instance := call_instance a;
     tk_seed := call_seed a;
     tk_budget := option_map PyFloat.float (call_budget a) |}.

Definition value_of_call (c : cost_t) (a : add_call) : TrialValue :=
  {| cost := c; time := call_time a; status := call_status a;
     starttime := call_starttime a; endtime := call_endtime a;
     additional_info := call_additional_info a |}.

End Calls.

Section Unrecorded.
Context `{Collaborators}.

(** A configuration the ledger holds no data for: it has no id, or its
    id has neither recorded trials nor cached costs. *)
Definition unrecorded (r : RunHistory) (config : Configuration) : Prop :=
  match dict_get config (_config_ids r) with
  | None => True
  | Some i =>
      dict_get i (_config_id_to_isk_to_budget r) = None
      /\ dict_get i (_cost_per_config r) = None
      /\ dict_get i (_min_cost_per_config r) = None
  end.

End Unrecorded.

(** ** Reachable ledgers and the bounds the spec describes *)

Section Reachable.
Context `{Collaborators}.

(** The worlds a caller can produce with [add] on a new ledger. *)
Inductive reachable : World -> Prop :=
| reachable_init overwrite lg fs :
    reachable {| self := RunHistory_init overwrite; logged := lg; files := fs |}
| reachable_call a w :
    reachable w -> reachable (snd (call a w)).

(** The cost of objective [j] of a trial. *)
Definition objective (j : nat) (c : cost_t) : pyfloat :=
  match c with
  | CScalar x => nth j [x] NaN
  | CList l => nth j l NaN
  end.

(** The costs of the trials whose status is [SUCCESS]. *)
Definition success_costs (data : dict TrialKey TrialValue) : list cost_t :=
  map (fun kv => cost (snd kv))
      (List.filter (fun kv => bool_decide (status (snd kv) = SUCCESS)) data).

(** The pair (minimum, maximum) of a list of numbers, [(inf, -inf)] when
    there is none. *)
Definition min_max (xs : list pyfloat) : pyfloat * pyfloat :=
  match xs with
  | [] => (PInf, NInf)
  | x :: rest => (fold_left PyFloat.np_minimum rest x, fold_left PyFloat.np_maximum rest x)
  end.

(** The objective bounds in the words of the spec: per objective, the
    minimum and maximum of that objective's cost over the [SUCCESS] trials. *)
Definition objective_bounds_spec (n_objectives : Z) (data : dict TrialKey TrialValue)
  : list (pyfloat * pyfloat) :=
  map (fun j => min_max (map (objective j) (success_costs data)))
      (seq 0 (Z.to_nat n_objectives)).

(** The row a stored cost contributes to the matrix of costs. *)
Definition row (c : cost_t) : list pyfloat :=
  match c with
  | CScalar x => [x]
  | CList l => l
  end.

(** Every stored cost has as many entries as there are objectives. *)
Definition costs_fit (r : RunHistory) : Prop :=
  forall k v, In (k, v) (_data r) -> Z.of_nat (length (row (cost v))) = _n_objectives r.

(** The invariant behind the bounds: stored costs fit the objective
    count, and once a trial is stored the bounds are the spec's. *)
Definition bounds_invariant (r : RunHistory) : Prop :=
  costs_fit r
  /\ (_data r <> [] ->
      _objective_bounds r = objective_bounds_spec (_n_objectives r) (_data r)).

End Reachable.

(** ** A concrete collaborator, to run the ledger *)

(** A configuration space with one integer hyperparameter [x] in a range;
    a configuration is the value of [x].  Costs are normalised objective by
    objective as [(v - lo) / (hi - lo)]. *)
Module Toy.

Definition in_space (space : Z * Z) (x : Z) : bool :=
  (fst space <=? x) && (x <=? snd space).

Definition init (space : Z * Z) (values origin : pyval) : outcome Z :=
  match values with
  | PyDict [(name, PyInt x)] =>
      if String.eqb name "x" && in_space space x then Ok x
      else Raise (ValueError "illegal configuration")
  | _ => Raise (ValueError "illegal configuration")
  end.

Definition normalize (c : cost_t) (bounds : list (pyfloat * pyfloat)) : outcome (list pyfloat) :=
  match c with
  | CScalar _ => Raise (TypeError "zip argument #1 must support iteration")
  | CList values =>
      if negb (Nat.eqb (length values) (length bounds))
      then Raise (ValueError "Number of values and bounds must be equal.")
      else Ok (map (fun vb =>
                      PyFloat.np_div
                        (PyFloat.add (fst vb) (PyFloat.neg (fst (snd vb))))
                        (PyFloat.add (snd (snd vb)) (PyFloat.neg (fst (snd vb)))))
                   (combine values bounds))
  end.

#[export] Instance collaborators : Collaborators := {|
  Configuration := Z;
  ConfigurationSpace := Z * Z;
  get_dictionary := fun x => PyDict [("x", PyInt x)];
  Configuration_origin := fun _ => PyStr "toy";
  Configuration_init := init;
  normalize_costs := normalize
|}.

(** A fresh ledger in a world with an empty log and no files. *)
Definition fresh (overwrite_existing_trials : bool) : World :=
  {| self := RunHistory_init overwrite_existing_trials; logged := []; files := [] |}.

(** Running a method and then another one, whatever the first returned. *)
Definition then_ {A B} (w : outcome A * World) (m : M B) : outcome B * World :=
  m (snd w).

End Toy.

(** ** Concrete runs *)

Module Run.
Import Toy.

(** A finished, internally produced trial of configuration [x]. *)
Definition trial (x : Z) (cost : cost_t) (instance : option string) (seed : option Z)
    (budget : option pyfloat) : add_call :=
  {| call_config := x; call_cost := cost; call_time := Fin 0;
     call_status := SUCCESS; call_instance := instance; call_seed := seed;
     call_budget := budget; call_starttime := Fin 0; call_endtime := Fin 0;
     call_additional_info := PyDict []; call_origin := INTERNAL;
     call_force_update := false |}.

Definition forced (a : add_call) : add_call :=
  {| call_config := call_config a; call_cost := call_cost a; call_time := call_time a;
     call_status := call_status a; call_instance := call_instance a;
     call_seed := call_seed a; call_budget := call_budget a;
     call_starttime := call_starttime a; call_endtime := call_endtime a;
     call_additional_info := call_additional_info a; call_origin := call_origin a;
     call_force_update := true |}.

Definition with_status (s : StatusType) (a : add_call) : add_call :=
  {| call_config := call_config a; call_cost := call_cost a; call_time := call_time a;
     call_status := s; call_instance := call_instance a;
     call_seed := call_seed a; call_budget := call_budget a;
     call_starttime := call_starttime a; call_endtime := call_endtime a;
     call_additional_info := call_additional_info a; call_origin := call_origin a;
     call_force_update := call_force_update a |}.

Definition with_info (info : pyval) (a : add_call) : add_call :=
  {| call_config := call_config a; call_cost := call_cost a; call_time := call_time a;
     call_status := call_status a; call_instance := call_instance a;
     call_seed := call_seed a; call_budget := call_budget a;
     call_starttime := call_starttime a; call_endtime := call_endtime a;
     call_additional_info := info; call_origin := call_origin a;
     call_force_update := call_force_update a |}.

(** The outcomes of a sequence of calls, in order. *)
Fixpoint outcomes (calls : list add_call) (w : World) : list (outcome unit) :=
  match calls with
  | [] => []
  | a :: rest => fst (call a w) :: outcomes rest (snd (call a w))
  end.

Definition put (filename : string) (f : file) (w : World) : World :=
  {| self := self w; logged := logged w; files := dict_set filename f (files w) |}.

Definition one : pyfloat := Fin 1.
Definition two : pyfloat := Fin 2.
Definition three : pyfloat := Fin 3.

End Run.

(** ** The shape of a ledger built by [add] *)

Section WellFormed.
Context `{Collaborators}.

(** A cost as [add] stores it: handing it to [add] again stores it unchanged. *)
Definition canonical_cost (c : cost_t) : Prop :=
  to_floats (np_size (squeeze c)) (squeeze c) = Ok c.

Definition canonical_budget (b : option pyfloat) : Prop :=
  option_map PyFloat.float b = b.

Record well_formed (r : RunHistory) : Prop := {
  wf_costs : forall k v, In (k, v) (_data r) -> canonical_cost (cost v);
  wf_budgets : forall k v, In (k, v) (_data r) -> canonical_budget (tk_budget k);
  wf_data_ids : forall k v, In (k, v) (_data r) ->
                            exists c, dict_get (config_id k) (_ids_config r) = Some c;
  wf_ids_config : forall i c, dict_get i (_ids_config r) = Some c ->
                              dict_get c (_config_ids r) = Some i;
  wf_config_ids : forall c i, dict_get c (_config_ids r) = Some i ->
                              dict_get i (_ids_config r) = Some c;
  wf_ids_bound : forall c i, dict_get c (_config_ids r) = Some i -> i <= _n_id r;
  wf_ids_nodup : NoDup (dict_keys (_ids_config r));
  wf_data_nodup : NoDup (dict_keys (_data r))
}.

(** Every trial of the ledger was produced internally. *)
Definition only_internal (r : RunHistory) : Prop :=
  forall k o, dict_get k (_external r) = Some o -> o = INTERNAL.

(** What the round trip through a file is compared on: the key and the
    cost, time and status of a trial.  [load_json] passes the time through
    [float]. *)
Definition trial_tuple (kv : TrialKey * TrialValue) :=
  (config_id (fst kv), tk_instance (fst kv), tk_seed (fst kv), tk_budget (fst kv),
   cost (snd kv), PyFloat.float (time (snd kv)), status (snd kv)).

(** The ids under which the ledger holds a trial. *)
Definition recorded_ids (r : RunHistory) : list Z :=
  map (fun kv => config_id (fst kv)) (_data r).

(** The document [save_json] writes for the entries [entries]. *)
Definition saved_document (r : RunHistory) (entries : list (TrialKey * TrialValue)) : pyval :=
  PyDict
    [ ("data", PyList (map (fun kv => json_entry (fst kv) (snd kv)) entries));
      ("configs",
       PyDict (flat_map
                 (fun ic => if bool_decide (fst ic ∈ map (fun kv => config_id (fst kv)) entries)
                            then [(Py.str_of_int (fst ic), get_dictionary (snd ic))]
                            else [])
                 (_ids_config r)));
      ("config_origins",
       PyDict (map (fun ic => (Py.str_of_int (fst ic), Configuration_origin (snd ic)))
                   (_ids_config r))) ].

End WellFormed.

Section Decode.
Context `{Collaborators}.

(** The cost [load_json] hands to [add] for a stored cost, given the
    objective count at that point. *)
Definition decode_cost (n_objectives : Z) (c : cost_t) : outcome cost_t :=
  if n_objectives =? 1 then
    let? x := Py.float (pyval_of_cost c) in Ok (CScalar x)
  else
    let? xs := Py.iter (pyval_of_cost c) in
    let? l := map_ok Py.float xs in Ok (CList l).

(** The objective count [load_json] reads off a stored cost. *)
Definition detected_objectives (c : cost_t) : Z :=
  match c with
  | CScalar _ => 1
  | CList l => Z.of_nat (length l)
  end.

Definition detect_objectives (c : cost_t) (r : RunHistory) : RunHistory :=
  if _n_objectives r =? -1 then set_n_objectives (detected_objectives c) r else r.

End Decode.

(** ** The mapping interface, [get_configs_per_budget] and [update] *)

Section Mapping.
Context `{Collaborators}.

(** [k in runhistory] *)
Definition __contains__ (r : RunHistory) (k : TrialKey) : bool :=
  dict_contains k (_data r).

(** [runhistory[k]] *)
Definition __getitem__ (r : RunHistory) (k : TrialKey) : outcome TrialValue :=
  subscript (dict_get k (_data r)) "trial key".

(** [iter(runhistory)] *)
Definition __iter__ (r : RunHistory) : list TrialKey := dict_keys (_data r).

(** [budget == b] for two budgets, as list membership compares them; a
    [nan] budget is taken to be another object than the ones of the list. *)
Definition budget_eqb (a b : option pyfloat) : bool :=
  match a, b with
  | None, None => true
  | Some x, Some y => PyFloat.eqb x y
  | _, _ => false
  end.

Definition get_configs_per_budget (r : RunHistory)
    (budget_subset : option (list (option pyfloat))) : outcome (list Configuration) :=
  match budget_subset with
  | None => Ok (get_configs r)
  | Some subset =>
      map_ok (fun key => subscript (dict_get (config_id key) (_ids_config r)) "config id")
             (List.filter (fun key => existsb (budget_eqb (tk_budget key)) subset)
                          (dict_keys (_data r)))
  end.

(** [update(runhistory, origin)], for a [runhistory] that is another
    object than [self]. *)
Definition update (runhistory : RunHistory) (origin : DataOrigin) : M unit :=
  for_each (_data runhistory)
    (fun kv =>
       let key := fst kv in
       let value := snd kv in
       let* config :=
         lift (subscript (dict_get (config_id key) (_ids_config runhistory)) "config id") in
       add config (cost value) (time value) (status value) (tk_instance key) (tk_seed key)
           (tk_budget key) (starttime value) (endtime value) (additional_info value)
           origin false).

(** [update_from_json]: the file is loaded into a new ledger, whose trials
    are then added to [self]. *)
Definition update_from_json (filename : string) (configspace : ConfigurationSpace)
    (origin : DataOrigin) : M unit :=
  fun w =>
    let loaded := load_json filename configspace
                    {| self := RunHistory_init false; logged := logged w;
                       files := files w |} in
    let w' := {| self := self w; logged := logged (snd loaded);
                 files := files (snd loaded) |} in
    match fst loaded with
    | Raise e => (Raise e, w')
    | Ok _ => update (self (snd loaded)) origin w'
    end.

End Mapping.

(** ** Shapes of a ledger built by [add] *)

Section Shapes.
Context `{Collaborators}.

(** The two id maps mirror each other, and the ids are 1, 2, ... in the
    order of registration. *)
Definition registry_consistent (r : RunHistory) : Prop :=
  _ids_config r = map (fun ci => (snd ci, fst ci)) (_config_ids r)
  /\ map snd (_config_ids r) = map Z.of_nat (seq 1 (length (_config_ids r)))
  /\ _n_id r = Z.of_nat (length (_config_ids r))
  /\ NoDup (map fst (_config_ids r)).

(** The key of the trial an entry of the instance-seed index stands for. *)
Definition indexed_key (i : Z) (isk : InstanceSeedKey) (b : option pyfloat) : TrialKey :=
  {| config_id := i; tk_instance := isk_instance isk; tk_seed := isk_seed isk;
     tk_budget := b |}.

(** Every entry of the instance-seed index has a budget, and each of its
    budgets belongs to a recorded trial. *)
Definition indexed (data : dict TrialKey TrialValue)
    (m : dict Z (dict InstanceSeedKey (list (option pyfloat)))) : Prop :=
  forall i isks isk budgets,
    dict_get i m = Some isks ->
    In (isk, budgets) isks ->
    budgets <> []
    /\ forall b, In b budgets -> dict_contains (indexed_key i isk b) data = true.

Definition trials_indexed (r : RunHistory) : Prop :=
  indexed (_data r) (_config_id_to_isk_to_budget r).

(** A stored cost has the shape of the objective count: a float for one
    objective, a list of that length otherwise. *)
Definition cost_shaped (n : Z) (c : cost_t) : Prop :=
  match c with
  | CScalar _ => n = 1
  | CList l => n <> 1 /\ Z.of_nat (length l) = n
  end.

End Shapes.

Section IndexStep.
Context `{Collaborators}.

(** What [_add] makes of the instance-seed index when the trial counts:
    the configuration gets its entry, a new instance-seed pair starts its
    list of budgets, a known pair has the budget appended unless the
    budget check is skipped or fails. *)
Definition index_after (k : TrialKey) (m : dict Z (dict InstanceSeedKey (list (option pyfloat))))
  : dict Z (dict InstanceSeedKey (list (option pyfloat))) :=
  let isk := {| isk_instance := tk_instance k; isk_seed := tk_seed k |} in
  let isks := dict_get_default (config_id k) [] m in
  match dict_get isk isks with
  | None => dict_set (config_id k) (dict_set isk [tk_budget k] isks) m
  | Some budgets =>
      if budget_ne_instance (tk_budget k) (isk_instance isk)
         && budget_ne_seed (tk_budget k) (isk_seed isk)
      then
        match budgets with
        | [] => dict_set (config_id k) isks m
        | first :: _ =>
            if negb (Bool.eqb (isinstance_float first) (isinstance_float (tk_budget k)))
            then dict_set (config_id k) isks m
            else dict_set (config_id k) (dict_set isk (budgets ++ [tk_budget k])%list isks) m
        end
      else dict_set (config_id k) isks m
  end.

End IndexStep.

Section AddSteps.
Context `{Collaborators}.

(** The ledger once [_add] has written the trial, its origin and the
    objective bounds. *)
Definition recorded_state (k : TrialKey) (v : TrialValue) (origin : DataOrigin)
    (r : RunHistory) : RunHistory :=
  set_objective_bounds
    (objective_bounds_spec (_n_objectives r) (dict_set k v (_data r)))
    (set_external (dict_set k origin (_external r))
       (set_data (dict_set k v (_data r)) r)).

(** The exception of the budget check of [_add], if it raises. *)
Definition budget_check (k : TrialKey)
    (m : dict Z (dict InstanceSeedKey (list (option pyfloat)))) : option exn :=
  let isk := {| isk_instance := tk_instance k; isk_seed := tk_seed k |} in
  match dict_get isk (dict_get_default (config_id k) [] m) with
  | None => None
  | Some budgets =>
      if budget_ne_instance (tk_budget k) (isk_instance isk)
         && budget_ne_seed (tk_budget k) (isk_seed isk)
      then
        match budgets with
        | [] => Some (IndexError "list index out of range")
        | first :: _ =>
            if negb (Bool.eqb (isinstance_float first) (isinstance_float (tk_budget k)))
            then Some (ValueError
                   "Can not mix budgets of different types for the same instance-seed pair.")
            else None
        end
      else None
  end.

(** The last step of [_add]: the moving average for budget 0 in a ledger
    that does not overwrite, [update_cost] otherwise. *)
Definition cost_step (k : TrialKey) (v : TrialValue) : M unit :=
  let* overwrite := read _overwrite_existing_trials in
  if negb overwrite && budget_eq_zero (tk_budget k) then
    log DEBUG "Incremental update cost for config" ;;;
    let* config := query (fun r => subscript (dict_get (config_id k) (_ids_config r))
                                             "config id") in
    incremental_update_cost config (cost v)
  else
    log DEBUG "Update cost for config" ;;;
    let* config := query (fun r => subscript (dict_get (config_id k) (_ids_config r))
                                             "config id") in
    update_cost config.

End AddSteps.

Section Saved.
Context `{Collaborators}.

(** Every recorded trial has its origin on record. *)
Definition origins_recorded (r : RunHistory) : Prop :=
  dict_keys (_data r) = dict_keys (_external r).

(** What [add] checked before it recorded a trial: the additional
    information and the dictionary of the trial's configuration can be
    written as JSON. *)
Definition payloads_serializable (r : RunHistory) : Prop :=
  forall k v, In (k, v) (_data r) ->
    json_serializable (additional_info v) = true
    /\ exists c, dict_get (config_id k) (_ids_config r) = Some c
                 /\ json_serializable (get_dictionary c) = true.

(** The trials [save_json] writes. *)
Definition saved_trials (r : RunHistory) (save_external : bool)
  : list (TrialKey * TrialValue) :=
  List.filter (fun kv => save_external
                         || bool_decide (dict_get (fst kv) (_external r) = Some INTERNAL))
              (_data r).

End Saved.

(** ** Ledgers whose trials all have budget 0 *)

Section ZeroBudget.
Context `{Collaborators}.

(** A call of [add] with one objective and budget 0, not forced. *)
Definition zero_budget_call (a : add_call) : Prop :=
  call_force_update a = false
  /\ cardinality (call_cost a) = 1
  /\ budget_eq_zero (option_map PyFloat.float (call_budget a)) = true.

(** The keys [get_trials] makes of the instance-seed pairs of a
    configuration when every budget is 0. *)
Definition zero_keys (isks : dict InstanceSeedKey (list (option pyfloat)))
  : list InstanceSeedBudgetKey :=
  map (fun e => {| isb_instance := isk_instance (fst e); isb_seed := isk_seed (fst e);
                   isb_budget := Some PyFloat.zero |}) isks.

(** The number of trials a recomputation from the index counts for id
    [i]. *)
Definition count_spec (r : RunHistory) (i : Z) : option Z :=
  match dict_get i (_config_id_to_isk_to_budget r) with
  | Some isks => Some (Z.of_nat (length isks))
  | None => None
  end.

(** The trials and the index of a ledger whose counted trials all have
    budget 0 and one objective. *)
Record zero_core (r : RunHistory) : Prop := {
  zc_overwrite : _overwrite_existing_trials r = false;
  zc_budget : forall k v, In (k, v) (_data r) -> tk_budget k = Some PyFloat.zero;
  zc_objectives : _data r <> [] -> _n_objectives r = 1;
  zc_index : forall i isks,
      dict_get i (_config_id_to_isk_to_budget r) = Some isks ->
      isks <> [] /\ NoDup (map fst isks)
      /\ (exists c, dict_get i (_ids_config r) = Some c)
      /\ forall isk bs, In (isk, bs) isks ->
           bs = [Some PyFloat.zero]
           /\ exists v x, dict_get (indexed_key i isk (Some PyFloat.zero)) (_data r) = Some v
                          /\ cost v = CScalar x
}.

(** The cached numbers of trials are those of the index, and the cached
    costs are floats. *)
Definition zero_caches (r : RunHistory) : Prop :=
  forall i, dict_get i (_num_trials_per_config r) = count_spec r i
            /\ forall c, dict_get i (_cost_per_config r) = Some c -> exists x, c = CScalar x.

End ZeroBudget.

Section Core.
Context `{Collaborators}.

(** What the cost queries read of the ledger. *)
Definition core (r : RunHistory) :=
  (_data r, _config_id_to_isk_to_budget r, _config_ids r, _ids_config r,
   _n_objectives r, _overwrite_existing_trials r).

End Core.

Section Preservation.
Context `{Collaborators}.

(** [m] keeps the property [P] of the world, whatever it returns. *)
Definition preserves {A} (P : World -> Prop) (m : M A) : Prop :=
  forall w, P w -> P (snd (m w)).

(** With at most one objective the cached costs are floats, and nothing
    is cached before the objective count is known. *)
Definition scalar_caches (r : RunHistory) : Prop :=
  (_n_objectives r = -1 -> _cost_per_config r = [])
  /\ (_n_objectives r <= 1 ->
      forall i c, dict_get i (_cost_per_config r) = Some c -> exists x, c = CScalar x).

(** What [_add] keeps of the cache: the objective count, and float
    entries when the count is at most one. *)
Definition shaped (n0 : Z) (w : World) : Prop :=
  _n_objectives (self w) = n0
  /\ (n0 <= 1 -> forall i c, dict_get i (_cost_per_config (self w)) = Some c ->
                  exists x, c = CScalar x).

(** A call of [add] with budget 0. *)
Definition at_budget_zero (a : add_call) : Prop :=
  budget_eq_zero (option_map PyFloat.float (call_budget a)) = true.

End Preservation.

Section Raising.
Context `{Collaborators}.

(** The outcome [o], or the method [m], raises no exception outside [ok]. *)
Definition raises_only {A} (ok : exn -> Prop) (o : outcome A) : Prop :=
  match o with Ok _ => True | Raise e => ok e end.

Definition only_raises {A} (ok : exn -> Prop) (m : M A) : Prop :=
  forall w, raises_only ok (fst (m w)).

(** What the instance check of [_add] raises. *)
Definition mixed_instances : exn :=
  ValueError "Can not mix instances of different types.".

Definition not_mixed_instances (e : exn) : Prop := e <> mixed_instances.

End Raising.

(** ** A collaborator whose configurations can carry an origin JSON rejects *)

Module Tagged.

(** The origin of a configuration: an object of the sampler for a negative
    value of [x], a string otherwise. *)
Definition origin (x : Z) : pyval :=
  if x <? 0 then PyObject "sampler" else PyStr "manual".

Definition collaborators : Collaborators := {|
  Configuration := Z;
  ConfigurationSpace := Z * Z;
  get_dictionary := fun x => PyDict [("x", PyInt x)];
  Configuration_origin := origin;
  Configuration_init := Toy.init;
  normalize_costs := Toy.normalize
|}.

Definition trial (x : Z) (cost : cost_t) (seed : option Z) : @add_call collaborators :=
  @Build_add_call collaborators x cost (Fin 0) SUCCESS None seed None (Fin 0) (Fin 0)
                  (PyDict []) INTERNAL false.

Definition fresh : @World collaborators :=
  @Build_World collaborators (@RunHistory_init collaborators false) [] [].

End Tagged.

(** * Properties *)

(** ** Dictionaries *)

Section DictFacts.
Context {K V : Type} `{EqDecision K}.
Implicit Types (k : K) (v : V) (d : dict K V).

Lemma dict_get_set_eq k v d : dict_get k (dict_set k v d) = Some v.
Proof.
  induction d as [|[k' v'] d IH]; simpl.
  - destruct (decide (k = k)); congruence.
  - destruct (decide (k = k')) as [->|Hne]; simpl.
    + destruct (decide (k' = k')); congruence.
    + destruct (decide (k = k')); congruence.
Qed.

Lemma dict_get_set_ne k k' v d :
  k <> k' -> dict_get k' (dict_set k v d) = dict_get k' d.
Proof.
  intros Hne. induction d as [|[k0 v0] d IH]; simpl.
  - destruct (decide (k' = k)); congruence.
  - destruct (decide (k = k0)) as [->|Hk]; simpl.
    + destruct (decide (k' = k0)); congruence.
    + destruct (decide (k' = k0)); congruence.
Qed.

Lemma dict_set_fresh k v d : dict_get k d = None -> dict_set k v d = (d ++ [(k, v)])%list.
Proof.
  induction d as [|[k' v'] d IH]; simpl; [reflexivity|].
  destruct (decide (k = k')); [discriminate|].
  intros Hd. now rewrite IH.
Qed.

Lemma dict_set_present k v v0 d :
  dict_get k d = Some v0 -> dict_keys (dict_set k v d) = dict_keys d.
Proof.
  unfold dict_keys. induction d as [|[k' v'] d IH]; simpl; [discriminate|].
  destruct (decide (k = k')); simpl; [reflexivity|].
  intros Hd. now rewrite IH.
Qed.

Lemma dict_get_None_keys k d : dict_get k d = None <-> ~ In k (dict_keys d).
Proof.
  unfold dict_keys. induction d as [|[k' v'] d IH]; simpl.
  - tauto.
  - destruct (decide (k = k')) as [->|Hne].
    + split; [discriminate|]. intros Hn. exfalso. apply Hn. now left.
    + rewrite IH. split.
      * intros Hn [Heq|Hin]; [congruence|tauto].
      * tauto.
Qed.

Lemma dict_get_In k v d : dict_get k d = Some v -> In (k, v) d.
Proof.
  induction d as [|[k' v'] d IH]; simpl; [discriminate|].
  destruct (decide (k = k')) as [->|Hne].
  - intros [= ->]. now left.
  - intros Hd. right. now apply IH.
Qed.

Lemma dict_contains_true k d : dict_contains k d = true <-> exists v, dict_get k d = Some v.
Proof.
  unfold dict_contains. destruct (dict_get k d) as [v|].
  - split; [eauto|reflexivity].
  - split; [discriminate|]. intros [v Hv]. discriminate.
Qed.

End DictFacts.

(** ** What a method leaves alone *)

Section Frames.
Context `{Collaborators}.

Lemma keeps_ret {A B} (proj : World -> B) (a : A) : keeps proj (ret a).
Proof. intros w. reflexivity. Qed.

Lemma keeps_raise {A B} (proj : World -> B) e : keeps proj (@raise _ A e).
Proof. intros w. reflexivity. Qed.

Lemma keeps_lift {A B} (proj : World -> B) (r : outcome A) : keeps proj (lift r).
Proof. intros w. reflexivity. Qed.

Lemma keeps_read {A B} (proj : World -> B) (f : RunHistory -> A) : keeps proj (read f).
Proof. intros w. reflexivity. Qed.

Lemma keeps_query {A B} (proj : World -> B) (f : RunHistory -> outcome A) :
  keeps proj (query f).
Proof. intros w. reflexivity. Qed.

Lemma keeps_bind {A B C} (proj : World -> C) (m : M A) (k : A -> M B) :
  keeps proj m -> (forall a, keeps proj (k a)) -> keeps proj (bind m k).
Proof.
  intros Hm Hk w. unfold bind. specialize (Hm w).
  destruct (m w) as [[a|e] w']; simpl in *; [rewrite Hk|]; assumption.
Qed.

Lemma keeps_map {A B C} (proj : World -> B) (g : B -> C) (m : M A) :
  keeps proj m -> keeps (fun w => g (proj w)) m.
Proof. intros Hm w. now rewrite Hm. Qed.

Lemma keeps_for_each {A B} (proj : World -> B) (l : list A) (body : A -> M unit) :
  (forall x, keeps proj (body x)) -> keeps proj (for_each l body).
Proof.
  intros Hb. induction l as [|x l IH]; simpl.
  - apply keeps_ret.
  - apply keeps_bind; [apply Hb|intros _; apply IH].
Qed.

End Frames.

Ltac frame :=
  repeat first
    [ apply keeps_ret | apply keeps_raise | apply keeps_lift | apply keeps_read
    | apply keeps_query
    | apply keeps_bind; [|intros ?]
    | apply keeps_for_each; intros ?
    | solve [eauto with frame]
    | (intros ?; reflexivity)
    | match goal with
      | |- keeps _ (if ?b then _ else _) => destruct b
      | |- keeps _ (match ?x with _ => _ end) => destruct x
      end ].

Create HintDb frame.

Section MethodFrames.
Context `{Collaborators}.

Lemma update_cost_keeps config :
  keeps registry (update_cost config) /\ keeps ledger (update_cost config)
  /\ keeps budgets (update_cost config) /\ keeps files (update_cost config)
  /\ keeps logged (update_cost config).
Proof. unfold update_cost. repeat split; frame. Qed.

Lemma incremental_update_cost_keeps config cost :
  keeps registry (incremental_update_cost config cost)
  /\ keeps ledger (incremental_update_cost config cost)
  /\ keeps budgets (incremental_update_cost config cost)
  /\ keeps files (incremental_update_cost config cost)
  /\ keeps logged (incremental_update_cost config cost).
Proof. unfold incremental_update_cost. repeat split; frame. Qed.

Lemma _update_objective_bounds_keeps :
  keeps registry _update_objective_bounds
  /\ keeps (fun w => (_data (self w), _external (self w))) _update_objective_bounds
  /\ keeps budgets _update_objective_bounds /\ keeps caches _update_objective_bounds
  /\ keeps files _update_objective_bounds /\ keeps logged _update_objective_bounds.
Proof. unfold _update_objective_bounds. repeat split; frame. Qed.

Lemma keeps_snd_bind {A B C} (proj : World -> C) (m : M A) (k : A -> M B) w :
  (forall a, keeps proj (k a)) -> proj (snd (bind m k w)) = proj (snd (m w)).
Proof.
  intros Hk. unfold bind. destruct (m w) as [[a|e] w']; simpl; [apply Hk|reflexivity].
Qed.

Lemma _add_keeps_registry k v status origin : keeps registry (_add k v status origin).
Proof.
  unfold _add. frame.
  all: try (apply update_cost_keeps || apply incremental_update_cost_keeps
            || apply _update_objective_bounds_keeps).
Qed.

Lemma update_cost_keeps_data config : keeps (fun w => _data (self w)) (update_cost config).
Proof. apply (keeps_map ledger (fun t => fst (fst t))), update_cost_keeps. Qed.

Lemma update_cost_keeps_external config :
  keeps (fun w => _external (self w)) (update_cost config).
Proof. apply (keeps_map ledger (fun t => snd (fst t))), update_cost_keeps. Qed.

Lemma incremental_update_cost_keeps_data config cost :
  keeps (fun w => _data (self w)) (incremental_update_cost config cost).
Proof. apply (keeps_map ledger (fun t => fst (fst t))), incremental_update_cost_keeps. Qed.

Lemma incremental_update_cost_keeps_external config cost :
  keeps (fun w => _external (self w)) (incremental_update_cost config cost).
Proof. apply (keeps_map ledger (fun t => snd (fst t))), incremental_update_cost_keeps. Qed.

Lemma _update_objective_bounds_keeps_data :
  keeps (fun w => _data (self w)) _update_objective_bounds.
Proof.
  apply (keeps_map (fun w => (_data (self w), _external (self w))) fst),
    _update_objective_bounds_keeps.
Qed.

Lemma _update_objective_bounds_keeps_external :
  keeps (fun w => _external (self w)) _update_objective_bounds.
Proof.
  apply (keeps_map (fun w => (_data (self w), _external (self w))) snd),
    _update_objective_bounds_keeps.
Qed.

End MethodFrames.

#[export] Hint Resolve update_cost_keeps_data update_cost_keeps_external
  incremental_update_cost_keeps_data incremental_update_cost_keeps_external
  _update_objective_bounds_keeps_data _update_objective_bounds_keeps_external : frame.

(** ** [add], phase by phase *)

Section AddRun.
Context `{Collaborators}.

Lemma for_each_lift_run {A} (f : A -> outcome unit) (l : list A) (w : World) :
  for_each l (fun x => lift (f x)) w = (first_failure f l, w).
Proof.
  induction l as [|x l IH]; [reflexivity|].
  simpl. unfold bind.
  change (lift (f x) w) with (f x, w).
  destruct (f x) as [[]|e]; [apply IH|reflexivity].
Qed.

#[local] Arguments _add : simpl never.
#[local] Arguments for_each : simpl never.
#[local] Arguments first_failure : simpl never.

Lemma add_run config cost time status instance seed budget starttime endtime
    additional_info origin force_update (w : World) :
  add config cost time status instance seed budget starttime endtime
      additional_info origin force_update w =
  let r1 := register config (self w) in
  let n := np_size (squeeze cost) in
  if negb (_n_objectives r1 =? -1) && negb (_n_objectives r1 =? n)
  then (Raise (ValueError cardinality_message), with_self w r1)
  else
    let r2 := fix_objectives n r1 in
    match to_floats (_n_objectives r2) (squeeze cost) with
    | Raise e => (Raise e, with_self w r2)
    | Ok c =>
        let budget' := option_map PyFloat.float budget in
        let k := {| config_id := id_of config (self w); tk_instance := instance;
                    tk_seed := seed; tk_budget := budget' |} in
        let v := Build_TrialValue c time status starttime endtime additional_info in
        match first_failure (fun kv => _check_json_serializable (fst kv) (snd kv) k v)
                (payload config (id_of config (self w)) instance seed budget' c time
                         status starttime endtime additional_info) with
        | Raise e => (Raise e, with_self w r2)
        | Ok _ =>
            if _overwrite_existing_trials r2 || force_update
               || negb (dict_contains k (_data r2))
            then _add k v status origin (with_self w r2)
            else log INFO duplicate_message (with_self w r2)
        end
    end.
Proof.
  destruct w as [r lg fs].
  unfold add, register, id_of, fix_objectives, with_self, payload.
  unfold bind, read, modify, raise, ret, lift at 1. cbn [self logged files fst snd].
  destruct (dict_get config (_config_ids r)) as [i|] eqn:Hid; cbn.
  - destruct (_n_objectives r =? -1) eqn:E1; cbn.
    + destruct (to_floats _ _) as [c|e]; cbn; [|reflexivity].
      rewrite for_each_lift_run.
      destruct (first_failure _ _) as [[]|e]; [|reflexivity].
      cbn. now destruct (_ || _).
    + destruct (_n_objectives r =? np_size (squeeze cost)) eqn:E2; cbn; [|reflexivity].
      destruct (to_floats _ _) as [c|e]; cbn; [|reflexivity].
      rewrite for_each_lift_run.
      destruct (first_failure _ _) as [[]|e]; [|reflexivity].
      cbn. now destruct (_ || _).
  - destruct (_n_objectives r =? -1) eqn:E1; cbn.
    + destruct (to_floats _ _) as [c|e]; cbn; [|reflexivity].
      rewrite for_each_lift_run.
      destruct (first_failure _ _) as [[]|e]; [|reflexivity].
      cbn. now destruct (_ || _).
    + destruct (_n_objectives r =? np_size (squeeze cost)) eqn:E2; cbn; [|reflexivity].
      destruct (to_floats _ _) as [c|e]; cbn; [|reflexivity].
      rewrite for_each_lift_run.
      destruct (first_failure _ _) as [[]|e]; [|reflexivity].
      cbn. now destruct (_ || _).
Qed.

End AddRun.

(** ** Which exceptions a method can raise *)

Section Exceptions.
Context `{Collaborators}.

Lemma osafe_obind {A B} (r : outcome A) (k : A -> outcome B) :
  osafe r -> (forall a, osafe (k a)) -> osafe (obind r k).
Proof. destruct r; simpl; auto. Qed.

Lemma osafe_map_ok {A B} (f : A -> outcome B) (l : list A) :
  (forall x, osafe (f x)) -> osafe (map_ok f l).
Proof.
  intros Hf. induction l as [|x l IH]; simpl; [exact I|].
  apply osafe_obind; [apply Hf|]. intros y.
  apply osafe_obind; [apply IH|]. intros ys. exact I.
Qed.

Lemma osafe_subscript {A} (o : option A) what : osafe (subscript o what).
Proof. destruct o; simpl; [exact I|discriminate]. Qed.

Lemma osafe_assert b : osafe (assert b).
Proof. destruct b; simpl; [exact I|discriminate]. Qed.

Lemma msafe_ret {A} (a : A) : msafe (ret a).
Proof. intros w. exact I. Qed.

Lemma msafe_lift {A} (r : outcome A) : osafe r -> msafe (lift r).
Proof. intros Hr w. exact Hr. Qed.

Lemma msafe_read {A} (f : RunHistory -> A) : msafe (read f).
Proof. intros w. exact I. Qed.

Lemma msafe_query {A} (f : RunHistory -> outcome A) : (forall r, osafe (f r)) -> msafe (query f).
Proof. intros Hf w. apply Hf. Qed.

Lemma msafe_modify f : msafe (modify f).
Proof. intros w. exact I. Qed.

Lemma msafe_log l msg : msafe (log l msg).
Proof. intros w. exact I. Qed.

Lemma msafe_raise {A} e : benign e -> msafe (@raise _ A e).
Proof. intros He w. exact He. Qed.

Lemma msafe_bind {A B} (m : M A) (k : A -> M B) :
  msafe m -> (forall a, msafe (k a)) -> msafe (bind m k).
Proof.
  intros Hm Hk w. unfold bind. specialize (Hm w).
  destruct (m w) as [[a|e] w']; simpl in *; [apply Hk|assumption].
Qed.

Lemma msafe_for_each {A} (l : list A) (body : A -> M unit) :
  (forall x, msafe (body x)) -> msafe (for_each l body).
Proof.
  intros Hb. induction l as [|x l IH]; simpl.
  - apply msafe_ret.
  - apply msafe_bind; [apply Hb|intros _; apply IH].
Qed.

End Exceptions.

Ltac benign := unfold benign, cardinality_message; discriminate.

Ltac osafe :=
  repeat first
    [ exact I
    | apply osafe_subscript | apply osafe_assert
    | apply osafe_obind; [|intros ?]
    | apply osafe_map_ok; intros ?
    | solve [eauto with safe]
    | match goal with
      | |- osafe (Ok _) => exact I
      | |- osafe (Raise _) => simpl; benign
      | |- osafe (if ?b then _ else _) => destruct b
      | |- osafe (match ?x with _ => _ end) => destruct x
      end ].

Ltac msafe :=
  repeat first
    [ apply msafe_ret | apply msafe_read | apply msafe_modify | apply msafe_log
    | apply msafe_raise; benign
    | apply msafe_lift; osafe
    | apply msafe_query; intros ?; osafe
    | apply msafe_bind; [|intros ?]
    | apply msafe_for_each; intros ?
    | solve [eauto with safe]
    | match goal with
      | |- msafe (if ?b then _ else _) => destruct b
      | |- msafe (match ?x with _ => _ end) => destruct x
      end ].

Create HintDb safe.

Section MethodExceptions.
Context `{Collaborators}.

Lemma np_array_safe costs : osafe (np_array costs).
Proof. unfold np_array. osafe. Qed.

Lemma np_mean_axis0_safe costs : osafe (np_mean_axis0 costs).
Proof. unfold np_mean_axis0. apply osafe_obind; [apply np_array_safe|intros []; exact I]. Qed.

Lemma np_min_axis0_safe costs : osafe (np_min_axis0 costs).
Proof. unfold np_min_axis0. apply osafe_obind; [apply np_array_safe|]. intros a. osafe. Qed.

Lemma np_mean_safe costs : osafe (np_mean costs).
Proof. unfold np_mean. apply osafe_obind; [apply np_array_safe|]. intros a. exact I. Qed.

Lemma np_min_safe costs : osafe (np_min costs).
Proof. unfold np_min. apply osafe_obind; [apply np_array_safe|]. intros a. osafe. Qed.

Lemma get_trials_safe r config b : osafe (get_trials r config b).
Proof. unfold get_trials, max_observed_budget. osafe. Qed.

Lemma _cost_safe r config keys : osafe (_cost r config keys).
Proof.
  unfold _cost. destruct (dict_get config (_config_ids r)); [|exact I].
  apply osafe_obind.
  - destruct keys; [exact I|apply get_trials_safe].
  - intros l. osafe.
Qed.

Lemma average_cost_safe r config keys : osafe (average_cost r config keys false).
Proof.
  unfold average_cost. apply osafe_obind; [apply _cost_safe|]. intros [|c l]; [exact I|].
  destruct (1 <? _n_objectives r).
  - apply osafe_obind; [apply np_mean_axis0_safe|intros; exact I].
  - apply osafe_obind; [apply np_mean_safe|intros; exact I].
Qed.

Lemma min_cost_safe r config keys : osafe (min_cost r config keys false).
Proof.
  unfold min_cost. apply osafe_obind; [apply _cost_safe|]. intros [|c l]; [exact I|].
  destruct (1 <? _n_objectives r).
  - apply osafe_obind; [apply np_min_axis0_safe|intros; exact I].
  - apply osafe_obind; [apply np_min_safe|intros; exact I].
Qed.

Lemma update_cost_safe config : msafe (update_cost config).
Proof.
  unfold update_cost.
  apply msafe_bind; [apply msafe_query; intros; apply osafe_subscript|intros id].
  apply msafe_bind.
  { apply msafe_query. intros r. apply osafe_obind; [apply get_trials_safe|intros; exact I]. }
  intros isb.
  apply msafe_bind; [apply msafe_query; intros; apply average_cost_safe|intros avg].
  apply msafe_bind; [apply msafe_modify|intros _].
  apply msafe_bind; [apply msafe_modify|intros _].
  apply msafe_bind.
  { apply msafe_query. intros r. apply osafe_obind; [apply get_trials_safe|intros; exact I]. }
  intros all_isb.
  apply msafe_bind; [apply msafe_query; intros; apply min_cost_safe|intros mn].
  apply msafe_modify.
Qed.

Lemma np_broadcast_safe f a b : osafe (np_broadcast f a b).
Proof.
  unfold np_broadcast.
  destruct a as [x|[|x [|x' l]]], b as [y|[|y [|y' l']]]; try exact I;
    destruct (Nat.eqb _ _); try exact I; simpl; benign.
Qed.

Lemma incremental_update_cost_safe config cost : msafe (incremental_update_cost config cost).
Proof.
  unfold incremental_update_cost.
  apply msafe_bind; [apply msafe_query; intros; apply osafe_subscript|intros id].
  apply msafe_bind; [apply msafe_read|intros n].
  apply msafe_bind; [apply msafe_read|intros nobj].
  apply msafe_bind; [|intros; apply msafe_modify].
  destruct (1 <? nobj).
  - apply msafe_bind; [apply msafe_read|intros old].
    apply msafe_bind; [apply msafe_lift, np_broadcast_safe|intros ?].
    apply msafe_bind; [apply msafe_lift, np_broadcast_safe|intros ?].
    apply msafe_bind; [apply msafe_lift, np_broadcast_safe|intros ?].
    apply msafe_modify.
  - apply msafe_bind; [apply msafe_read|intros old].
    destruct cost, old; try (apply msafe_raise; benign).
    destruct (n + 1 =? 0); [apply msafe_raise; benign|apply msafe_modify].
Qed.

Lemma collect_costs_safe n values : osafe (collect_costs n values).
Proof.
  induction values as [|v values IH]; simpl; [exact I|].
  destruct (decide (status v = SUCCESS)); [|exact IH].
  apply osafe_obind; [apply osafe_assert|intros _].
  apply osafe_obind; [exact IH|intros; exact I].
Qed.

Lemma _update_objective_bounds_safe : msafe _update_objective_bounds.
Proof.
  unfold _update_objective_bounds.
  apply msafe_bind; [apply msafe_query; intros; apply collect_costs_safe|intros rows].
  destruct (reduce_axis0 PyFloat.np_minimum rows), (reduce_axis0 PyFloat.np_maximum rows);
    apply msafe_modify.
Qed.

Lemma _add_safe k v status origin : msafe (_add k v status origin).
Proof.
  unfold _add.
  apply msafe_bind; [apply msafe_modify|intros _].
  apply msafe_bind; [apply msafe_modify|intros _].
  apply msafe_bind; [apply _update_objective_bounds_safe|intros _].
  destruct (registers_cost origin status); [|apply msafe_ret].
  apply msafe_bind; [apply msafe_modify|intros _].
  apply msafe_bind; [apply msafe_query; intros; apply osafe_subscript|intros recorded].
  apply msafe_bind.
  { apply msafe_for_each. intros x. destruct (negb _); [apply msafe_raise; benign|apply msafe_ret]. }
  intros _. apply msafe_bind.
  { destruct (dict_get _ recorded) as [bs|]; [|apply msafe_modify].
    destruct (_ && _); [|apply msafe_ret].
    apply msafe_bind.
    - apply msafe_lift. destruct bs; [simpl; benign|exact I].
    - intros first. destruct (negb _); [apply msafe_raise; benign|apply msafe_modify]. }
  intros _. apply msafe_bind; [apply msafe_read|intros ow].
  destruct (_ && _).
  - apply msafe_bind; [apply msafe_log|intros _].
    apply msafe_bind; [apply msafe_query; intros; apply osafe_subscript|intros c].
    apply incremental_update_cost_safe.
  - apply msafe_bind; [apply msafe_log|intros _].
    apply msafe_bind; [apply msafe_query; intros; apply osafe_subscript|intros c].
    apply update_cost_safe.
Qed.

End MethodExceptions.

(** ** What [add] and [_add] do to the ledger *)

Section AddFacts.
Context `{Collaborators}.

#[local] Arguments _add : simpl never.

Lemma np_size_nonneg c : 0 <= np_size c.
Proof. destruct c; simpl; lia. Qed.

(** After [squeeze], the cost has the shape [to_floats] expects. *)
Lemma to_floats_squeeze cost :
  exists c, to_floats (np_size (squeeze cost)) (squeeze cost) = Ok c
            /\ np_size c = np_size (squeeze cost)
            /\ (np_size (squeeze cost) = 1 <-> exists x, c = CScalar x).
Proof.
  unfold to_floats. destruct cost as [x|[|x [|y l]]]; cbn [squeeze np_size length].
  - eexists. split; [reflexivity|]. split; [reflexivity|]. split; eauto.
  - eexists. split; [reflexivity|]. split; [reflexivity|].
    split; [discriminate|intros [x [=]]].
  - eexists. split; [reflexivity|]. split; [reflexivity|]. split; eauto.
  - destruct (Z.of_nat (S (S (length l))) =? 1) eqn:E; [apply Z.eqb_eq in E; lia|].
    eexists. split; [reflexivity|]. split.
    + cbn [np_size map length]. rewrite length_map. reflexivity.
    + split; [lia|intros [z [=]]].
Qed.

Lemma json_serializable_floats l : json_serializable (PyList (map PyFloat l)) = true.
Proof. simpl. induction l; simpl; auto. Qed.

Lemma json_serializable_cost c : json_serializable (pyval_of_cost c) = true.
Proof. destruct c; [reflexivity|apply json_serializable_floats]. Qed.

Lemma payload_check config id instance seed budget c time status starttime endtime
    additional_info k v :
  match first_failure (fun kv => _check_json_serializable (fst kv) (snd kv) k v)
          (payload config id instance seed budget c time status starttime endtime
                   additional_info) with
  | Ok _ => payload_ok config additional_info = true
  | Raise e => payload_ok config additional_info = false
               /\ benign e /\ exists msg, e = ValueError msg
  end.
Proof.
  unfold payload, payload_ok, first_failure, _check_json_serializable; simpl.
  assert (Hc := json_serializable_cost c).
  destruct (json_serializable (get_dictionary config));
    [|split; [reflexivity|split; [benign|eauto]]].
  destruct instance, seed, budget; simpl; rewrite Hc;
    (destruct (json_serializable additional_info);
     [|split; [reflexivity|split; [benign|eauto]]]);
    (destruct (json_serializable (Configuration_origin config));
     [reflexivity|split; [reflexivity|split; [benign|eauto]]]).
Qed.

Lemma _add_data k v status origin w :
  _data (self (snd (_add k v status origin w))) = dict_set k v (_data (self w)).
Proof.
  unfold _add.
  rewrite (keeps_snd_bind (fun w => _data (self w))); [reflexivity|].
  intros _. frame.
Qed.

Lemma _add_external k v status origin w :
  _external (self (snd (_add k v status origin w)))
  = dict_set k origin (_external (self w)).
Proof.
  unfold _add. unfold bind at 1. unfold modify at 1. cbn [fst snd].
  rewrite (keeps_snd_bind (fun w => _external (self w))); [reflexivity|].
  intros _. frame.
Qed.

Lemma _add_files k v status origin : keeps files (_add k v status origin).
Proof.
  unfold _add. frame.
  all: apply update_cost_keeps || apply incremental_update_cost_keeps
       || apply _update_objective_bounds_keeps.
Qed.

Lemma register_get config r :
  dict_get config (_config_ids (register config r)) = Some (id_of config r).
Proof.
  unfold register, id_of. destruct (dict_get config (_config_ids r)) eqn:E; [exact E|].
  simpl. apply dict_get_set_eq.
Qed.

Lemma register_idem config r : register config (register config r) = register config r.
Proof.
  unfold register at 1. now rewrite register_get.
Qed.

Lemma register_n_objectives config r :
  _n_objectives (register config r) = _n_objectives r.
Proof. unfold register. now destruct (dict_get config (_config_ids r)). Qed.

Lemma register_data config r : _data (register config r) = _data r.
Proof. unfold register. now destruct (dict_get config (_config_ids r)). Qed.

Lemma register_overwrite config r :
  _overwrite_existing_trials (register config r) = _overwrite_existing_trials r.
Proof. unfold register. now destruct (dict_get config (_config_ids r)). Qed.

Lemma fix_objectives_registry n r :
  _config_ids (fix_objectives n r) = _config_ids r
  /\ _ids_config (fix_objectives n r) = _ids_config r
  /\ _n_id (fix_objectives n r) = _n_id r
  /\ _data (fix_objectives n r) = _data r
  /\ _overwrite_existing_trials (fix_objectives n r) = _overwrite_existing_trials r.
Proof. unfold fix_objectives. now destruct (_n_objectives r =? -1). Qed.

(** [add] fixes the objective count when it is unset and never changes
    it afterwards, whatever the outcome. *)
Lemma add_n_objectives config cost time status instance seed budget starttime endtime
    additional_info origin force_update w :
  _n_objectives (self (snd (add config cost time status instance seed budget starttime
                                endtime additional_info origin force_update w)))
  = if _n_objectives (self w) =? -1 then np_size (squeeze cost)
    else _n_objectives (self w).
Proof.
  rewrite add_run. cbv zeta. rewrite register_n_objectives.
  unfold fix_objectives. rewrite register_n_objectives.
  destruct (_n_objectives (self w) =? -1) eqn:E1; cbn [negb andb].
  - destruct (to_floats _ _); [|reflexivity].
    destruct (first_failure _ _); [|reflexivity].
    destruct (_ || _); [|reflexivity].
    assert (Hk := _add_keeps_registry). unfold keeps, registry in Hk.
    match goal with |- context [_add ?k ?v ?s ?o ?w] => specialize (Hk k v s o w) end.
    injection Hk as _ _ _ _ Hn. exact Hn.
  - destruct (_n_objectives (self w) =? np_size (squeeze cost)) eqn:E2; cbn [negb].
    + destruct (to_floats _ _); [|cbn; apply register_n_objectives].
      destruct (first_failure _ _); [|cbn; apply register_n_objectives].
      destruct (_ || _); [|cbn; apply register_n_objectives].
      assert (Hk := _add_keeps_registry). unfold keeps, registry in Hk.
      match goal with |- context [_add ?k ?v ?s ?o ?w] => specialize (Hk k v s o w) end.
      injection Hk as _ _ _ _ Hn. rewrite Hn. cbn. apply register_n_objectives.
    + cbn. apply register_n_objectives.
Qed.

End AddFacts.

(** ** Claims about [add] *)

Section AddClaims.
Context `{Collaborators}.

#[local] Arguments _add : simpl never.

Lemma call_run (a : add_call) (w : World) :
  call a w =
  let r1 := register (call_config a) (self w) in
  let n := cardinality (call_cost a) in
  if negb (_n_objectives r1 =? -1) && negb (_n_objectives r1 =? n)
  then (Raise (ValueError cardinality_message), with_self w r1)
  else
    let r2 := fix_objectives n r1 in
    match to_floats (_n_objectives r2) (squeeze (call_cost a)) with
    | Raise e => (Raise e, with_self w r2)
    | Ok c =>
        let k := key_of_call (self w) a in
        let v := value_of_call c a in
        match first_failure (fun kv => _check_json_serializable (fst kv) (snd kv) k v)
                (payload (call_config a) (id_of (call_config a) (self w))
                         (call_instance a) (call_seed a)
                         (option_map PyFloat.float (call_budget a)) c (call_time a)
                         (call_status a) (call_starttime a) (call_endtime a)
                         (call_additional_info a)) with
        | Raise e => (Raise e, with_self w r2)
        | Ok _ =>
            if _overwrite_existing_trials r2 || call_force_update a
               || negb (dict_contains k (_data r2))
            then _add k v (call_status a) (call_origin a) (with_self w r2)
            else log INFO duplicate_message (with_self w r2)
        end
    end.
Proof. unfold call. apply add_run. Qed.

Lemma call_n_objectives a w :
  _n_objectives (self (snd (call a w)))
  = if _n_objectives (self w) =? -1 then cardinality (call_cost a)
    else _n_objectives (self w).
Proof. apply add_n_objectives. Qed.

Lemma after_calls_n_objectives calls w :
  _n_objectives (self w) <> -1 ->
  _n_objectives (self (after_calls calls w)) = _n_objectives (self w).
Proof.
  revert w. induction calls as [|a calls IH]; intros w Hw; [reflexivity|].
  cbn [after_calls fold_left]. fold (after_calls calls (snd (call a w))).
  assert (Ha : _n_objectives (self (snd (call a w))) = _n_objectives (self w)).
  { rewrite call_n_objectives. destruct (_n_objectives (self w) =? -1) eqn:E; [|reflexivity].
    apply Z.eqb_eq in E. contradiction. }
  rewrite IH; [exact Ha|]. now rewrite Ha.
Qed.

(** A call that returns normally agrees with the objective count. *)
Lemma call_ok_n_objectives a w :
  fst (call a w) = Ok tt ->
  _n_objectives (self (snd (call a w))) = cardinality (call_cost a).
Proof.
  intros Hok. rewrite call_n_objectives.
  destruct (_n_objectives (self w) =? -1) eqn:E1; [reflexivity|].
  rewrite call_run in Hok. cbv zeta in Hok.
  rewrite register_n_objectives, E1 in Hok. cbn [negb andb] in Hok.
  destruct (_n_objectives (self w) =? cardinality (call_cost a)) eqn:E2.
  - now apply Z.eqb_eq in E2.
  - discriminate Hok.
Qed.

Lemma call_mismatch a w :
  _n_objectives (self w) <> -1 ->
  _n_objectives (self w) <> cardinality (call_cost a) ->
  call a w = (Raise (ValueError cardinality_message),
              with_self w (register (call_config a) (self w))).
Proof.
  intros H1 H2. rewrite call_run. cbv zeta. rewrite register_n_objectives.
  apply Z.eqb_neq in H1, H2. now rewrite H1, H2.
Qed.

Lemma call_match_safe a w :
  _n_objectives (self w) = -1 \/ _n_objectives (self w) = cardinality (call_cost a) ->
  osafe (fst (call a w)).
Proof.
  intros Hn. rewrite call_run. cbv zeta. rewrite register_n_objectives.
  assert (E : negb (_n_objectives (self w) =? -1)
              && negb (_n_objectives (self w) =? cardinality (call_cost a)) = false).
  { destruct Hn as [-> | ->]; [reflexivity|]. rewrite Z.eqb_refl. apply andb_false_r. }
  rewrite E.
  destruct (to_floats _ _) as [c|e] eqn:Ef.
  - match goal with |- context [first_failure ?f ?l] =>
      assert (Hp := payload_check (call_config a) (id_of (call_config a) (self w))
                      (call_instance a) (call_seed a)
                      (option_map PyFloat.float (call_budget a)) c (call_time a)
                      (call_status a) (call_starttime a) (call_endtime a)
                      (call_additional_info a) (key_of_call (self w) a)
                      (value_of_call c a));
      destruct (first_failure f l) as [[]|e]
    end.
    + destruct (_ || _); [apply _add_safe|exact I].
    + simpl. apply Hp.
  - simpl. unfold to_floats in Ef.
    destruct (_ =? 1), (squeeze (call_cost a)); try discriminate;
      injection Ef as <-; benign.
Qed.

(** C3. The number of objectives is fixed by the first successful [add]:
    once a call with a cost of cardinality [n] has returned normally, then
    after any further calls of [add], a call whose cost has another
    cardinality raises the objective-count [ValueError], and a call whose
    cost has cardinality [n] raises no such error. *)
Theorem n_objectives_fixed_by_first_successful_add
    (w : World) (first : add_call) (between : list add_call) (later : add_call) :
  fst (call first w) = Ok tt ->
  let w' := after_calls between (snd (call first w)) in
  (cardinality (call_cost later) <> cardinality (call_cost first) ->
     fst (call later w') = Raise (ValueError cardinality_message))
  /\ (cardinality (call_cost later) = cardinality (call_cost first) ->
        fst (call later w') <> Raise (ValueError cardinality_message)).
Proof.
  intros Hok w'.
  assert (Hn : _n_objectives (self (snd (call first w))) = cardinality (call_cost first))
    by now apply call_ok_n_objectives.
  assert (Hpos : cardinality (call_cost first) <> -1).
  { unfold cardinality. pose proof (np_size_nonneg (squeeze (call_cost first))). lia. }
  assert (Hn' : _n_objectives (self w') = cardinality (call_cost first)).
  { subst w'. rewrite after_calls_n_objectives; [exact Hn|]. now rewrite Hn. }
  split; intros Hc.
  - rewrite call_mismatch; [reflexivity| |]; rewrite Hn'; congruence.
  - assert (Hs : osafe (fst (call later w'))).
    { apply call_match_safe. right. congruence. }
    intros Heq. rewrite Heq in Hs. simpl in Hs. now apply Hs.
Qed.

(** C10. [add] is not atomic on error: for a configuration not seen before,
    a cost whose cardinality mismatches the established objective count,
    or additional information that is not JSON-serializable, makes [add]
    raise a [ValueError]; yet the configuration has already been given
    the next id, which stays registered in both maps, and a call that
    found the objective count unset has fixed it. *)
Theorem add_is_not_atomic (w : World) (a : add_call) :
  dict_get (call_config a) (_config_ids (self w)) = None ->
  (_n_objectives (self w) <> -1
   /\ _n_objectives (self w) <> cardinality (call_cost a))
  \/ json_serializable (call_additional_info a) = false ->
  let res := call a w in
  let id := _n_id (self w) + 1 in
  (exists msg, fst res = Raise (ValueError msg))
  /\ dict_get (call_config a) (_config_ids (self (snd res))) = Some id
  /\ dict_get id (_ids_config (self (snd res))) = Some (call_config a)
  /\ _n_id (self (snd res)) = id
  /\ _data (self (snd res)) = _data (self w)
  /\ (_n_objectives (self w) = -1 ->
      _n_objectives (self (snd res)) = cardinality (call_cost a)).
Proof.
  intros Hnew Hbad res id.
  assert (Hn := call_n_objectives a w). fold res in Hn.
  assert (Hreg : forall r',
             _config_ids r' = _config_ids (register (call_config a) (self w)) ->
             _ids_config r' = _ids_config (register (call_config a) (self w)) ->
             _n_id r' = _n_id (register (call_config a) (self w)) ->
             dict_get (call_config a) (_config_ids r') = Some id
             /\ dict_get id (_ids_config r') = Some (call_config a)
             /\ _n_id r' = id).
  { intros r' -> -> ->. unfold register. rewrite Hnew. cbn.
    split; [apply dict_get_set_eq|]. split; [apply dict_get_set_eq|reflexivity]. }
  assert (Hlast : _n_objectives (self w) = -1 ->
                  _n_objectives (self (snd res)) = cardinality (call_cost a)).
  { intros E. rewrite Hn, E. reflexivity. }
  subst res. rewrite call_run in *. cbv zeta in *.
  rewrite register_n_objectives in *.
  destruct (negb (_n_objectives (self w) =? -1)
            && negb (_n_objectives (self w) =? cardinality (call_cost a))) eqn:Eif.
  - cbn [fst snd self with_self].
    split; [eauto|]. destruct (Hreg (register (call_config a) (self w))) as (?&?&?); auto.
    rewrite register_data. auto.
  - assert (Hser : json_serializable (call_additional_info a) = false).
    { destruct Hbad as [[H1 H2]|Hs]; [|exact Hs].
      apply Z.eqb_neq in H1, H2. rewrite H1, H2 in Eif. discriminate. }
    assert (Hfix : _n_objectives (fix_objectives (cardinality (call_cost a))
                                    (register (call_config a) (self w)))
                   = cardinality (call_cost a)).
    { unfold fix_objectives. rewrite register_n_objectives.
      destruct (_n_objectives (self w) =? -1) eqn:E1; [reflexivity|].
      rewrite register_n_objectives. cbn in Eif.
      destruct (_n_objectives (self w) =? cardinality (call_cost a)) eqn:E2;
        [now apply Z.eqb_eq in E2|discriminate]. }
    rewrite Hfix in *.
    destruct (to_floats_squeeze (call_cost a)) as (c & Hc & _).
    unfold cardinality in *. rewrite Hc in *.
    match goal with |- context [first_failure ?f ?l] =>
      assert (Hp := payload_check (call_config a) (id_of (call_config a) (self w))
                      (call_instance a) (call_seed a)
                      (option_map PyFloat.float (call_budget a)) c (call_time a)
                      (call_status a) (call_starttime a) (call_endtime a)
                      (call_additional_info a) (key_of_call (self w) a)
                      (value_of_call c a));
      destruct (first_failure f l) as [[]|e]
    end.
    + unfold payload_ok in Hp. rewrite Hser in Hp.
      rewrite andb_false_r in Hp. discriminate.
    + destruct Hp as (_ & _ & msg & ->). cbn [fst snd self with_self] in *.
      destruct (fix_objectives_registry (np_size (squeeze (call_cost a)))
                  (register (call_config a) (self w))) as (E1 & E2 & E3 & E4 & _).
      split; [eauto|]. destruct (Hreg _ E1 E2 E3) as (?&?&?).
      rewrite E4, register_data. auto.
Qed.

(** A call that returns normally on a key the ledger does not hold yet
    went through [_add]. *)
Lemma call_ok_inserts a w :
  fst (call a w) = Ok tt ->
  _overwrite_existing_trials (self w) = false ->
  call_force_update a = false ->
  dict_get (key_of_call (self w) a) (_data (self w)) = None ->
  exists c,
    to_floats (cardinality (call_cost a)) (squeeze (call_cost a)) = Ok c
    /\ payload_ok (call_config a) (call_additional_info a) = true
    /\ _n_objectives (fix_objectives (cardinality (call_cost a))
                        (register (call_config a) (self w)))
       = cardinality (call_cost a)
    /\ call a w
       = _add (key_of_call (self w) a) (value_of_call c a) (call_status a) (call_origin a)
           (with_self w (fix_objectives (cardinality (call_cost a))
                           (register (call_config a) (self w)))).
Proof.
  intros Hok Hov Hf Hfresh. rewrite call_run in *. cbv zeta in *.
  rewrite register_n_objectives in *.
  destruct (negb (_n_objectives (self w) =? -1)
            && negb (_n_objectives (self w) =? cardinality (call_cost a))) eqn:Eif;
    [discriminate Hok|].
  assert (Hfix : _n_objectives (fix_objectives (cardinality (call_cost a))
                                  (register (call_config a) (self w)))
                 = cardinality (call_cost a)).
  { unfold fix_objectives. rewrite register_n_objectives.
    destruct (_n_objectives (self w) =? -1) eqn:E1; [reflexivity|].
    rewrite register_n_objectives. cbn in Eif.
    destruct (_n_objectives (self w) =? cardinality (call_cost a)) eqn:E2;
      [now apply Z.eqb_eq in E2|discriminate]. }
  rewrite Hfix in *.
  destruct (to_floats_squeeze (call_cost a)) as (c & Hc & _).
  fold (cardinality (call_cost a)) in Hc. rewrite Hc in *.
  exists c. split; [reflexivity|].
  match goal with |- context [first_failure ?f ?l] =>
    assert (Hp := payload_check (call_config a) (id_of (call_config a) (self w))
                    (call_instance a) (call_seed a)
                    (option_map PyFloat.float (call_budget a)) c (call_time a)
                    (call_status a) (call_starttime a) (call_endtime a)
                    (call_additional_info a) (key_of_call (self w) a)
                    (value_of_call c a));
    destruct (first_failure f l) as [[]|e]
  end; [|discriminate Hok].
  split; [exact Hp|]. split; [reflexivity|].
  destruct (fix_objectives_registry (cardinality (call_cost a))
              (register (call_config a) (self w))) as (_ & _ & _ & E4 & E5).
  rewrite E5, E4, register_overwrite, register_data, Hov, Hf.
  unfold dict_contains. rewrite Hfresh. reflexivity.
Qed.

Lemma id_of_registered config r i :
  dict_get config (_config_ids r) = Some i ->
  id_of config r = i /\ register config r = r.
Proof. intros Hi. unfold id_of, register. now rewrite Hi. Qed.

Lemma filter_key_fresh (k : TrialKey) (v : TrialValue) (d : dict TrialKey TrialValue) :
  dict_get k d = None ->
  List.filter (fun kv => bool_decide (fst kv = k)) (dict_set k v d) = [(k, v)].
Proof.
  intros Hd. rewrite (dict_set_fresh _ _ _ Hd). rewrite List.filter_app. simpl.
  rewrite bool_decide_true by reflexivity.
  assert (Hnone : List.filter (fun kv => bool_decide (fst kv = k)) d = []).
  { apply dict_get_None_keys in Hd. unfold dict_keys in Hd.
    induction d as [|[k' v'] d IH]; [reflexivity|]. simpl in *.
    destruct (bool_decide (k' = k)) eqn:E.
    - apply bool_decide_eq_true_1 in E. exfalso. apply Hd. now left.
    - apply IH. intros Hin. apply Hd. now right. }
  now rewrite Hnone.
Qed.

(** C2. With [overwrite_existing_trials] off, a second [add] under the key
    of a first [add] that filed a new trial (both without [force_update])
    leaves the ledger as the first call left it: one entry for the key,
    holding the first call's value.  The second call changes nothing in
    the ledger, and it returns normally when its own cost and additional
    information are acceptable. *)
Theorem duplicate_add_is_dropped (w : World) (first second : add_call) :
  _overwrite_existing_trials (self w) = false ->
  call_force_update first = false ->
  call_force_update second = false ->
  call_config second = call_config first ->
  call_instance second = call_instance first ->
  call_seed second = call_seed first ->
  call_budget second = call_budget first ->
  dict_get (key_of_call (self w) first) (_data (self w)) = None ->
  fst (call first w) = Ok tt ->
  let w1 := snd (call first w) in
  let k := key_of_call (self w) first in
  exists c,
    to_floats (cardinality (call_cost first)) (squeeze (call_cost first)) = Ok c
    /\ List.filter (fun kv => bool_decide (fst kv = k)) (_data (self w1))
       = [(k, value_of_call c first)]
    /\ self (snd (call second w1)) = self w1
    /\ List.filter (fun kv => bool_decide (fst kv = k)) (_data (self (snd (call second w1))))
       = [(k, value_of_call c first)]
    /\ (cardinality (call_cost second) = cardinality (call_cost first) ->
        json_serializable (call_additional_info second) = true ->
        call second w1
        = (Ok tt, {| self := self w1;
                     logged := (logged w1 ++ [{| level := INFO;
                                                 message := duplicate_message |}])%list;
                     files := files w1 |})).
Proof.
  intros Hov Hf1 Hf2 Hcfg Hinst Hseed Hbud Hfresh Hok w1 k.
  destruct (call_ok_inserts first w Hok Hov Hf1 Hfresh) as (c & Hc & Hpay & Hfix & Hrun).
  set (r2 := fix_objectives (cardinality (call_cost first))
               (register (call_config first) (self w))) in *.
  destruct (fix_objectives_registry (cardinality (call_cost first))
              (register (call_config first) (self w))) as (E1 & E2 & E3 & E4 & E5).
  fold r2 in E1, E2, E3, E4, E5.
  assert (Hdata : _data (self w1) = dict_set k (value_of_call c first) (_data (self w))).
  { subst w1. rewrite Hrun, _add_data. cbn [self with_self].
    now rewrite E4, register_data. }
  assert (Hreg : registry w1 = registry (with_self w r2)).
  { subst w1. rewrite Hrun. apply _add_keeps_registry. }
  unfold registry in Hreg. cbn [self with_self] in Hreg.
  injection Hreg as Hov1 Hids1 _ _ Hn1.
  rewrite E5, register_overwrite, Hov in Hov1.
  rewrite E1 in Hids1. rewrite Hfix in Hn1.
  assert (Hid1 : dict_get (call_config first) (_config_ids (self w1))
                 = Some (id_of (call_config first) (self w)))
    by (rewrite Hids1; apply register_get).
  destruct (id_of_registered _ _ _ Hid1) as [Hidof Hregid].
  assert (Hk2 : key_of_call (self w1) second = k).
  { unfold key_of_call. subst k. unfold key_of_call.
    now rewrite Hcfg, Hinst, Hseed, Hbud, Hidof. }
  assert (Hfilter : List.filter (fun kv => bool_decide (fst kv = k)) (_data (self w1))
                    = [(k, value_of_call c first)])
    by (rewrite Hdata; now apply filter_key_fresh).
  assert (Hpos : cardinality (call_cost first) <> -1).
  { unfold cardinality. pose proof (np_size_nonneg (squeeze (call_cost first))). lia. }
  assert (Hcontains : dict_contains k (_data (self w1)) = true).
  { unfold dict_contains. now rewrite Hdata, dict_get_set_eq. }
  (* the second call, phase by phase *)
  assert (Hsecond :
    self (snd (call second w1)) = self w1
    /\ (cardinality (call_cost second) = cardinality (call_cost first) ->
        json_serializable (call_additional_info second) = true ->
        call second w1
        = (Ok tt, {| self := self w1;
                     logged := (logged w1 ++ [{| level := INFO;
                                                 message := duplicate_message |}])%list;
                     files := files w1 |}))).
  { rewrite call_run. cbv zeta. rewrite Hcfg, Hregid, Hk2, Hn1.
    assert (E1' : (cardinality (call_cost first) =? -1) = false) by now apply Z.eqb_neq.
    rewrite E1'. cbn [negb andb].
    destruct (cardinality (call_cost first) =? cardinality (call_cost second)) eqn:Ec;
      cbn [negb].
    - apply Z.eqb_eq in Ec.
      assert (Hfix2 : fix_objectives (cardinality (call_cost second)) (self w1) = self w1).
      { unfold fix_objectives. now rewrite Hn1, E1'. }
      rewrite Hfix2, Hn1, Ec.
      destruct (to_floats_squeeze (call_cost second)) as (c2 & Hc2 & _).
      fold (cardinality (call_cost second)) in Hc2. rewrite Hc2.
      match goal with |- context [first_failure ?f ?l] =>
        assert (Hp := payload_check (call_config first)
                        (id_of (call_config first) (self w1))
                        (call_instance second) (call_seed second)
                        (option_map PyFloat.float (call_budget second)) c2
                        (call_time second)
                        (call_status second) (call_starttime second) (call_endtime second)
                        (call_additional_info second) k
                        (value_of_call c2 second));
        destruct (first_failure f l) as [[]|e]
      end.
      + rewrite Hov1, Hf2, Hcontains. cbn. split; [reflexivity|]. intros _ _. reflexivity.
      + cbn. split; [reflexivity|]. intros _ Hser.
        destruct Hp as (Hp & _). unfold payload_ok in *.
        rewrite Hser in Hp.
        apply andb_true_iff in Hpay as [Hpay Ho].
        apply andb_true_iff in Hpay as [Hd _].
        rewrite Hd, Ho in Hp. discriminate.
    - cbn. split; [reflexivity|]. intros Heq. apply Z.eqb_neq in Ec. congruence. }
  destruct Hsecond as [Hself Hret].
  exists c. split; [exact Hc|]. split; [exact Hfilter|]. split; [exact Hself|].
  split; [now rewrite Hself|exact Hret].
Qed.

End AddClaims.

(** ** Queries without data, and files that cannot be read *)

Section Queries.
Context `{Collaborators}.

Lemma _cost_unrecorded r config :
  unrecorded r config -> _cost r config None = Ok [].
Proof.
  unfold unrecorded, _cost, get_trials.
  destruct (dict_get config (_config_ids r)) as [i|]; [|reflexivity].
  intros (Hb & _). unfold dict_get_default.
  match goal with |- context [dict_get i ?m] => change (dict_get i m) with
      (dict_get i (_config_id_to_isk_to_budget r)) end.
  rewrite Hb. reflexivity.
Qed.

Lemma _cost_unregistered r config keys :
  dict_get config (_config_ids r) = None -> _cost r config keys = Ok [].
Proof. unfold _cost. now intros ->. Qed.

Lemma cache_get_unrecorded r config :
  unrecorded r config ->
  cache_get (dict_get config (_config_ids r)) (_cost_per_config r) = CScalar NaN
  /\ cache_get (dict_get config (_config_ids r)) (_min_cost_per_config r) = CScalar NaN.
Proof.
  unfold unrecorded, cache_get, dict_get_default.
  destruct (dict_get config (_config_ids r)) as [i|]; [|auto].
  intros (_ & -> & ->). auto.
Qed.

(** C7, as the code has it.  For a configuration without data,
    [average_cost] and [min_cost] return [nan] and [sum_cost] returns
    [0.0]; with at most one objective [get_cost] and [get_min_cost]
    return [nan].  A configuration without an id gets these answers for
    any list of keys. *)
Theorem cost_queries_without_data (r : RunHistory) (config : Configuration)
    (normalize : bool) :
  unrecorded r config ->
  average_cost r config None normalize = Ok (CScalar NaN)
  /\ min_cost r config None normalize = Ok (CScalar NaN)
  /\ sum_cost r config None normalize = Ok (CScalar (Fin 0))
  /\ (_n_objectives r <= 1 ->
      get_cost r config = Ok NaN /\ get_min_cost r config = Ok NaN)
  /\ (dict_get config (_config_ids r) = None ->
      forall keys,
        average_cost r config keys normalize = Ok (CScalar NaN)
        /\ min_cost r config keys normalize = Ok (CScalar NaN)
        /\ sum_cost r config keys normalize = Ok (CScalar (Fin 0))).
Proof.
  intros Hu. assert (Hc := _cost_unrecorded r config Hu).
  unfold average_cost, min_cost, sum_cost. rewrite Hc. cbn.
  repeat split.
  - unfold get_cost. destruct (cache_get_unrecorded r config Hu) as [-> _].
    assert (E : (1 <? _n_objectives r) = false) by (apply Z.ltb_ge; lia).
    now rewrite E.
  - unfold get_min_cost. destruct (cache_get_unrecorded r config Hu) as [_ ->].
    assert (E : (1 <? _n_objectives r) = false) by (apply Z.ltb_ge; lia).
    now rewrite E.
  - now rewrite _cost_unregistered.
  - now rewrite _cost_unregistered.
  - now rewrite _cost_unregistered.
Qed.

(** C8, as the code has it.  When the file is missing, unreadable or not
    JSON, [load_json] logs one warning, returns normally and changes
    neither the ledger nor the files. *)
Theorem load_json_unreadable_leaves_ledger (w : World) (filename : string)
    (configspace : ConfigurationSpace) :
  dict_get filename (files w) = None
  \/ dict_get filename (files w) = Some Unreadable
  \/ dict_get filename (files w) = Some NotJson ->
  load_json filename configspace w
  = (Ok tt, {| self := self w;
               logged := (logged w ++ [{| level := WARNING;
                                          message := warning_message |}])%list;
               files := files w |}).
Proof.
  intros Hf. unfold load_json, bind, get_file. cbn [fst snd].
  destruct Hf as [-> | [-> | ->]]; reflexivity.
Qed.

End Queries.

(** ** The order on floats *)

Section FloatOrder.






End FloatOrder.

(** ** The incumbent *)

Section Incumbent.
Context `{Collaborators}.



End Incumbent.

(** ** Objective bounds *)

Section Columns.

Lemma zip_with_float_nth f (a b : list pyfloat) (m : nat) :
  length a = m -> length b = m ->
  zip_with_float f a b = map (fun j => f (nth j a NaN) (nth j b NaN)) (seq 0 m).
Proof.
  revert b m. induction a as [|x a IH]; intros [|y b] [|m] Ha Hb;
    try discriminate; [reflexivity|].
  unfold zip_with_float in *. cbn [combine map seq nth fst snd].
  f_equal. rewrite <- seq_shift, map_map. apply IH; simpl in *; lia.
Qed.

Lemma length_zip_with_float f (a b : list pyfloat) (m : nat) :
  length a = m -> length b = m -> length (zip_with_float f a b) = m.
Proof.
  intros Ha Hb. unfold zip_with_float. rewrite length_map, length_combine. lia.
Qed.

Lemma map_nth_seq (l : list pyfloat) : map (fun j => nth j l NaN) (seq 0 (length l)) = l.
Proof.
  induction l as [|x l IH]; [reflexivity|].
  cbn [length seq map nth]. f_equal. rewrite <- seq_shift, map_map. exact IH.
Qed.

Lemma nth_map_seq (g : nat -> pyfloat) (m j : nat) (d : pyfloat) :
  (j < m)%nat -> nth j (map g (seq 0 m)) d = g j.
Proof.
  intros Hj. rewrite (nth_indep _ d (g 0%nat)) by (rewrite length_map, length_seq; lia).
  rewrite map_nth, seq_nth by lia. reflexivity.
Qed.

(** Reducing the rows of a matrix along axis 0 is reducing each column. *)
Lemma fold_rows_columns f (rest : list (list pyfloat)) (r0 : list pyfloat) (m : nat) :
  length r0 = m -> Forall (fun r => length r = m) rest ->
  fold_left (zip_with_float f) rest r0
  = map (fun j => fold_left f (map (fun r => nth j r NaN) rest) (nth j r0 NaN)) (seq 0 m).
Proof.
  revert r0. induction rest as [|r1 rest IH]; intros r0 H0 Hrest.
  - simpl. subst m. symmetry. apply map_nth_seq.
  - apply Forall_cons_iff in Hrest as [H1 Hrest]. cbn [fold_left map].
    rewrite IH; [|now apply length_zip_with_float|exact Hrest].
    apply map_ext_in. intros j Hj. apply in_seq in Hj. f_equal.
    rewrite (zip_with_float_nth f r0 r1 m H0 H1).
    apply nth_map_seq. lia.
Qed.

Lemma combine_map_seq {A B} (f : nat -> A) (g : nat -> B) (l : list nat) :
  combine (map f l) (map g l) = map (fun j => (f j, g j)) l.
Proof. induction l; simpl; congruence. Qed.

Lemma repeat_map_seq {A} (x : A) (n start : nat) :
  repeat x n = map (fun _ => x) (seq start n).
Proof. revert start. induction n; intros start; simpl; [reflexivity|]. f_equal. apply IHn. Qed.

End Columns.

Section Bounds.
Context `{Collaborators}.

#[local] Arguments _add : simpl never.

Lemma collect_costs_fit n (values : list TrialValue) :
  (forall v, In v values -> Z.of_nat (length (row (cost v))) = n) ->
  collect_costs n values
  = Ok (map (fun v => row (cost v))
            (List.filter (fun v => bool_decide (status v = SUCCESS)) values)).
Proof.
  induction values as [|v values IH]; intros Hfit; [reflexivity|].
  cbn [collect_costs List.filter].
  rewrite IH by (intros v' Hv'; apply Hfit; now right).
  destruct (decide (status v = SUCCESS)) as [Hs|Hs].
  - rewrite bool_decide_true by exact Hs.
    assert (Hv : Z.of_nat (length (row (cost v))) = n) by (apply Hfit; now left).
    unfold row in Hv. fold (row (cost v)).
    change (match cost v with CScalar x => [x] | CList l => l end) with (row (cost v)).
    apply Z.eqb_eq in Hv. unfold row in *. rewrite Hv. reflexivity.
  - rewrite bool_decide_false by exact Hs. reflexivity.
Qed.

Lemma filter_values (data : dict TrialKey TrialValue) :
  map (fun v => row (cost v))
      (List.filter (fun v => bool_decide (status v = SUCCESS)) (dict_values data))
  = map row (success_costs data).
Proof.
  unfold success_costs, dict_values.
  induction data as [|[k v] data IH]; [reflexivity|].
  cbn [map List.filter snd]. destruct (bool_decide (status v = SUCCESS)); simpl; congruence.
Qed.

Lemma bounds_of_rows_spec n (data : dict TrialKey TrialValue) :
  (forall k v, In (k, v) data -> Z.of_nat (length (row (cost v))) = n) ->
  bounds_of_rows n (map row (success_costs data)) = objective_bounds_spec n data.
Proof.
  intros Hfit. unfold bounds_of_rows, objective_bounds_spec.
  assert (Hrows : Forall (fun r => length r = Z.to_nat n) (map row (success_costs data))).
  { unfold success_costs. rewrite map_map. apply List.Forall_forall. intros r Hr.
    apply in_map_iff in Hr as ([k v] & <- & Hin). apply filter_In in Hin as [Hin _].
    specialize (Hfit k v Hin). simpl. lia. }
  assert (Hobj : forall j cs, map (objective j) cs = map (fun r => nth j r NaN) (map row cs)).
  { intros j cs. rewrite map_map. apply map_ext. now intros []. }
  destruct (success_costs data) as [|c0 cs]; cbn [map reduce_axis0].
  - apply repeat_map_seq.
  - apply Forall_cons_iff in Hrows as [H0 Hrest].
    rewrite (fold_rows_columns _ _ _ _ H0 Hrest), (fold_rows_columns _ _ _ _ H0 Hrest).
    rewrite combine_map_seq. apply map_ext. intros j.
    unfold min_max. cbn [map]. rewrite Hobj. now destruct c0.
Qed.

Lemma _update_objective_bounds_run w :
  costs_fit (self w) ->
  _update_objective_bounds w
  = (Ok tt, with_self w (set_objective_bounds
                           (objective_bounds_spec (_n_objectives (self w)) (_data (self w)))
                           (self w))).
Proof.
  intros Hfit. unfold _update_objective_bounds, bind, query. cbn [fst snd].
  rewrite collect_costs_fit.
  2:{ intros v Hv. unfold dict_values in Hv. apply in_map_iff in Hv as ([k v'] & <- & Hin).
      exact (Hfit k v' Hin). }
  rewrite filter_values.
  assert (Hspec := bounds_of_rows_spec (_n_objectives (self w)) (_data (self w)) Hfit).
  unfold bounds_of_rows in Hspec.
  destruct (reduce_axis0 PyFloat.np_minimum _);
    [destruct (reduce_axis0 PyFloat.np_maximum _)|];
    unfold modify; cbn; rewrite <- Hspec; reflexivity.
Qed.

Lemma dict_set_In {K V} `{EqDecision K} (k k' : K) (v v' : V) (d : dict K V) :
  In (k', v') (dict_set k v d) -> In (k', v') d \/ v' = v.
Proof.
  induction d as [|[k0 v0] d IH]; simpl.
  - intros [[= _ <-] | []]. now right.
  - destruct (decide (k = k0)) as [->|Hne]; simpl.
    + intros [[= <- <-] | Hin]; [now right|left; now right].
    + intros [Heq | Hin]; [left; now left|].
      destruct (IH Hin) as [Hd | Hv]; [left; now right|now right].
Qed.

Lemma _add_bounds k v status origin w :
  costs_fit (set_data (dict_set k v (_data (self w))) (self w)) ->
  _objective_bounds (self (snd (_add k v status origin w)))
  = objective_bounds_spec (_n_objectives (self w)) (dict_set k v (_data (self w))).
Proof.
  intros Hfit. unfold _add.
  unfold bind at 1. unfold modify at 1. cbn [fst snd].
  unfold bind at 1. unfold modify at 1. cbn [fst snd].
  match goal with |- context [bind _update_objective_bounds ?k ?w0] =>
    rewrite (keeps_snd_bind (fun w => _objective_bounds (self w)) _update_objective_bounds k w0)
  end.
  - rewrite _update_objective_bounds_run; [reflexivity|exact Hfit].
  - intros _. frame.
    all: apply (keeps_map ledger snd);
      (apply update_cost_keeps || apply incremental_update_cost_keeps).
Qed.

(** A call either leaves the ledger's trials alone or goes through [_add]
    with a cost that fits the objective count. *)
Lemma call_cases a w :
  let r1 := register (call_config a) (self w) in
  let n := cardinality (call_cost a) in
  (self (snd (call a w)) = r1 \/ self (snd (call a w)) = fix_objectives n r1)
  \/ (exists c,
         to_floats n (squeeze (call_cost a)) = Ok c
         /\ _n_objectives (fix_objectives n r1) = n
         /\ call a w = _add (key_of_call (self w) a) (value_of_call c a) (call_status a)
                          (call_origin a) (with_self w (fix_objectives n r1))).
Proof.
  intros r1 n. rewrite call_run. cbv zeta. fold r1 n.
  destruct (negb (_n_objectives r1 =? -1) && negb (_n_objectives r1 =? n)) eqn:Eif;
    [left; now left|].
  assert (Hfix : _n_objectives (fix_objectives n r1) = n).
  { unfold fix_objectives.
    destruct (_n_objectives r1 =? -1) eqn:E1; [reflexivity|]. cbn in Eif.
    destruct (_n_objectives r1 =? n) eqn:E2; [now apply Z.eqb_eq in E2|discriminate]. }
  rewrite Hfix.
  destruct (to_floats_squeeze (call_cost a)) as (c & Hc & _).
  fold (cardinality (call_cost a)) in Hc. fold n in Hc. rewrite Hc.
  destruct (first_failure _ _) as [[]|e]; [|left; now right].
  destruct (_ || _); [|left; now right].
  right. exists c. auto.
Qed.

Lemma bounds_invariant_register config r :
  bounds_invariant r -> bounds_invariant (register config r).
Proof.
  unfold register. now destruct (dict_get config (_config_ids r)).
Qed.

Lemma bounds_invariant_fix n r :
  bounds_invariant r -> bounds_invariant (fix_objectives n r).
Proof.
  unfold fix_objectives. destruct (_n_objectives r =? -1) eqn:E; [|auto].
  apply Z.eqb_eq in E. intros [Hfit _].
  assert (Hempty : _data r = []).
  { destruct (_data r) as [|[k v] d] eqn:Hd; [reflexivity|].
    specialize (Hfit k v). rewrite Hd in Hfit. specialize (Hfit (or_introl eq_refl)). lia. }
  split.
  - intros k v Hin. cbn in Hin. rewrite Hempty in Hin. destruct Hin.
  - cbn. rewrite Hempty. congruence.
Qed.

Lemma np_size_row c : Z.of_nat (length (row c)) = np_size c.
Proof. now destruct c. Qed.

Lemma bounds_invariant_call a w :
  bounds_invariant (self w) -> bounds_invariant (self (snd (call a w))).
Proof.
  intros Hinv.
  assert (H1 := bounds_invariant_register (call_config a) _ Hinv).
  assert (H2 := bounds_invariant_fix (cardinality (call_cost a)) _ H1).
  destruct (call_cases a w) as [[-> | ->] | (c & Hc & Hn & Hrun)]; [exact H1|exact H2|].
  rewrite Hrun.
  set (w2 := with_self w (fix_objectives (cardinality (call_cost a))
                            (register (call_config a) (self w)))) in *.
  set (k := key_of_call (self w) a) in *. set (v := value_of_call c a) in *.
  assert (Hreg := _add_keeps_registry k v (call_status a) (call_origin a) w2).
  unfold registry in Hreg. injection Hreg as _ _ _ _ Hnobj.
  assert (Hfit : costs_fit (set_data (dict_set k v (_data (self w2))) (self w2))).
  { intros k' v' Hin. cbn [_data set_data _n_objectives] in *.
    destruct (dict_set_In _ _ _ _ _ Hin) as [Hold | ->].
    - exact (proj1 H2 k' v' Hold).
    - subst v. cbn [cost value_of_call]. rewrite np_size_row.
      destruct (to_floats_squeeze (call_cost a)) as (c' & Hc' & Hsize & _).
      fold (cardinality (call_cost a)) in Hc'. rewrite Hc in Hc'. injection Hc' as <-.
      cbn [self with_self w2]. rewrite Hn. exact Hsize. }
  split.
  - intros k' v' Hin. rewrite _add_data in Hin. rewrite Hnobj.
    exact (Hfit k' v' Hin).
  - intros _. rewrite _add_bounds by exact Hfit. now rewrite Hnobj, _add_data.
Qed.

Lemma reachable_bounds_invariant w : reachable w -> bounds_invariant (self w).
Proof.
  induction 1 as [ow lg fs|a w Hw IH].
  - split; [intros k v []|]. cbn. congruence.
  - now apply bounds_invariant_call.
Qed.

Lemma reachable_after_calls (calls : list add_call) (w : World) :
  reachable w -> reachable (after_calls calls w).
Proof.
  revert w. induction calls as [|a calls IH]; intros w Hw; [exact Hw|].
  cbn [after_calls fold_left]. apply IH. now apply reachable_call.
Qed.

(** C9. In every ledger built by [add] that holds at least one trial,
    [objective_bounds] is, per objective, the (minimum, maximum) of that
    objective's cost over the trials whose status is [SUCCESS], and
    [(inf, -inf)] per objective when there is none; no other trial enters
    the bounds. *)
Theorem objective_bounds_after_insertion (w : World) :
  reachable w ->
  _data (self w) <> [] ->
  _objective_bounds (self w)
  = objective_bounds_spec (_n_objectives (self w)) (_data (self w)).
Proof.
  intros Hw. exact (proj2 (reachable_bounds_invariant w Hw)).
Qed.

End Bounds.

(** ** Ledgers built by [add] are well formed *)

Section WellFormedFacts.
Context `{Collaborators}.

#[local] Arguments _add : simpl never.

Lemma float_idem x : PyFloat.float (PyFloat.float x) = PyFloat.float x.
Proof.
  destruct x; simpl; [|reflexivity..].
  f_equal. apply Qred_complete, Qred_correct.
Qed.

Lemma map_float_idem l : map PyFloat.float (map PyFloat.float l) = map PyFloat.float l.
Proof. rewrite map_map. apply map_ext. intros x. apply float_idem. Qed.

Lemma to_floats_canonical cost c :
  to_floats (np_size (squeeze cost)) (squeeze cost) = Ok c -> canonical_cost c.
Proof.
  unfold canonical_cost, to_floats.
  destruct cost as [x|[|x [|y l]]]; cbn [squeeze np_size length].
  - intros [= <-]. cbn. now rewrite float_idem.
  - intros [= <-]. reflexivity.
  - intros [= <-]. cbn. now rewrite float_idem.
  - destruct (Z.of_nat (S (S (length l))) =? 1) eqn:E; [apply Z.eqb_eq in E; lia|].
    intros [= <-]. cbn [map squeeze np_size length]. rewrite length_map, E.
    cbn [map]. now rewrite !float_idem, map_float_idem.
Qed.

Lemma NoDup_snoc {A} (l : list A) (x : A) :
  NoDup l -> ~ In x l -> NoDup (l ++ [x]).
Proof.
  intros Hnd Hx. apply NoDup_app. split; [exact Hnd|]. split; [|apply NoDup_singleton].
  intros y Hy Hy'. apply list_elem_of_In in Hy, Hy'. destruct Hy' as [<-|[]]. auto.
Qed.

Lemma dict_set_keys_NoDup {K V} `{EqDecision K} (k : K) (v : V) (d : dict K V) :
  NoDup (dict_keys d) -> NoDup (dict_keys (dict_set k v d)).
Proof.
  intros Hnd. destruct (dict_get k d) as [v0|] eqn:E.
  - now rewrite (dict_set_present _ _ _ _ E).
  - rewrite (dict_set_fresh _ _ _ E). unfold dict_keys in *. rewrite map_app. simpl.
    apply NoDup_snoc; [exact Hnd|]. now apply dict_get_None_keys.
Qed.

Lemma dict_set_In_key {K V} `{EqDecision K} (k k' : K) (v v' : V) (d : dict K V) :
  In (k', v') (dict_set k v d) -> In (k', v') d \/ (k' = k /\ v' = v).
Proof.
  induction d as [|[k0 v0] d IH]; simpl.
  - intros [[= <- <-] | []]. now right.
  - destruct (decide (k = k0)) as [->|Hne]; simpl.
    + intros [[= <- <-] | Hin]; [now right|left; now right].
    + intros [Heq | Hin]; [left; now left|].
      destruct (IH Hin) as [Hd | Hv]; [left; now right|now right].
Qed.

Lemma well_formed_init overwrite : well_formed (RunHistory_init overwrite).
Proof.
  split; cbn; try (intros; contradiction); try discriminate; apply NoDup_nil_2.
Qed.

Lemma well_formed_register config r : well_formed r -> well_formed (register config r).
Proof.
  intros Hwf. unfold register.
  destruct (dict_get config (_config_ids r)) as [i|] eqn:Hc; [exact Hwf|].
  destruct Hwf as [Hcosts Hbud Hdids Hic Hci Hbound Hnd Hdnd].
  split; cbn; auto.
  - intros k v Hin. destruct (Hdids k v Hin) as [c Hcfg].
    destruct (decide (_n_id r + 1 = config_id k)) as [E|E].
    + rewrite E, dict_get_set_eq. eauto.
    + rewrite dict_get_set_ne by exact E. eauto.
  - intros i c. destruct (decide (_n_id r + 1 = i)) as [<-|E].
    + rewrite dict_get_set_eq. intros [= <-]. apply dict_get_set_eq.
    + rewrite dict_get_set_ne by exact E. intros Hi.
      assert (Hci' := Hic i c Hi).
      rewrite dict_get_set_ne; [exact Hci'|]. intros <-. congruence.
  - intros c i. destruct (decide (config = c)) as [<-|E].
    + rewrite dict_get_set_eq. intros [= <-]. apply dict_get_set_eq.
    + rewrite dict_get_set_ne by exact E. intros Hi.
      assert (Hle := Hbound c i Hi).
      rewrite dict_get_set_ne by lia. now apply Hci.
  - intros c i. destruct (decide (config = c)) as [<-|E].
    + rewrite dict_get_set_eq. intros [= <-]. lia.
    + rewrite dict_get_set_ne by exact E. intros Hi.
      assert (Hle := Hbound c i Hi). lia.
  - now apply dict_set_keys_NoDup.
Qed.

Lemma well_formed_fix n r : well_formed r -> well_formed (fix_objectives n r).
Proof.
  unfold fix_objectives. destruct (_n_objectives r =? -1); [|auto].
  intros [? ? ? ? ? ? ? ?]. split; cbn; auto.
Qed.

(** A ledger that differs from a well-formed one by the effect of
    [_add] on a fitting key and value is well formed. *)
Lemma well_formed_insert r r' k v :
  well_formed r ->
  _data r' = dict_set k v (_data r) ->
  _ids_config r' = _ids_config r -> _config_ids r' = _config_ids r -> _n_id r' = _n_id r ->
  canonical_cost (cost v) -> canonical_budget (tk_budget k) ->
  (exists c, dict_get (config_id k) (_ids_config r) = Some c) ->
  well_formed r'.
Proof.
  intros [Hcosts Hbud Hdids Hic Hci Hbound Hnd Hdnd] Hd Hi Hc Hn Hcost Hbudget Hid.
  split; rewrite ?Hd, ?Hi, ?Hc, ?Hn; auto.
  - intros k' v' Hin. destruct (dict_set_In_key _ _ _ _ _ Hin) as [Hold | [-> ->]]; eauto.
  - intros k' v' Hin. destruct (dict_set_In_key _ _ _ _ _ Hin) as [Hold | [-> ->]]; eauto.
  - intros k' v' Hin. destruct (dict_set_In_key _ _ _ _ _ Hin) as [Hold | [-> ->]]; eauto.
  - now apply dict_set_keys_NoDup.
Qed.

Lemma register_ids_config config r :
  well_formed r ->
  dict_get (id_of config r) (_ids_config (register config r)) = Some config.
Proof.
  intros Hwf. unfold id_of, register.
  destruct (dict_get config (_config_ids r)) as [i|] eqn:Hc.
  - now apply (wf_config_ids r Hwf).
  - cbn. apply dict_get_set_eq.
Qed.

Lemma well_formed_call a w : well_formed (self w) -> well_formed (self (snd (call a w))).
Proof.
  intros Hwf.
  assert (H1 := well_formed_register (call_config a) _ Hwf).
  assert (H2 := well_formed_fix (cardinality (call_cost a)) _ H1).
  destruct (call_cases a w) as [[-> | ->] | (c & Hc & Hn & Hrun)]; [exact H1|exact H2|].
  rewrite Hrun.
  set (r2 := fix_objectives (cardinality (call_cost a))
               (register (call_config a) (self w))) in *.
  set (k := key_of_call (self w) a) in *. set (v := value_of_call c a) in *.
  assert (Hreg := _add_keeps_registry k v (call_status a) (call_origin a) (with_self w r2)).
  unfold registry in Hreg. cbn [self with_self] in Hreg.
  injection Hreg as _ Hcids Hidsc Hnid _.
  apply (well_formed_insert r2 _ k v H2); auto.
  - now rewrite _add_data.
  - subst v. cbn [cost value_of_call]. now apply (to_floats_canonical (call_cost a)).
  - subst k. unfold canonical_budget, key_of_call. cbn [tk_budget].
    destruct (call_budget a); cbn; [|reflexivity]. now rewrite float_idem.
  - exists (call_config a). subst k r2. cbn [config_id key_of_call].
    destruct (fix_objectives_registry (cardinality (call_cost a))
                (register (call_config a) (self w))) as (_ & -> & _).
    now apply register_ids_config.
Qed.

Lemma reachable_well_formed w : reachable w -> well_formed (self w).
Proof.
  induction 1 as [ow lg fs|a w Hw IH].
  - apply well_formed_init.
  - now apply well_formed_call.
Qed.

End WellFormedFacts.

(** ** Saving and loading *)

Section Decimal.

Lemma int_of_str_of_int (z : Z) : Py.int_of_str (Py.str_of_int z) = Ok z.
Proof.
  unfold Py.int_of_str, Py.str_of_int.
  rewrite NilZero.isi.
  - now rewrite DecimalZ.of_to.
  - destruct z; simpl; try discriminate.
    intros [= Hp]. exact (DecimalPos.Unsigned.to_uint_nonnil _ Hp).
  - destruct z; simpl; try discriminate.
    intros [= Hp]. exact (DecimalPos.Unsigned.to_uint_nonnil _ Hp).
Qed.

Lemma str_of_int_inj (a b : Z) : Py.str_of_int a = Py.str_of_int b -> a = b.
Proof.
  intros Heq. assert (Ha := int_of_str_of_int a). rewrite Heq, int_of_str_of_int in Ha.
  now injection Ha.
Qed.

Lemma status_type_value (s : StatusType) : Py.status_type (PyInt (status_value s)) = Ok s.
Proof. now destruct s. Qed.

Lemma map_ok_floats (l : list pyfloat) :
  map_ok Py.float (map PyFloat l) = Ok (map PyFloat.float l).
Proof. induction l as [|x l IH]; [reflexivity|]. cbn. now rewrite IH. Qed.

(** A dictionary whose keys were renamed injectively is looked up by the
    renamed key. *)
Lemma dict_get_renamed {V W} (f : Z -> string) (g : Z * V -> W) (d : dict Z V) (i : Z) (v : V) :
  (forall a b, f a = f b -> a = b) ->
  dict_get i d = Some v ->
  exists v0, dict_get (f i) (map (fun kv => (f (fst kv), g kv)) d) = Some (g (i, v0))
             /\ dict_get i d = Some v0.
Proof.
  intros Hinj. induction d as [|[i0 v0] d IH]; simpl; [discriminate|].
  destruct (decide (i = i0)) as [->|Hne].
  - intros [= ->]. destruct (decide (f i0 = f i0)); [|congruence]. eauto.
  - intros Hd. destruct (decide (f i = f i0)) as [E|_]; [now apply Hinj in E|].
    now apply IH.
Qed.

Lemma flat_map_filter {A B} (p : A -> bool) (g : A -> B) (l : list A) :
  flat_map (fun x => if p x then [g x] else []) l = map g (List.filter p l).
Proof.
  induction l as [|x l IH]; [reflexivity|]. simpl. destruct (p x); simpl; congruence.
Qed.

End Decimal.

Section SaveLoad.
Context `{Collaborators}.

#[local] Arguments _add : simpl never.

Lemma saved_entries_internal r items res :
  only_internal r -> saved_entries r false items = Ok res -> res = items.
Proof.
  intros Hint. revert res. induction items as [|[k v] items IH]; intros res; simpl.
  - now intros [= <-].
  - destruct (dict_get k (_external r)) as [o|] eqn:Ho; simpl; [|discriminate].
    rewrite (Hint k o Ho). rewrite bool_decide_true by reflexivity.
    destruct (saved_entries r false items) as [more|e]; simpl; [|discriminate].
    intros [= <-]. f_equal. now apply IH.
Qed.

Lemma save_json_files filename w :
  only_internal (self w) ->
  fst (save_json filename false w) = Ok tt ->
  files (snd (save_json filename false w))
  = dict_set filename (JsonText (saved_document (self w) (_data (self w)))) (files w).
Proof.
  intros Hint. unfold save_json, bind, query, read, lift. cbn [fst snd].
  destruct (saved_entries (self w) false (_data (self w))) as [res|e] eqn:Hs;
    cbn [fst snd]; [|discriminate].
  apply (saved_entries_internal _ _ _ Hint) in Hs. subst res.
  destruct (assert (Py.endswith filename ".json")) as [[]|e]; cbn [fst snd]; [|discriminate].
  fold (saved_document (self w) (_data (self w))).
  destruct (json_serializable (saved_document (self w) (_data (self w)))).
  - reflexivity.
  - unfold put_file, raise. cbn. discriminate.
Qed.

Lemma load_configs_run (configspace : ConfigurationSpace) (r : RunHistory)
    (l : list (Z * Configuration)) (ws : World) :
  (forall i c, In (i, c) l -> dict_get i (_ids_config r) = Some c) ->
  NoDup (map fst l) ->
  (forall i c, In (i, c) l -> dict_get i (_ids_config (self ws)) = None) ->
  (forall i c, dict_get i (_ids_config r) = Some c ->
               Configuration_init configspace (get_dictionary c) (Configuration_origin c)
               = Ok c) ->
  for_each (map (fun ic => (Py.str_of_int (fst ic), get_dictionary (snd ic))) l)
    (fun iv =>
       let* origin :=
         lift (Py.get (PyDict (map (fun ic => (Py.str_of_int (fst ic),
                                               Configuration_origin (snd ic)))
                                   (_ids_config r)))
                      (fst iv) PyNone) in
       let* config := lift (Configuration_init configspace (snd iv) origin) in
       let* id_ := lift (Py.int_of_str (fst iv)) in
       modify (fun r => set_ids_config (dict_set id_ config (_ids_config r)) r))
    ws
  = (Ok tt, with_self ws (set_ids_config (_ids_config (self ws) ++ l)%list (self ws))).
Proof.
  intros Hsub Hnd Hfresh Hrebuild. revert ws Hfresh.
  induction l as [|[i c] l IH]; intros ws Hfresh.
  - cbn. unfold ret, with_self. rewrite app_nil_r. now destruct ws as [[] ? ?].
  - cbn [map for_each fst snd]. unfold bind at 1.
    assert (Hic : dict_get i (_ids_config r) = Some c) by (apply Hsub; now left).
    destruct (dict_get_renamed Py.str_of_int (fun kv => Configuration_origin (snd kv))
                (_ids_config r) i c str_of_int_inj Hic) as (c0 & Hget & Hc0).
    rewrite Hic in Hc0. injection Hc0 as <-.
    unfold bind at 1. unfold lift at 1. cbn [Py.get fst snd].
    unfold dict_get_default. rewrite Hget. cbn [snd].
    unfold bind at 1. unfold lift at 1. rewrite (Hrebuild i c Hic). cbn [fst snd].
    unfold bind at 1. unfold lift at 1. rewrite int_of_str_of_int. cbn [fst snd].
    unfold modify at 1. cbn [fst snd].
    cbn [map fst] in Hnd. apply NoDup_cons in Hnd as [Hi Hnd].
    rewrite list_elem_of_In in Hi.
    rewrite IH.
    + cbn [self logged files with_self _ids_config set_ids_config].
      rewrite (dict_set_fresh i c (_ids_config (self ws))) by (apply (Hfresh i c); now left).
      rewrite <- app_assoc. reflexivity.
    + intros i' c' Hin. apply Hsub. now right.
    + exact Hnd.
    + intros i' c' Hin. cbn [self _ids_config set_ids_config].
      rewrite dict_get_set_ne.
      * apply (Hfresh i' c'). now right.
      * intros <-. apply Hi. change i with (fst (i, c')). now apply in_map.
Qed.

Lemma load_entry_run (k : TrialKey) (v : TrialValue) (config : Configuration) (ws : World) :
  dict_get (config_id k) (_ids_config (self ws)) = Some config ->
  load_entry (json_entry k v) ws
  = let s1 := detect_objectives (cost v) (self ws) in
    match decode_cost (_n_objectives s1) (cost v) with
    | Raise e => (Raise e, with_self ws s1)
    | Ok cost' =>
        add config cost' (PyFloat.float (time v)) (status v) (tk_instance k) (tk_seed k)
            (option_map PyFloat.float (tk_budget k)) (starttime v) (endtime v)
            (additional_info v) INTERNAL false (with_self ws s1)
    end.
Proof.
  intros Hcfg. destruct ws as [s lg fs]. cbn [self] in Hcfg. unfold load_entry, json_entry.
  unfold bind at 1. unfold read at 1. cbn [fst snd self].
  unfold bind at 1.
  assert (Hphase :
    (if _n_objectives s =? -1
     then let* e4 := lift (Py.index
              (PyList [PyInt (config_id k); pyval_of_option PyStr (tk_instance k);
                       pyval_of_option PyInt (tk_seed k);
                       pyval_of_option (fun b => PyFloat (PyFloat.float b)) (tk_budget k);
                       pyval_of_cost (cost v); PyFloat (time v);
                       PyInt (status_value (status v)); PyFloat (starttime v);
                       PyFloat (endtime v); additional_info v]) 4) in
          if Py.is_number e4 then modify (set_n_objectives 1)
          else let* n := lift (Py.len e4) in modify (set_n_objectives n)
     else ret tt) {| self := s; logged := lg; files := fs |}
    = (Ok tt, {| self := detect_objectives (cost v) s; logged := lg; files := fs |})).
  { unfold detect_objectives. destruct (_n_objectives s =? -1); [|reflexivity].
    destruct (cost v) as [x|l]; cbn; [reflexivity|].
    unfold bind, lift, modify. cbn. now rewrite length_map. }
  rewrite Hphase. clear Hphase. cbn [fst snd].
  set (s1 := detect_objectives (cost v) s).
  assert (Hids : _ids_config s1 = _ids_config s).
  { subst s1. unfold detect_objectives. now destruct (_n_objectives s =? -1). }
  unfold bind at 1. unfold read at 1. cbn [fst snd self].
  unfold bind at 1. unfold lift at 1. cbn [Py.index nth_error fst snd].
  unfold bind at 1. unfold lift at 1. cbn [fst snd].
  fold (decode_cost (_n_objectives s1) (cost v)).
  destruct (decode_cost (_n_objectives s1) (cost v)) as [cost'|e]; [|reflexivity].
  unfold bind at 1. unfold lift at 1. cbn [Py.index nth_error fst snd].
  unfold bind at 1. unfold lift at 1. cbn [Py.int fst snd].
  unfold bind at 1. unfold query at 1. cbn [fst snd self]. rewrite Hids, Hcfg.
  cbn [subscript fst snd].
  unfold bind at 1. unfold lift at 1. cbn [Py.index nth_error fst snd].
  unfold bind at 1. unfold lift at 1. cbn [Py.float fst snd].
  unfold bind at 1. unfold lift at 1. cbn [Py.index nth_error fst snd].
  unfold bind at 1. unfold lift at 1. rewrite status_type_value. cbn [fst snd].
  unfold bind at 1. unfold lift at 1. cbn [Py.index nth_error fst snd].
  unfold bind at 1. unfold lift at 1.
  assert (E1 : Py.optional_str (pyval_of_option PyStr (tk_instance k)) = Ok (tk_instance k))
    by now destruct (tk_instance k).
  rewrite E1. cbn [fst snd].
  unfold bind at 1. unfold lift at 1. cbn [Py.index nth_error fst snd].
  unfold bind at 1. unfold lift at 1.
  assert (E2 : Py.optional_int (pyval_of_option PyInt (tk_seed k)) = Ok (tk_seed k))
    by now destruct (tk_seed k).
  rewrite E2. cbn [fst snd].
  unfold bind at 1. unfold lift at 1. cbn [Py.index nth_error fst snd].
  unfold bind at 1. unfold lift at 1.
  assert (E3 : Py.optional_float
                 (pyval_of_option (fun b => PyFloat (PyFloat.float b)) (tk_budget k))
               = Ok (option_map PyFloat.float (tk_budget k)))
    by now destruct (tk_budget k).
  rewrite E3. cbn [fst snd].
  unfold bind at 1. unfold lift at 1. cbn [Py.index nth_error Py.number fst snd].
  unfold bind at 1. unfold lift at 1. cbn [Py.index nth_error Py.number fst snd].
  unfold bind at 1. unfold lift at 1. cbn [Py.index nth_error Py.number fst snd].
  unfold bind at 1. unfold lift at 1. cbn [Py.index nth_error Py.number fst snd].
  unfold bind at 1. unfold lift at 1. cbn [Py.index nth_error Py.number fst snd].
  reflexivity.
Qed.

Lemma In_dict_get {K V} `{EqDecision K} (k : K) (v : V) (d : dict K V) :
  NoDup (dict_keys d) -> In (k, v) d -> dict_get k d = Some v.
Proof.
  unfold dict_keys. induction d as [|[k0 v0] d IH]; simpl; [tauto|].
  intros Hnd [Heq|Hin].
  - injection Heq as -> ->. now destruct (decide (k = k)).
  - apply NoDup_cons in Hnd as [Hk Hnd]. destruct (decide (k = k0)) as [->|_].
    + exfalso. apply Hk. rewrite list_elem_of_In.
      change k0 with (fst (k0, v)). now apply in_map.
    + now apply IH.
Qed.

Lemma inverse_frame {K V} `{EqDecision V} (l : list (K * V)) (d0 : dict V K) (c : V) :
  ~ In c (map snd l) ->
  dict_get c (fold_left (fun d ic => dict_set (snd ic) (fst ic) d) l d0) = dict_get c d0.
Proof.
  revert d0. induction l as [|[j c'] l IH]; intros d0 Hn; [reflexivity|].
  cbn [fold_left fst snd]. rewrite IH.
  - apply dict_get_set_ne. intros ->. apply Hn. now left.
  - intros Hin. apply Hn. now right.
Qed.

Lemma inverse_get {K V} `{EqDecision V} (l : list (K * V)) (d0 : dict V K) (i : K) (c : V) :
  (forall i j c, In (i, c) l -> In (j, c) l -> i = j) ->
  In (i, c) l ->
  dict_get c (fold_left (fun d ic => dict_set (snd ic) (fst ic) d) l d0) = Some i.
Proof.
  revert d0. induction l as [|[j c'] l IH]; intros d0 Hinj Hin; [destruct Hin|].
  cbn [fold_left fst snd].
  destruct (decide (c ∈ map snd l)) as [Hc|Hc].
  - apply IH.
    + intros i1 i2 c0 H1 H2. apply (Hinj i1 i2 c0); now right.
    + rewrite list_elem_of_In in Hc. apply in_map_iff in Hc as [[j' c0] [Hs Hj]].
      cbn in Hs. subst c0.
      assert (j' = i) as -> by (apply (Hinj j' i c); [now right|exact Hin]).
      exact Hj.
  - rewrite list_elem_of_In in Hc. rewrite inverse_frame by exact Hc.
    destruct Hin as [Heq|Hin].
    + injection Heq as -> ->. apply dict_get_set_eq.
    + exfalso. apply Hc. change c with (snd (i, c)). now apply in_map.
Qed.

Lemma for_each_cons_ok {A} (x : A) (l : list A) (body : A -> M unit) (ws ws' : World) :
  for_each (x :: l) body ws = (Ok tt, ws') ->
  exists ws1, body x ws = (Ok tt, ws1) /\ for_each l body ws1 = (Ok tt, ws').
Proof.
  cbn [for_each]. unfold bind.
  destruct (body x ws) as [[[]|e] ws1]; [|discriminate].
  intros Hrest. now exists ws1.
Qed.

Lemma decode_canonical (n : Z) (c cost' : cost_t) :
  canonical_cost c -> decode_cost n c = Ok cost' -> cost' = c.
Proof.
  unfold canonical_cost, decode_cost, to_floats.
  destruct c as [x|l]; cbn [pyval_of_cost squeeze np_size].
  - intros [= Hx]. destruct (n =? 1); cbn; [|discriminate].
    intros [= <-]. now rewrite Hx.
  - destruct (n =? 1); cbn; [discriminate|].
    rewrite map_ok_floats. cbn. intros Hc [= <-].
    destruct l as [|x [|y l]]; cbn in Hc |- *; [reflexivity|discriminate|].
    destruct (Z.of_nat (S (S (length l))) =? 1); [discriminate|].
    congruence.
Qed.

Lemma detect_objectives_registry (c : cost_t) (r : RunHistory) :
  _ids_config (detect_objectives c r) = _ids_config r
  /\ _config_ids (detect_objectives c r) = _config_ids r
  /\ _data (detect_objectives c r) = _data r
  /\ _overwrite_existing_trials (detect_objectives c r) = _overwrite_existing_trials r.
Proof. unfold detect_objectives. now destruct (_n_objectives r =? -1). Qed.

(** Loading one saved entry into a ledger that knows its configuration
    and does not hold its key appends the trial. *)
Lemma load_entry_spec (k : TrialKey) (v : TrialValue) (config : Configuration)
    (ws ws1 : World) :
  dict_get (config_id k) (_ids_config (self ws)) = Some config ->
  dict_get config (_config_ids (self ws)) = Some (config_id k) ->
  dict_get k (_data (self ws)) = None ->
  canonical_cost (cost v) ->
  canonical_budget (tk_budget k) ->
  load_entry (json_entry k v) ws = (Ok tt, ws1) ->
  exists v2, _data (self ws1) = (_data (self ws) ++ [(k, v2)])%list
             /\ trial_tuple (k, v2) = trial_tuple (k, v)
             /\ _ids_config (self ws1) = _ids_config (self ws)
             /\ _config_ids (self ws1) = _config_ids (self ws).
Proof.
  intros Hid Hcid Hfresh Hcost Hbud. rewrite (load_entry_run k v config ws Hid). cbv zeta.
  destruct (detect_objectives_registry (cost v) (self ws)) as (Hi & Hc & Hd & Ho).
  set (s1 := detect_objectives (cost v) (self ws)) in *.
  destruct (decode_cost (_n_objectives s1) (cost v)) as [cost'|e] eqn:Hdec; [|discriminate].
  apply decode_canonical in Hdec; [|exact Hcost]. subst cost'.
  rewrite add_run. cbv zeta. cbn [self with_self].
  assert (Hreg : register config s1 = s1) by (unfold register; now rewrite Hc, Hcid).
  assert (Hidof : id_of config s1 = config_id k) by (unfold id_of; now rewrite Hc, Hcid).
  rewrite Hreg, Hidof.
  destruct (negb (_n_objectives s1 =? -1)
            && negb (_n_objectives s1 =? np_size (squeeze (cost v)))) eqn:Hmis;
    [discriminate|].
  assert (Hn : _n_objectives (fix_objectives (np_size (squeeze (cost v))) s1)
               = np_size (squeeze (cost v))).
  { unfold fix_objectives. destruct (_n_objectives s1 =? -1) eqn:E1; [reflexivity|].
    destruct (_n_objectives s1 =? np_size (squeeze (cost v))) eqn:E2; [|discriminate].
    now apply Z.eqb_eq in E2. }
  rewrite Hn. unfold canonical_cost in Hcost. rewrite Hcost.
  unfold canonical_budget in Hbud. rewrite !Hbud.
  destruct (fix_objectives_registry (np_size (squeeze (cost v))) s1)
    as (Hc2 & Hi2 & _ & Hd2 & _).
  replace {| config_id := config_id k; tk_instance := tk_instance k;
             tk_seed := tk_seed k; tk_budget := tk_budget k |} with k by now destruct k.
  destruct (first_failure _ _); [|discriminate].
  assert (Hnew : dict_contains k (_data (fix_objectives (np_size (squeeze (cost v))) s1))
                 = false).
  { unfold dict_contains. now rewrite Hd2, Hd, Hfresh. }
  rewrite Hnew. rewrite orb_true_r.
  intros Hadd.
  match type of Hadd with
  | _add ?k' ?v' ?s' ?o' ?w' = _ =>
      assert (Hdata := _add_data k' v' s' o' w');
      assert (Hk := _add_keeps_registry k' v' s' o' w')
  end.
  rewrite Hadd in Hdata, Hk. cbn [snd self with_self] in Hdata, Hk.
  unfold registry in Hk. cbn [snd self with_self] in Hk.
  injection Hk as _ Hk1 Hk2 _ _.
  eexists. split; [|split; [|split]].
  - rewrite Hdata, Hd2, Hd. now apply dict_set_fresh.
  - unfold trial_tuple. cbn [fst snd cost time status]. now rewrite float_idem.
  - now rewrite Hk2, Hi2.
  - now rewrite Hk1, Hc2.
Qed.

Lemma load_entries_spec (r : RunHistory) :
  well_formed r ->
  forall (todo done : list (TrialKey * TrialValue)) (ws ws' : World),
    (done ++ todo)%list = _data r ->
    (forall k v, In (k, v) todo ->
       exists c, dict_get (config_id k) (_ids_config (self ws)) = Some c
                 /\ dict_get c (_config_ids (self ws)) = Some (config_id k)) ->
    map fst (_data (self ws)) = map fst done ->
    map trial_tuple (_data (self ws)) = map trial_tuple done ->
    for_each (map (fun kv => json_entry (fst kv) (snd kv)) todo) load_entry ws
    = (Ok tt, ws') ->
    _ids_config (self ws') = _ids_config (self ws)
    /\ map trial_tuple (_data (self ws')) = map trial_tuple (_data r).
Proof.
  intros Hwf. induction todo as [|[k v] todo IH]; intros done ws ws' Hsplit Hreg Hkeys Htup.
  - cbn. unfold ret. intros [= <-]. rewrite app_nil_r in Hsplit. subst done. now split.
  - cbn [map fst snd]. intros Hrun.
    apply for_each_cons_ok in Hrun as (ws1 & Hone & Hrest).
    destruct (Hreg k v) as (c & Hid & Hcid); [now left|].
    assert (Hin : In (k, v) (_data r)).
    { rewrite <- Hsplit. apply in_or_app. right. now left. }
    assert (Hfresh : dict_get k (_data (self ws)) = None).
    { apply dict_get_None_keys. unfold dict_keys. rewrite Hkeys.
      assert (Hnd := wf_data_nodup r Hwf). unfold dict_keys in Hnd.
      rewrite <- Hsplit, map_app in Hnd. apply NoDup_app in Hnd as (_ & Hdis & _).
      intros Hk. apply (Hdis k); [now apply list_elem_of_In|].
      apply list_elem_of_In. now left. }
    destruct (load_entry_spec k v c ws ws1 Hid Hcid Hfresh
                (wf_costs r Hwf k v Hin) (wf_budgets r Hwf k v Hin) Hone)
      as (v2 & Hdata & Hv2 & Hids & Hcids).
    destruct (IH (done ++ [(k, v)])%list ws1 ws') as [Hi Hd].
    + now rewrite <- app_assoc.
    + intros k' v' Hin'. rewrite Hids, Hcids. apply (Hreg k' v'). now right.
    + rewrite Hdata, !map_app, Hkeys. reflexivity.
    + rewrite Hdata, !map_app, Htup. cbn [map]. now rewrite Hv2.
    + exact Hrest.
    + split; [now rewrite Hi|exact Hd].
Qed.

Lemma NoDup_keys_filter {K V} (p : K * V -> bool) (d : list (K * V)) :
  NoDup (map fst d) -> NoDup (map fst (List.filter p d)).
Proof.
  induction d as [|[k v] d IH]; cbn [map List.filter fst]; [trivial|].
  intros Hnd. apply NoDup_cons in Hnd as [Hk Hnd].
  destruct (p (k, v)); [|now apply IH].
  cbn [map fst]. apply NoDup_cons. split; [|now apply IH].
  intros Hin. apply Hk. rewrite list_elem_of_In in Hin |- *.
  apply in_map_iff in Hin as [[k' v'] [Heq Hin]]. cbn in Heq. subst k'.
  apply filter_In in Hin as [Hin _]. change k with (fst (k, v')). now apply in_map.
Qed.

(** [load_json] on a file written by [save_json]: the configurations
    with a saved trial are registered under their ids, then the entries are
    added one by one. *)
Lemma load_json_saved (filename : string) (configspace : ConfigurationSpace)
    (r : RunHistory) (ws : World) :
  dict_get filename (files ws) = Some (JsonText (saved_document r (_data r))) ->
  well_formed r ->
  (forall i c, dict_get i (_ids_config r) = Some c ->
               Configuration_init configspace (get_dictionary c) (Configuration_origin c)
               = Ok c) ->
  load_json filename configspace ws
  = let ids2 := List.filter (fun ic => bool_decide (fst ic ∈ recorded_ids r))
                            (_ids_config r) in
    let inverse := fold_left (fun d ic => dict_set (snd ic) (fst ic) d) ids2 [] in
    for_each (map (fun kv => json_entry (fst kv) (snd kv)) (_data r)) load_entry
      (with_self ws (set_n_id (Z.of_nat (length inverse))
                       (set_config_ids inverse (set_ids_config ids2 (self ws))))).
Proof.
  intros Hfile Hwf Hrebuild. unfold load_json.
  unfold bind at 1. unfold get_file at 1. rewrite Hfile.
  unfold saved_document. rewrite flat_map_filter.
  fold (recorded_ids r).
  unfold bind at 1. unfold lift at 1.
  change (Py.get _ "config_origins" (PyDict [])) with
    (Ok (A:=pyval) (PyDict (map (fun ic => (Py.str_of_int (fst ic), Configuration_origin (snd ic)))
                   (_ids_config r)))).
  cbn [fst snd].
  unfold bind at 1. unfold modify at 1. cbn [fst snd self logged files].
  unfold bind at 1. unfold lift at 1.
  set (ids2 := List.filter (fun ic : Z * Configuration => bool_decide (fst ic ∈ recorded_ids r))
                           (_ids_config r)).
  match goal with
  | |- context [obind (Py.getitem ?d "configs") ?k] =>
      change (obind (Py.getitem d "configs") k)
        with (Ok (map (fun ic : Z * Configuration =>
                         (Py.str_of_int (fst ic), get_dictionary (snd ic))) ids2))
  end.
  cbn [fst snd].
  unfold bind at 1.
  rewrite (load_configs_run configspace r ids2).
  - reflexivity.
  - intros i c Hin. apply filter_In in Hin as [Hin _].
    apply In_dict_get; [exact (wf_ids_nodup r Hwf)|exact Hin].
  - apply NoDup_keys_filter. exact (wf_ids_nodup r Hwf).
  - reflexivity.
  - exact Hrebuild.
Qed.

Lemma only_internal_values (r : RunHistory) :
  (forall ko, In ko (_external r) -> snd ko = INTERNAL) -> only_internal r.
Proof. intros Hall k o Hd. apply dict_get_In in Hd. exact (Hall (k, o) Hd). Qed.

(** C5 (amended).  A ledger built by [add] calls that holds only internal
    trials is saved with [save_json] and read back with [load_json] into a
    fresh ledger, the configuration space rebuilding every configuration
    from its dictionary and origin.  When both calls return, the loaded
    ledger maps exactly the ids that have a recorded trial to their
    configurations, in the original order, and holds the same trials in the
    same order: same key, cost and status, and the time passed through
    [float].  Configurations registered without a recorded trial are not
    restored. *)
Theorem save_load_roundtrip (filename : string) (configspace : ConfigurationSpace)
    (w : World) (overwrite : bool) (lg : list log_record) :
  reachable w ->
  only_internal (self w) ->
  (forall i c, dict_get i (_ids_config (self w)) = Some c ->
               Configuration_init configspace (get_dictionary c) (Configuration_origin c)
               = Ok c) ->
  let saved := save_json filename false w in
  let loaded := load_json filename configspace
                  {| self := RunHistory_init overwrite; logged := lg;
                     files := files (snd saved) |} in
  fst saved = Ok tt ->
  fst loaded = Ok tt ->
  _ids_config (self (snd loaded))
  = List.filter (fun ic => bool_decide (fst ic ∈ recorded_ids (self w)))
                (_ids_config (self w))
  /\ map trial_tuple (_data (self (snd loaded))) = map trial_tuple (_data (self w)).
Proof.
  intros Hreach Hint Hrebuild saved loaded Hsave Hload.
  assert (Hwf := reachable_well_formed w Hreach).
  assert (Hfiles := save_json_files filename w Hint Hsave).
  fold saved in Hfiles.
  set (ws0 := {| self := RunHistory_init overwrite; logged := lg;
                 files := files (snd saved) |}) in *.
  assert (Hfile : dict_get filename (files ws0)
                  = Some (JsonText (saved_document (self w) (_data (self w))))).
  { cbn [files ws0]. rewrite Hfiles. apply dict_get_set_eq. }
  assert (Hrun := load_json_saved filename configspace (self w) ws0 Hfile Hwf Hrebuild).
  cbv zeta in Hrun. fold loaded in Hrun.
  set (ids2 := List.filter (fun ic : Z * Configuration =>
                              bool_decide (fst ic ∈ recorded_ids (self w)))
                           (_ids_config (self w))) in *.
  destruct loaded as [res ws'] eqn:Hl. cbn [fst snd] in Hload |- *. subst res.
  symmetry in Hrun.
  apply (load_entries_spec (self w) Hwf (_data (self w)) []) in Hrun.
  - destruct Hrun as [Hi Hd]. split; [|exact Hd]. rewrite Hi. reflexivity.
  - reflexivity.
  - intros k v Hin. cbn [self with_self _ids_config _config_ids set_n_id set_config_ids
                         set_ids_config].
    destruct (wf_data_ids _ Hwf k v Hin) as [c Hc]. exists c.
    assert (Hnd : NoDup (dict_keys ids2)).
    { apply NoDup_keys_filter. exact (wf_ids_nodup _ Hwf). }
    assert (Hin2 : In (config_id k, c) ids2).
    { apply filter_In. split; [now apply dict_get_In|].
      apply bool_decide_eq_true. cbn [fst]. apply list_elem_of_In.
      unfold recorded_ids. change (config_id k) with (config_id (fst (k, v))).
      now apply (in_map (fun kv : TrialKey * TrialValue => config_id (fst kv))). }
    split; [now apply In_dict_get|].
    apply inverse_get; [|exact Hin2].
    intros i j c0 H1 H2.
    apply filter_In in H1 as [H1 _]. apply filter_In in H2 as [H2 _].
    apply (In_dict_get _ _ _ (wf_ids_nodup _ Hwf)) in H1, H2.
    apply (wf_ids_config _ Hwf) in H1, H2. congruence.
  - reflexivity.
  - reflexivity.
Qed.

End SaveLoad.

(** * More of the ledger *)

(** ** What a call of [add] does to the trials and the registry *)

Section CallEffects.
Context `{Collaborators}.

#[local] Arguments _add : simpl never.

Lemma call_registry (a : add_call) (w : World) :
  _config_ids (self (snd (call a w))) = _config_ids (register (call_config a) (self w))
  /\ _ids_config (self (snd (call a w))) = _ids_config (register (call_config a) (self w))
  /\ _n_id (self (snd (call a w))) = _n_id (register (call_config a) (self w))
  /\ _overwrite_existing_trials (self (snd (call a w)))
     = _overwrite_existing_trials (self w).
Proof.
  destruct (fix_objectives_registry (cardinality (call_cost a))
              (register (call_config a) (self w))) as (E1 & E2 & E3 & _ & E5).
  assert (Ho := register_overwrite (call_config a) (self w)).
  destruct (call_cases a w) as [[-> | ->] | (c & Hc & Hn & Hrun)].
  - auto.
  - rewrite E1, E2, E3, E5. auto.
  - rewrite Hrun.
    match goal with
    | |- context [_add ?k ?v ?s ?o ?w0] =>
        assert (Hreg := _add_keeps_registry k v s o w0)
    end.
    unfold registry in Hreg. cbn [self with_self] in Hreg.
    injection Hreg as -> -> -> -> _. rewrite E1, E2, E3, E5. auto.
Qed.

(** The trials after a call: untouched, or the call's trial written under
    the call's key, which happens only when overwriting is on, the call
    is forced, or the key is new. *)
Lemma call_data (a : add_call) (w : World) :
  let k := key_of_call (self w) a in
  _data (self (snd (call a w))) = _data (self w)
  \/ exists c,
       to_floats (cardinality (call_cost a)) (squeeze (call_cost a)) = Ok c
       /\ _overwrite_existing_trials (self w) || call_force_update a
          || negb (dict_contains k (_data (self w))) = true
       /\ _data (self (snd (call a w))) = dict_set k (value_of_call c a) (_data (self w)).
Proof.
  intros k. rewrite call_run. cbv zeta. fold k.
  set (r1 := register (call_config a) (self w)).
  set (n := cardinality (call_cost a)).
  destruct (fix_objectives_registry n r1) as (_ & _ & _ & Ed & Eo).
  assert (Hd1 : _data r1 = _data (self w)) by apply register_data.
  assert (Ho1 : _overwrite_existing_trials r1 = _overwrite_existing_trials (self w))
    by apply register_overwrite.
  destruct (negb (_n_objectives r1 =? -1) && negb (_n_objectives r1 =? n)) eqn:Eif;
    [left; exact Hd1|].
  assert (Hfix : _n_objectives (fix_objectives n r1) = n).
  { unfold fix_objectives.
    destruct (_n_objectives r1 =? -1) eqn:E1; [reflexivity|]. cbn in Eif.
    destruct (_n_objectives r1 =? n) eqn:E2; [now apply Z.eqb_eq in E2|discriminate]. }
  rewrite Hfix.
  destruct (to_floats n (squeeze (call_cost a))) as [c|e] eqn:Hc;
    [|left; cbn; now rewrite Ed].
  destruct (first_failure _ _) as [[]|e]; [|left; cbn; now rewrite Ed].
  rewrite Eo, Ho1, Ed, Hd1.
  destruct (_overwrite_existing_trials (self w) || call_force_update a
            || negb (dict_contains k (_data (self w)))) eqn:Econd.
  - right. exists c. split; [reflexivity|]. split; [reflexivity|].
    rewrite _add_data. cbn [self with_self]. now rewrite Ed, Hd1.
  - left. cbn. now rewrite Ed.
Qed.

Lemma dict_set_keys {K V} `{EqDecision K} (k : K) (v : V) (d : dict K V) :
  dict_keys (dict_set k v d)
  = (dict_keys d ++ (if dict_contains k d then [] else [k]))%list.
Proof.
  unfold dict_contains. destruct (dict_get k d) as [v0|] eqn:E.
  - rewrite (dict_set_present _ _ _ _ E). now rewrite app_nil_r.
  - rewrite (dict_set_fresh _ _ _ E). unfold dict_keys. now rewrite map_app.
Qed.

End CallEffects.

(** ** The trials under [add] *)

Section Trials.
Context `{Collaborators}.

#[local] Arguments _add : simpl never.

(** X1. A call of [add], whatever its arguments and its outcome, removes
    no trial and reorders none: the keys of the ledger afterwards are the
    keys before, followed by the call's key when the call wrote a trial
    under a key that was new. *)
Theorem add_keeps_the_keys (a : add_call) (w : World) :
  let k := key_of_call (self w) a in
  exists new,
    __iter__ (self (snd (call a w))) = (__iter__ (self w) ++ new)%list
    /\ (new = [] \/ (new = [k] /\ __contains__ (self w) k = false)).
Proof.
  intros k. unfold __iter__, __contains__.
  destruct (call_data a w) as [-> | (c & _ & _ & ->)].
  - exists []. rewrite app_nil_r. auto.
  - rewrite dict_set_keys. fold k.
    destruct (dict_contains k (_data (self w))); eauto.
Qed.

Lemma call_appends (a : add_call) (w : World) :
  _overwrite_existing_trials (self w) = false ->
  call_force_update a = false ->
  exists rest, _data (self (snd (call a w))) = (_data (self w) ++ rest)%list.
Proof.
  intros Ho Hf. destruct (call_data a w) as [-> | (c & _ & Hcond & ->)].
  - exists []. now rewrite app_nil_r.
  - rewrite Ho, Hf in Hcond. cbn in Hcond. apply negb_true_iff in Hcond.
    unfold dict_contains in Hcond.
    destruct (dict_get (key_of_call (self w) a) (_data (self w))) eqn:E; [discriminate|].
    rewrite (dict_set_fresh _ _ _ E). eauto.
Qed.

(** X2. With [overwrite_existing_trials] off, calls of [add] without
    [force_update] only append: the trials the ledger held before are
    still its first trials afterwards, with their values and in their
    order, whatever the calls returned. *)
Theorem add_is_append_only (calls : list add_call) (w : World) :
  _overwrite_existing_trials (self w) = false ->
  Forall (fun a => call_force_update a = false) calls ->
  exists rest, _data (self (after_calls calls w)) = (_data (self w) ++ rest)%list.
Proof.
  revert w. induction calls as [|a calls IH]; intros w Ho Hall.
  - exists []. cbn. now rewrite app_nil_r.
  - apply Forall_cons_iff in Hall as [Ha Hall].
    cbn [after_calls fold_left]. fold (after_calls calls (snd (call a w))).
    destruct (call_appends a w Ho Ha) as [rest1 E1].
    destruct (IH (snd (call a w))) as [rest2 E2]; [|exact Hall|].
    + destruct (call_registry a w) as (_ & _ & _ & ->). exact Ho.
    + exists (rest1 ++ rest2)%list. rewrite E2, E1. now rewrite app_assoc.
Qed.

Lemma call_ok_recorded (a : add_call) (w : World) :
  fst (call a w) = Ok tt ->
  let k := key_of_call (self w) a in
  exists c,
    to_floats (cardinality (call_cost a)) (squeeze (call_cost a)) = Ok c
    /\ __contains__ (self (snd (call a w))) k = true
    /\ __getitem__ (self (snd (call a w))) k
       = Ok (match dict_get k (_data (self w)) with
             | Some old =>
                 if _overwrite_existing_trials (self w) || call_force_update a
                 then value_of_call c a else old
             | None => value_of_call c a
             end).
Proof.
  intros Hok k. unfold __contains__, __getitem__, dict_contains.
  rewrite call_run in Hok |- *. cbv zeta in Hok |- *. fold k in Hok |- *.
  set (r1 := register (call_config a) (self w)) in *.
  set (n := cardinality (call_cost a)) in *.
  destruct (fix_objectives_registry n r1) as (_ & _ & _ & Ed & Eo).
  assert (Hd1 : _data r1 = _data (self w)) by apply register_data.
  assert (Ho1 : _overwrite_existing_trials r1 = _overwrite_existing_trials (self w))
    by apply register_overwrite.
  destruct (negb (_n_objectives r1 =? -1) && negb (_n_objectives r1 =? n)) eqn:Eif;
    [discriminate|].
  assert (Hfix : _n_objectives (fix_objectives n r1) = n).
  { unfold fix_objectives.
    destruct (_n_objectives r1 =? -1) eqn:E1; [reflexivity|]. cbn in Eif.
    destruct (_n_objectives r1 =? n) eqn:E2; [now apply Z.eqb_eq in E2|discriminate]. }
  rewrite Hfix in Hok |- *.
  destruct (to_floats n (squeeze (call_cost a))) as [c|e] eqn:Hc; [|discriminate].
  exists c. split; [reflexivity|].
  destruct (first_failure _ _) as [[]|e]; [|discriminate].
  rewrite Eo, Ho1, Ed, Hd1 in Hok |- *. unfold dict_contains in Hok |- *.
  destruct (dict_get k (_data (self w))) as [old|] eqn:Hold.
  - cbn [negb] in Hok |- *. rewrite orb_false_r in Hok |- *.
    destruct (_overwrite_existing_trials (self w) || call_force_update a).
    + rewrite _add_data. cbn [self with_self]. rewrite Ed, Hd1, dict_get_set_eq. auto.
    + cbn. rewrite Ed, Hd1, Hold. auto.
  - cbn [negb]. rewrite orb_true_r. rewrite _add_data. cbn [self with_self].
    rewrite Ed, Hd1, dict_get_set_eq. auto.
Qed.

(** X3. After a call of [add] that returned normally the ledger holds a
    trial under the call's key: the call's own trial (with the cost as
    floats) when overwriting is on, the call was forced or the key was
    new, and the trial it held before otherwise. *)
Theorem added_trial_is_retrievable (a : add_call) (w : World) :
  fst (call a w) = Ok tt ->
  let k := key_of_call (self w) a in
  exists c,
    to_floats (cardinality (call_cost a)) (squeeze (call_cost a)) = Ok c
    /\ __contains__ (self (snd (call a w))) k = true
    /\ __getitem__ (self (snd (call a w))) k
       = Ok (match dict_get k (_data (self w)) with
             | Some old =>
                 if _overwrite_existing_trials (self w) || call_force_update a
                 then value_of_call c a else old
             | None => value_of_call c a
             end).
Proof. exact (call_ok_recorded a w). Qed.

End Trials.

(** ** The registry of configurations *)

Section Registry.
Context `{Collaborators}.

Lemma registry_consistent_register (config : Configuration) (r : RunHistory) :
  registry_consistent r -> registry_consistent (register config r).
Proof.
  intros (Hmirror & Hids & Hn & Hnd). unfold register.
  destruct (dict_get config (_config_ids r)) as [i|] eqn:Hc; [now repeat split|].
  assert (Hfresh : dict_get (_n_id r + 1) (_ids_config r) = None).
  { apply dict_get_None_keys. unfold dict_keys. rewrite Hmirror, map_map.
    rewrite (map_ext _ snd) by reflexivity.
    rewrite Hids. intros Hin. apply in_map_iff in Hin as (j & Hj & Hin).
    apply in_seq in Hin. lia. }
  unfold registry_consistent.
  cbn [_ids_config _config_ids _n_id set_ids_config set_config_ids set_n_id].
  rewrite (dict_set_fresh _ _ _ Hc), (dict_set_fresh _ _ _ Hfresh).
  rewrite !map_app, length_app. cbn [map fst snd length].
  split; [now rewrite Hmirror|]. split; [|split].
  - rewrite Hids. rewrite Nat.add_1_r, seq_S, map_app. cbn [map]. f_equal. f_equal. lia.
  - lia.
  - apply NoDup_snoc; [exact Hnd|]. now apply dict_get_None_keys.
Qed.

Lemma registry_consistent_call (a : add_call) (w : World) :
  registry_consistent (self w) -> registry_consistent (self (snd (call a w))).
Proof.
  intros Hinv. apply (registry_consistent_register (call_config a)) in Hinv.
  destruct (call_registry a w) as (E1 & E2 & E3 & _).
  unfold registry_consistent. now rewrite E1, E2, E3.
Qed.

Lemma registry_consistent_reachable (w : World) :
  reachable w -> registry_consistent (self w).
Proof.
  induction 1 as [ow lg fs|a w Hw IH].
  - repeat split; cbn. apply NoDup_nil_2.
  - now apply registry_consistent_call.
Qed.

(** X4. In every ledger built by [add] the two id maps mirror each other:
    the configurations are pairwise different and carry the ids 1, 2, ...
    in the order in which they were first passed to [add], [ids_config]
    lists the same pairs, and [_n_id] is their number. *)
Theorem registry_of_a_built_ledger (w : World) :
  reachable w -> registry_consistent (self w).
Proof. exact (registry_consistent_reachable w). Qed.

End Registry.

(** ** Trials that do not count *)

Section Unregistered.
Context `{Collaborators}.

Lemma _add_unregistered k v status origin :
  registers_cost origin status = false ->
  keeps caches (_add k v status origin) /\ keeps budgets (_add k v status origin).
Proof.
  intros Hr. unfold _add. rewrite Hr.
  split; frame; apply _update_objective_bounds_keeps.
Qed.

Lemma register_caches (config : Configuration) (n : Z) (r : RunHistory) :
  let r' := fix_objectives n (register config r) in
  (_cost_per_config r', _min_cost_per_config r', _num_trials_per_config r',
   _config_id_to_isk_to_budget r')
  = (_cost_per_config r, _min_cost_per_config r, _num_trials_per_config r,
     _config_id_to_isk_to_budget r)
  /\ (_cost_per_config (register config r), _min_cost_per_config (register config r),
      _num_trials_per_config (register config r),
      _config_id_to_isk_to_budget (register config r))
     = (_cost_per_config r, _min_cost_per_config r, _num_trials_per_config r,
        _config_id_to_isk_to_budget r).
Proof.
  unfold fix_objectives, register.
  destruct (dict_get config (_config_ids r)); cbn;
    match goal with |- context [if ?b then _ else _] => destruct b end; auto.
Qed.

(** X5. A trial that is still [RUNNING], or whose origin is neither
    [INTERNAL] nor [EXTERNAL_SAME_INSTANCES], is recorded without being
    counted: the call of [add], whatever it returns, leaves the three cost
    caches and the instance-seed index as they were. *)
Theorem uncounted_trial_leaves_the_caches (a : add_call) (w : World) :
  registers_cost (call_origin a) (call_status a) = false ->
  let r' := self (snd (call a w)) in
  _cost_per_config r' = _cost_per_config (self w)
  /\ _min_cost_per_config r' = _min_cost_per_config (self w)
  /\ _num_trials_per_config r' = _num_trials_per_config (self w)
  /\ _config_id_to_isk_to_budget r' = _config_id_to_isk_to_budget (self w).
Proof.
  intros Hr r'. subst r'.
  destruct (register_caches (call_config a) (cardinality (call_cost a)) (self w))
    as [Efix Ereg].
  cbv zeta in Efix. injection Efix as F1 F2 F3 F4. injection Ereg as R1 R2 R3 R4.
  destruct (call_cases a w) as [[-> | ->] | (c & Hc & Hn & Hrun)]; [auto..|].
  rewrite Hrun.
  match goal with
  | |- context [_add ?k ?v ?s ?o ?w0] =>
      destruct (_add_unregistered k v s o Hr) as [Hc0 Hb0];
      specialize (Hc0 w0); specialize (Hb0 w0)
  end.
  unfold caches, budgets in Hc0, Hb0. cbn [self with_self] in Hc0, Hb0.
  injection Hc0 as -> -> ->. rewrite Hb0. auto.
Qed.

End Unregistered.

(** ** The instance-seed index *)

(** The value type of the index is written [dict _ _] or [list (_ * _)]
    depending on where a term comes from; this brings all lookups and
    updates to the first form, so that they rewrite with each other. *)
Ltac norm_dict :=
  repeat match goal with
    | |- context [@dict_get ?K (list (?A * ?B)) ?E ?i ?m] =>
        change (@dict_get K (list (A * B)) E i m) with (@dict_get K (dict A B) E i m)
    | |- context [@dict_set ?K (list (?A * ?B)) ?E ?i ?v ?m] =>
        change (@dict_set K (list (A * B)) E i v m) with (@dict_set K (dict A B) E i v m)
    | |- context [@dict_get_default ?K (list (?A * ?B)) ?E ?i ?v ?m] =>
        change (@dict_get_default K (list (A * B)) E i v m)
          with (@dict_get_default K (dict A B) E i v m)
    | H : context [@dict_get ?K (list (?A * ?B)) ?E ?i ?m] |- _ =>
        change (@dict_get K (list (A * B)) E i m) with (@dict_get K (dict A B) E i m) in H
    | H : context [@dict_set ?K (list (?A * ?B)) ?E ?i ?v ?m] |- _ =>
        change (@dict_set K (list (A * B)) E i v m) with (@dict_set K (dict A B) E i v m) in H
    | H : context [@dict_get_default ?K (list (?A * ?B)) ?E ?i ?v ?m] |- _ =>
        change (@dict_get_default K (list (A * B)) E i v m)
          with (@dict_get_default K (dict A B) E i v m) in H
    end.

Section Index.
Context `{Collaborators}.

Lemma for_each_ret {A} (l : list A) (w : World) :
  for_each l (fun _ => ret tt) w = (Ok tt, w).
Proof. induction l as [|x l IH]; [reflexivity|]. cbn. unfold bind. cbn. exact IH. Qed.

Lemma dict_set_set {K V} `{EqDecision K} (k : K) (v v' : V) (d : dict K V) :
  dict_set k v' (dict_set k v d) = dict_set k v' d.
Proof.
  induction d as [|[k0 v0] d IH]; cbn.
  - now destruct (decide (k = k)).
  - destruct (decide (k = k0)) as [->|Hne]; cbn.
    + now destruct (decide (k0 = k0)).
    + destruct (decide (k = k0)); [contradiction|]. now rewrite IH.
Qed.

(** [_add] on a trial that counts, step by step: the trial is written,
    the index is brought up to date, the budget check may raise, and the
    cost caches are updated. *)
Lemma _add_run k v status origin w :
  costs_fit (set_data (dict_set k v (_data (self w))) (self w)) ->
  registers_cost origin status = true ->
  _add k v status origin w
  = let m := _config_id_to_isk_to_budget (self w) in
    let w' := with_self w (set_config_id_to_isk_to_budget (index_after k m)
                             (recorded_state k v origin (self w))) in
    match budget_check k m with
    | Some e => (Raise e, w')
    | None => cost_step k v w'
    end.
Proof.
  intros Hfit Hr. unfold _add. rewrite Hr.
  unfold bind at 1. unfold modify at 1. cbn [fst snd].
  unfold bind at 1. unfold modify at 1. cbn [fst snd].
  unfold bind at 1. rewrite _update_objective_bounds_run by exact Hfit.
  cbn [fst snd].
  match goal with
  | |- ?rest ?w0 = _ => change w0 with (with_self w (recorded_state k v origin (self w)))
  end.
  fold (cost_step k v). cbv zeta.
  assert (Hm : _config_id_to_isk_to_budget (recorded_state k v origin (self w))
               = _config_id_to_isk_to_budget (self w)) by reflexivity.
  set (r3 := recorded_state k v origin (self w)) in *. clearbody r3.
  set (m := _config_id_to_isk_to_budget (self w)) in *. clearbody m.
  destruct w as [r lg fs]. unfold with_self. cbn [self logged files]. clear r Hfit.
  unfold bind at 1. unfold modify at 1. cbn [fst snd self logged files].
  unfold bind at 1. unfold query at 1. cbn [fst snd self logged files].
  cbn [_config_id_to_isk_to_budget set_config_id_to_isk_to_budget].
  rewrite Hm, dict_get_set_eq. cbn [subscript].
  unfold bind at 1.
  change (fun isk_ : InstanceSeedKey =>
            if negb (Bool.eqb (isinstance_str isk_)
                       (isinstance_str {| isk_instance := tk_instance k;
                                          isk_seed := tk_seed k |}))
            then raise (ValueError "Can not mix instances of different types.")
            else ret tt)
    with (fun _ : InstanceSeedKey => ret tt).
  rewrite for_each_ret.
  unfold index_after, budget_check.
  set (isk := {| isk_instance := tk_instance k; isk_seed := tk_seed k |}).
  set (isks := dict_get_default (config_id k) [] m).
  assert (Hset : forall bs,
    set_isk_budgets (config_id k) isk bs
      (set_config_id_to_isk_to_budget (dict_set (config_id k) isks m) r3)
    = set_config_id_to_isk_to_budget (dict_set (config_id k) (dict_set isk bs isks) m) r3).
  { intros bs. unfold set_isk_budgets.
    cbn [_config_id_to_isk_to_budget set_config_id_to_isk_to_budget].
    unfold dict_get_default at 1. rewrite dict_get_set_eq, dict_set_set. reflexivity. }
  destruct (dict_get isk isks) as [budgets|] eqn:Hisk.
  - destruct (budget_ne_instance (tk_budget k) (isk_instance isk)
              && budget_ne_seed (tk_budget k) (isk_seed isk)).
    + destruct budgets as [|first rest]; [reflexivity|].
      unfold bind at 1. unfold bind at 1. unfold lift at 1. cbn [fst snd].
      destruct (negb (Bool.eqb (isinstance_float first) (isinstance_float (tk_budget k)))).
      * reflexivity.
      * unfold modify at 1. cbn [fst snd self logged files]. rewrite Hset. reflexivity.
    + reflexivity.
  - unfold bind at 1. unfold modify at 1. cbn [fst snd self logged files].
    rewrite Hset. reflexivity.
Qed.

Lemma cost_step_keeps k v :
  keeps registry (cost_step k v) /\ keeps ledger (cost_step k v)
  /\ keeps budgets (cost_step k v) /\ keeps files (cost_step k v).
Proof.
  unfold cost_step. repeat split; frame;
    apply update_cost_keeps || apply incremental_update_cost_keeps.
Qed.

Lemma dict_contains_set {K V} `{EqDecision K} (k k' : K) (v : V) (d : dict K V) :
  dict_contains k' d = true -> dict_contains k' (dict_set k v d) = true.
Proof.
  unfold dict_contains. destruct (decide (k = k')) as [->|Hne].
  - now rewrite dict_get_set_eq.
  - now rewrite dict_get_set_ne.
Qed.

Lemma indexed_mono k v d m : indexed d m -> indexed (dict_set k v d) m.
Proof.
  intros Hi i isks isk bs Hm Hin. destruct (Hi i isks isk bs Hm Hin) as [Hne Hb].
  split; [exact Hne|]. intros b Hbin. apply dict_contains_set. now apply Hb.
Qed.

Lemma indexed_entry d m i isks' :
  indexed d m ->
  (forall isk bs, In (isk, bs) isks' ->
     bs <> [] /\ forall b, In b bs -> dict_contains (indexed_key i isk b) d = true) ->
  indexed d (dict_set i isks' m).
Proof.
  intros Hi Hnew j isks isk bs Hm Hin. destruct (decide (i = j)) as [<-|Hne].
  - rewrite dict_get_set_eq in Hm. injection Hm as <-. now apply Hnew.
  - rewrite dict_get_set_ne in Hm by exact Hne. exact (Hi j isks isk bs Hm Hin).
Qed.

Lemma indexed_after k v d m : indexed d m -> indexed (dict_set k v d) (index_after k m).
Proof.
  intros Hi. apply (indexed_mono k v) in Hi.
  assert (Hk : dict_contains k (dict_set k v d) = true).
  { unfold dict_contains. now rewrite dict_get_set_eq. }
  set (isk := {| isk_instance := tk_instance k; isk_seed := tk_seed k |}).
  assert (Hkey : indexed_key (config_id k) isk (tk_budget k) = k) by now destruct k.
  assert (Hold : forall isk' bs,
             In (isk', bs) (dict_get_default (config_id k) [] m) ->
             bs <> [] /\ forall b, In b bs ->
               dict_contains (indexed_key (config_id k) isk' b) (dict_set k v d) = true).
  { intros isk' bs. unfold dict_get_default.
    match goal with
    | |- context [match ?x with Some _ => _ | None => _ end] =>
        destruct x as [isks|] eqn:Hm; [|intros Hin; destruct Hin]
    end.
    exact (Hi (config_id k) isks isk' bs Hm). }
  assert (Hnew : forall bs0,
             (forall b, In b bs0 ->
                dict_contains (indexed_key (config_id k) isk b) (dict_set k v d) = true) ->
             indexed (dict_set k v d)
               (dict_set (config_id k)
                  (dict_set isk (bs0 ++ [tk_budget k])%list
                     (dict_get_default (config_id k) [] m)) m)).
  { intros bs0 Hbs0. apply indexed_entry; [exact Hi|].
    intros isk' bs Hin. apply dict_set_In_key in Hin as [Hin | [-> ->]];
      [now apply Hold|].
    split; [now destruct bs0|].
    intros b Hb. apply in_app_or in Hb as [Hb | [<- | []]]; [now apply Hbs0|].
    now rewrite Hkey. }
  unfold index_after. fold isk.
  destruct (dict_get isk (dict_get_default (config_id k) [] m)) as [budgets|] eqn:Hisk.
  - apply dict_get_In in Hisk. destruct (Hold isk budgets Hisk) as [_ Hb].
    destruct (_ && _); [|now apply indexed_entry].
    destruct budgets as [|first rest]; [now apply indexed_entry|].
    destruct (negb _); [now apply indexed_entry|]. now apply Hnew.
  - apply (Hnew []). intros b Hb. destruct Hb.
Qed.

Lemma call_insert_fits (a : add_call) (w : World) (c : cost_t) :
  bounds_invariant (self w) ->
  to_floats (cardinality (call_cost a)) (squeeze (call_cost a)) = Ok c ->
  let r2 := fix_objectives (cardinality (call_cost a))
              (register (call_config a) (self w)) in
  _n_objectives r2 = cardinality (call_cost a) ->
  costs_fit (set_data (dict_set (key_of_call (self w) a) (value_of_call c a) (_data r2)) r2).
Proof.
  intros Hinv Hc r2 Hn.
  assert (H1 := bounds_invariant_register (call_config a) _ Hinv).
  assert (H2 := bounds_invariant_fix (cardinality (call_cost a)) _ H1).
  intros k' v' Hin. cbn [_data set_data _n_objectives] in *.
  destruct (dict_set_In _ _ _ _ _ Hin) as [Hold | ->].
  - exact (proj1 H2 k' v' Hold).
  - cbn [cost value_of_call]. rewrite np_size_row.
    destruct (to_floats_squeeze (call_cost a)) as (c' & Hc' & Hsize & _).
    fold (cardinality (call_cost a)) in Hc'. rewrite Hc in Hc'. injection Hc' as <-.
    fold r2. rewrite Hn. exact Hsize.
Qed.

Lemma _add_index k v status origin w :
  costs_fit (set_data (dict_set k v (_data (self w))) (self w)) ->
  _config_id_to_isk_to_budget (self (snd (_add k v status origin w)))
  = if registers_cost origin status
    then index_after k (_config_id_to_isk_to_budget (self w))
    else _config_id_to_isk_to_budget (self w).
Proof.
  intros Hfit. destruct (registers_cost origin status) eqn:Hr.
  2:{ destruct (_add_unregistered k v status origin Hr) as [_ Hb]. exact (Hb w). }
  rewrite (_add_run k v status origin w Hfit Hr). cbv zeta.
  destruct (budget_check k _); [reflexivity|].
  destruct (cost_step_keeps k v) as (_ & _ & Hb & _).
  match goal with |- context [cost_step k v ?w0] => exact (Hb w0) end.
Qed.

Lemma trials_indexed_call (a : add_call) (w : World) :
  bounds_invariant (self w) -> trials_indexed (self w) ->
  trials_indexed (self (snd (call a w))).
Proof.
  intros Hinv Hi. unfold trials_indexed in *.
  assert (H2 : indexed (_data (fix_objectives (cardinality (call_cost a))
                                 (register (call_config a) (self w))))
                 (_config_id_to_isk_to_budget
                    (fix_objectives (cardinality (call_cost a))
                       (register (call_config a) (self w))))).
  { destruct (register_caches (call_config a) (cardinality (call_cost a)) (self w))
      as [Efix _]. cbv zeta in Efix. injection Efix as _ _ _ ->.
    destruct (fix_objectives_registry (cardinality (call_cost a))
                (register (call_config a) (self w))) as (_ & _ & _ & -> & _).
    now rewrite register_data. }
  destruct (call_cases a w) as [[-> | ->] | (c & Hc & Hn & Hrun)].
  - destruct (register_caches (call_config a) 0 (self w)) as [_ Ereg].
    injection Ereg as _ _ _ ->. now rewrite register_data.
  - exact H2.
  - rewrite Hrun, _add_data, _add_index; cbn [self with_self].
    + destruct (registers_cost _ _); [now apply indexed_after|now apply indexed_mono].
    + now apply call_insert_fits.
Qed.

Lemma reachable_trials_indexed (w : World) : reachable w -> trials_indexed (self w).
Proof.
  induction 1 as [ow lg fs|a w Hw IH].
  - intros i isks isk bs Hm. discriminate Hm.
  - apply trials_indexed_call; [now apply reachable_bounds_invariant|exact IH].
Qed.

End Index.

(** ** Cost queries on a ledger built by [add] *)

Section Queries2.
Context `{Collaborators}.

Lemma reachable_cost_shaped (w : World) :
  reachable w ->
  forall k v, In (k, v) (_data (self w)) -> cost_shaped (_n_objectives (self w)) (cost v).
Proof.
  intros Hw k v Hin.
  assert (Hfit := proj1 (reachable_bounds_invariant w Hw) k v Hin).
  assert (Hcan := wf_costs _ (reachable_well_formed w Hw) k v Hin).
  unfold canonical_cost, to_floats in Hcan.
  destruct (cost v) as [x|l]; cbn [cost_shaped row length] in *; [lia|].
  split; [|exact Hfit]. intros Hn. rewrite Hn in Hfit.
  destruct l as [|x [|y l]]; cbn in Hfit, Hcan; try lia. discriminate Hcan.
Qed.

Lemma builtin_max_In (l : list pyfloat) :
  l <> [] -> exists m, PyFloat.builtin_max l = Some m /\ In m l.
Proof.
  destruct l as [|x l]; [congruence|]. intros _. cbn.
  eexists. split; [reflexivity|].
  revert x. induction l as [|y l IH]; intros x; cbn; [now left|].
  destruct (IH (if PyFloat.ltb x y then y else x)) as [Heq | Hin].
  - destruct (PyFloat.ltb x y); rewrite <- Heq; auto.
  - auto.
Qed.

Lemma max_observed_budget_In (v : list (option pyfloat)) :
  v <> [] -> exists b, max_observed_budget v = Ok [b] /\ In b v.
Proof.
  intros Hne. unfold max_observed_budget.
  destruct (bool_decide (None ∈ v)) eqn:E.
  - apply bool_decide_eq_true in E. apply list_elem_of_In in E. eauto.
  - apply bool_decide_eq_false in E.
    destruct (builtin_max_In (omap id v)) as (m & -> & Hm).
    + destruct v as [|[x|] v]; [congruence|cbn; congruence|].
      exfalso. apply E. apply list_elem_of_In. now left.
    + exists (Some m). split; [reflexivity|].
      apply list_elem_of_In in Hm. apply list_elem_of_omap in Hm as (y & Hy & Hid).
      cbn in Hid. subst y. now apply list_elem_of_In.
Qed.

(** The keys [get_trials] returns all belong to recorded trials. *)
Lemma get_trials_recorded (r : RunHistory) (config : Configuration) (i : Z) (only_max : bool) :
  trials_indexed r ->
  dict_get config (_config_ids r) = Some i ->
  exists keys,
    get_trials r config only_max = Ok keys
    /\ forall key, In key keys ->
         dict_contains {| config_id := i; tk_instance := isb_instance key;
                          tk_seed := isb_seed key; tk_budget := isb_budget key |}
                       (_data r) = true.
Proof.
  intros Hi Hc. unfold get_trials. rewrite Hc. unfold dict_get_default.
  match goal with
  | |- context [@dict_get ?K ?V ?E i ?m] =>
      destruct (@dict_get K V E i m) as [isks|] eqn:Hm
  end.
  2:{ exists []. split; [now destruct only_max|intros key Hin; destruct Hin]. }
  assert (Hall : forall isk bs, In (isk, bs) isks ->
            bs <> [] /\ forall b, In b bs ->
              dict_contains (indexed_key i isk b) (_data r) = true).
  { intros isk bs. exact (Hi i isks isk bs Hm). }
  clear Hm.
  assert (Hflat : forall trials : list (InstanceSeedKey * list (option pyfloat)),
            (forall isk bs, In (isk, bs) trials ->
               forall b, In b bs -> dict_contains (indexed_key i isk b) (_data r) = true) ->
            forall key,
              In key (flat_map (fun kv =>
                        map (fun budget => {| isb_instance := isk_instance (fst kv);
                                              isb_seed := isk_seed (fst kv);
                                              isb_budget := budget |}) (snd kv)) trials) ->
              dict_contains {| config_id := i; tk_instance := isb_instance key;
                               tk_seed := isb_seed key; tk_budget := isb_budget key |}
                            (_data r) = true).
  { intros trials Ht key Hin. apply in_flat_map in Hin as ([isk bs] & Hin & Hk).
    apply in_map_iff in Hk as (b & <- & Hb). exact (Ht isk bs Hin b Hb). }
  destruct only_max.
  - assert (Hmax : exists trials',
              map_ok (fun kv : InstanceSeedKey * list (option pyfloat) =>
                        let? v := max_observed_budget (snd kv) in Ok (fst kv, v)) isks
              = Ok trials'
              /\ forall isk bs, In (isk, bs) trials' ->
                   forall b, In b bs ->
                     dict_contains (indexed_key i isk b) (_data r) = true).
    { induction isks as [|[isk bs] isks IH]; [exists []; split; [reflexivity|intros ? ? Hin; destruct Hin]|].
      destruct IH as (trials' & Eq & Ht); [intros; apply Hall; now right|].
      destruct (Hall isk bs (or_introl eq_refl)) as [Hne Hb].
      destruct (max_observed_budget_In bs Hne) as (b & Hmaxb & Hbin).
      cbn [map_ok fst snd]. rewrite Hmaxb. cbn. rewrite Eq. cbn.
      eexists. split; [reflexivity|].
      intros isk' bs' [[= <- <-] | Hin] b' Hb'; [|now apply (Ht isk' bs')].
      destruct Hb' as [<- | []]. now apply Hb. }
    destruct Hmax as (trials' & -> & Ht). cbn. eexists. split; [reflexivity|].
    now apply Hflat.
  - cbn. eexists. split; [reflexivity|]. apply Hflat.
    intros isk bs Hin. now apply Hall.
Qed.

Lemma _cost_shaped (w : World) (config : Configuration) :
  reachable w ->
  exists costs, _cost (self w) config None = Ok costs
                /\ Forall (cost_shaped (_n_objectives (self w))) costs.
Proof.
  intros Hw. unfold _cost.
  destruct (dict_get config (_config_ids (self w))) as [i|] eqn:Hc;
    [|exists []; split; [reflexivity|constructor]].
  destruct (get_trials_recorded (self w) config i true (reachable_trials_indexed w Hw) Hc)
    as (keys & -> & Hkeys).
  cbn [obind]. induction keys as [|key keys IH].
  - exists []. split; [reflexivity|constructor].
  - destruct IH as (costs & Eq & Hall); [intros; apply Hkeys; now right|].
    specialize (Hkeys key (or_introl eq_refl)). unfold dict_contains in Hkeys.
    cbn [map_ok].
    destruct (dict_get _ (_data (self w))) as [v|] eqn:Hv; [|discriminate].
    cbn. rewrite Eq. cbn. eexists. split; [reflexivity|].
    constructor; [|exact Hall].
    apply dict_get_In in Hv. exact (reachable_cost_shaped w Hw _ v Hv).
Qed.

Lemma np_array_scalars (costs : list cost_t) :
  Forall (cost_shaped 1) costs ->
  exists xs, np_array costs = Ok (Arr1 xs) /\ length xs = length costs.
Proof.
  intros Hall. unfold np_array.
  assert (Hs : exists xs, all_some (map as_scalar costs) = Some xs
                          /\ length xs = length costs).
  { induction Hall as [|c costs Hc Hall IH]; [exists []; now split|].
    destruct IH as (xs & Eq & Hlen). destruct c as [x|l]; [|now destruct Hc].
    cbn. rewrite Eq. exists (x :: xs). cbn. now rewrite Hlen. }
  destruct Hs as (xs & -> & Hlen). eauto.
Qed.

Lemma np_array_lists (n : Z) (costs : list cost_t) :
  n <> 1 -> Forall (cost_shaped n) costs -> costs <> [] ->
  exists rows, np_array costs = Ok (Arr2 rows) /\ length rows = length costs /\ 0 <= n
               /\ Forall (fun row => Z.of_nat (length row) = n) rows.
Proof.
  intros Hn Hall Hne. unfold np_array.
  assert (Hnone : all_some (map as_scalar costs) = None).
  { destruct Hall as [|c costs Hc Hall]; [congruence|].
    destruct c as [x|l]; [cbn in Hc; congruence|reflexivity]. }
  rewrite Hnone.
  assert (Hs : exists rows, all_some (map as_list costs) = Some rows
                            /\ length rows = length costs
                            /\ Forall (fun row => Z.of_nat (length row) = n) rows).
  { clear Hne Hnone. induction Hall as [|c costs Hc Hall IH];
      [exists []; split; [reflexivity|split; [reflexivity|constructor]]|].
    destruct IH as (rows & Eq & Hlen & Hrows).
    destruct c as [x|l]; [cbn in Hc; congruence|]. destruct Hc as [_ Hl].
    cbn. rewrite Eq. exists (l :: rows). cbn. rewrite Hlen.
    split; [reflexivity|]. split; [reflexivity|]. now constructor. }
  destruct Hs as (rows & -> & Hlen & Hrows).
  assert (Hsame : same_length rows = true).
  { destruct Hrows as [|row rows Hrow Hrows]; [reflexivity|]. cbn.
    apply forallb_forall. intros row' Hin. apply Nat.eqb_eq.
    rewrite List.Forall_forall in Hrows. specialize (Hrows row' Hin). lia. }
  rewrite Hsame. exists rows. split; [reflexivity|]. split; [exact Hlen|].
  split; [|exact Hrows].
  destruct Hrows as [|row rows Hrow _]; [destruct costs; [congruence|discriminate]|lia].
Qed.

(** X6. On a ledger built by [add] the cost queries over a
    configuration's recorded trials do not fail: for any configuration,
    [average_cost] and [sum_cost] return a cost, and so does [min_cost]
    unless the costs of the ledger are empty lists (an objective count of
    0); no trial the index names is missing from the ledger. *)
Theorem cost_queries_return (w : World) (config : Configuration) :
  reachable w ->
  (exists a, average_cost (self w) config None false = Ok a)
  /\ (exists s, sum_cost (self w) config None false = Ok s)
  /\ (_n_objectives (self w) <> 0 ->
      exists m, min_cost (self w) config None false = Ok m).
Proof.
  intros Hw. destruct (_cost_shaped w config Hw) as (costs & Hcost & Hall).
  unfold average_cost, sum_cost, min_cost. rewrite Hcost. cbn [obind].
  destruct costs as [|c costs]; [cbn; split; [eauto|split; eauto]|].
  set (n := _n_objectives (self w)) in *.
  destruct (decide (n = 1)) as [Hn|Hn].
  - rewrite Hn in *. cbn [Z.ltb Z.compare Pos.compare Pos.compare_cont].
    destruct (np_array_scalars _ Hall) as (xs & Harr & Hlen).
    unfold np_mean, np_sum, np_min.
    rewrite Harr. cbn [obind flatten].
    split; [eauto|]. split; [eauto|]. intros _.
    destruct xs as [|x xs]; [discriminate Hlen|]. cbn. eauto.
  - destruct (np_array_lists n _ Hn Hall) as (rows & Harr & Hlen & Hpos & Hrows);
      [discriminate|].
    unfold np_mean_axis0, np_sum_axis0, np_min_axis0, np_mean, np_sum, np_min.
    rewrite Harr. cbn [obind flatten].
    destruct (1 <? n) eqn:E.
    + split; [eauto|]. split; [eauto|]. intros _.
      destruct rows as [|row rows]; [discriminate Hlen|]. cbn. eauto.
    + split; [eauto|]. split; [eauto|]. intros Hn0.
      apply Z.ltb_ge in E. lia.
Qed.

End Queries2.

(** ** Saving a ledger built by [add] *)

Section Saving.
Context `{Collaborators}.

#[local] Arguments _add : simpl never.

(** As [call_cases], with what the JSON checks of [add] established. *)
Lemma call_cases_checked (a : add_call) (w : World) :
  let r1 := register (call_config a) (self w) in
  let n := cardinality (call_cost a) in
  (self (snd (call a w)) = r1 \/ self (snd (call a w)) = fix_objectives n r1)
  \/ (exists c,
         to_floats n (squeeze (call_cost a)) = Ok c
         /\ _n_objectives (fix_objectives n r1) = n
         /\ payload_ok (call_config a) (call_additional_info a) = true
         /\ _overwrite_existing_trials (self w) || call_force_update a
            || negb (dict_contains (key_of_call (self w) a) (_data (self w))) = true
         /\ call a w = _add (key_of_call (self w) a) (value_of_call c a) (call_status a)
                          (call_origin a) (with_self w (fix_objectives n r1))).
Proof.
  intros r1 n. rewrite call_run. cbv zeta. fold r1 n.
  destruct (negb (_n_objectives r1 =? -1) && negb (_n_objectives r1 =? n)) eqn:Eif;
    [left; now left|].
  assert (Hfix : _n_objectives (fix_objectives n r1) = n).
  { unfold fix_objectives.
    destruct (_n_objectives r1 =? -1) eqn:E1; [reflexivity|]. cbn in Eif.
    destruct (_n_objectives r1 =? n) eqn:E2; [now apply Z.eqb_eq in E2|discriminate]. }
  rewrite Hfix.
  destruct (to_floats_squeeze (call_cost a)) as (c & Hc & _).
  fold (cardinality (call_cost a)) in Hc. fold n in Hc. rewrite Hc.
  match goal with
  | |- context [first_failure ?f ?l] =>
      assert (Hp := payload_check (call_config a) (id_of (call_config a) (self w))
                      (call_instance a) (call_seed a)
                      (option_map PyFloat.float (call_budget a)) c (call_time a)
                      (call_status a) (call_starttime a) (call_endtime a)
                      (call_additional_info a) (key_of_call (self w) a)
                      (value_of_call c a));
      destruct (first_failure f l) as [[]|e]
  end; [|left; now right].
  destruct (fix_objectives_registry n r1) as (_ & _ & _ & Ed & Eo).
  assert (Ho1 : _overwrite_existing_trials r1 = _overwrite_existing_trials (self w))
    by apply register_overwrite.
  assert (Hd1 : _data r1 = _data (self w)) by apply register_data.
  rewrite Eo, Ed, Ho1, Hd1.
  destruct (_overwrite_existing_trials (self w) || call_force_update a
            || negb (dict_contains (key_of_call (self w) a) (_data (self w)))) eqn:Econd;
    [|left; now right].
  right. exists c. auto.
Qed.

Lemma dict_set_same_keys {K V W} `{EqDecision K} (k : K) (v : V) (x : W)
    (d : dict K V) (e : dict K W) :
  dict_keys d = dict_keys e -> dict_keys (dict_set k v d) = dict_keys (dict_set k x e).
Proof.
  unfold dict_keys. revert e. induction d as [|[k0 v0] d IH]; intros [|[k1 x1] e];
    cbn; try discriminate; [reflexivity|].
  intros [= <- Hrest]. destruct (decide (k = k0)); cbn; [now rewrite Hrest|].
  f_equal. now apply IH.
Qed.

Lemma origins_recorded_call (a : add_call) (w : World) :
  origins_recorded (self w) -> origins_recorded (self (snd (call a w))).
Proof.
  unfold origins_recorded. intros Hinv.
  assert (H2 : forall n, dict_keys (_data (fix_objectives n (register (call_config a) (self w))))
               = dict_keys (_external (fix_objectives n
                                         (register (call_config a) (self w))))).
  { intros n. unfold fix_objectives, register.
    destruct (dict_get _ _); cbn;
      match goal with |- context [if ?b then _ else _] => destruct b end; exact Hinv. }
  destruct (call_cases a w) as [[-> | ->] | (c & Hc & Hn & Hrun)].
  - unfold register. destruct (dict_get _ _); exact Hinv.
  - apply H2.
  - rewrite Hrun, _add_data, _add_external. cbn [self with_self].
    apply dict_set_same_keys, H2.
Qed.

Lemma payloads_serializable_call (a : add_call) (w : World) :
  well_formed (self w) ->
  payloads_serializable (self w) -> payloads_serializable (self (snd (call a w))).
Proof.
  intros Hwf Hinv.
  assert (H1 : payloads_serializable (register (call_config a) (self w))).
  { intros k v Hin. rewrite register_data in Hin.
    destruct (Hinv k v Hin) as (Hinfo & c & Hc & Hdict). split; [exact Hinfo|].
    exists c. split; [|exact Hdict]. unfold register.
    destruct (dict_get (call_config a) (_config_ids (self w))) eqn:E; [exact Hc|].
    cbn. rewrite dict_get_set_ne; [exact Hc|].
    intros Heq. rewrite <- Heq in Hc.
    apply (wf_ids_config _ Hwf) in Hc. apply (wf_ids_bound _ Hwf) in Hc. lia. }
  assert (H2 : forall n, payloads_serializable
                           (fix_objectives n (register (call_config a) (self w)))).
  { intros n. unfold fix_objectives. destruct (_ =? -1); exact H1. }
  destruct (call_cases_checked a w) as [[-> | ->] | (c & Hc & Hn & Hpay & _ & Hrun)];
    [exact H1|apply H2|].
  intros k v Hin. rewrite Hrun in Hin |- *. rewrite _add_data in Hin.
  match goal with
  | |- context [_add ?k0 ?v0 ?s ?o ?w0] =>
      assert (Hreg := _add_keeps_registry k0 v0 s o w0)
  end.
  unfold registry in Hreg. cbn [self with_self] in Hreg, Hin.
  injection Hreg as _ _ -> _ _.
  apply dict_set_In_key in Hin as [Hold | [-> ->]]; [exact (H2 _ k v Hold)|].
  unfold payload_ok in Hpay. apply andb_true_iff in Hpay as [Hpay _].
  apply andb_true_iff in Hpay as [Hdict Hinfo].
  split; [exact Hinfo|]. exists (call_config a). split; [|exact Hdict].
  cbn [config_id key_of_call].
  destruct (fix_objectives_registry (cardinality (call_cost a))
              (register (call_config a) (self w))) as (_ & -> & _).
  now apply register_ids_config.
Qed.

Lemma reachable_saved_shape (w : World) :
  reachable w -> origins_recorded (self w) /\ payloads_serializable (self w).
Proof.
  induction 1 as [ow lg fs|a w Hw [IH1 IH2]].
  - split; [reflexivity|]. intros k v Hin. destruct Hin.
  - split; [now apply origins_recorded_call|].
    apply payloads_serializable_call; [now apply reachable_well_formed|exact IH2].
Qed.

Lemma saved_entries_run (r : RunHistory) (save_external : bool)
    (items : list (TrialKey * TrialValue)) :
  (forall kv, In kv items -> dict_contains (fst kv) (_external r) = true) ->
  saved_entries r save_external items
  = Ok (List.filter (fun kv => save_external
                               || bool_decide (dict_get (fst kv) (_external r)
                                               = Some INTERNAL)) items).
Proof.
  induction items as [|[k v] items IH]; intros Hall; [reflexivity|].
  cbn [saved_entries List.filter fst]. rewrite IH by (intros; apply Hall; now right).
  specialize (Hall (k, v) (or_introl eq_refl)). unfold dict_contains in Hall. cbn in Hall.
  destruct save_external; [reflexivity|]. cbn [orb].
  destruct (dict_get k (_external r)) as [o|]; [|discriminate]. cbn.
  destruct (decide (o = INTERNAL)) as [->|Hne].
  - now rewrite !bool_decide_true.
  - rewrite !bool_decide_false; [reflexivity|congruence|exact Hne].
Qed.

Lemma json_entry_serializable (k : TrialKey) (v : TrialValue) :
  json_serializable (json_entry k v) = json_serializable (additional_info v).
Proof.
  unfold json_entry. cbn. rewrite json_serializable_cost.
  destruct (tk_instance k), (tk_seed k), (tk_budget k); cbn;
    now rewrite ?andb_true_r.
Qed.

Lemma forallb_map_comp {A B} (f : B -> bool) (g : A -> B) (l : list A) :
  forallb f (map g l) = forallb (fun x => f (g x)) l.
Proof. induction l as [|x l IH]; [reflexivity|]. cbn. now rewrite IH. Qed.

Lemma save_json_run (filename : string) (save_external : bool) (w : World) :
  reachable w ->
  save_json filename save_external w
  = let doc := saved_document (self w) (saved_trials (self w) save_external) in
    if Py.endswith filename ".json" then
      if json_serializable doc then
        (Ok tt, {| self := self w; logged := logged w;
                   files := dict_set filename (JsonText doc) (files w) |})
      else
        (Raise (TypeError "Object is not JSON serializable"),
         {| self := self w; logged := logged w;
            files := dict_set filename NotJson (files w) |})
    else (Raise AssertionError, w).
Proof.
  intros Hw. destruct (reachable_saved_shape w Hw) as [Horig _].
  unfold save_json. unfold bind at 1. unfold query at 1. cbn [fst snd].
  rewrite saved_entries_run.
  2:{ intros [k v] Hin. cbn [fst]. unfold dict_contains.
      destruct (dict_get k (_external (self w))) eqn:E; [reflexivity|].
      apply dict_get_None_keys in E. exfalso. apply E. rewrite <- Horig.
      unfold dict_keys. change k with (fst (k, v)). now apply in_map. }
  fold (saved_trials (self w) save_external).
  unfold bind at 1. unfold read at 1. cbn [fst snd].
  fold (saved_document (self w) (saved_trials (self w) save_external)).
  unfold bind at 1. unfold lift at 1. cbn [fst snd]. cbv zeta.
  destruct (Py.endswith filename ".json"); cbn [assert]; [|reflexivity].
  destruct (json_serializable _); reflexivity.
Qed.

Lemma saved_document_serializable (r : RunHistory) (save_external : bool) :
  payloads_serializable r -> NoDup (dict_keys (_ids_config r)) ->
  json_serializable (saved_document r (saved_trials r save_external))
  = forallb (fun ic => json_serializable (Configuration_origin (snd ic))) (_ids_config r).
Proof.
  intros Hpay Hnd. unfold saved_document.
  cbn [json_serializable forallb snd].
  assert (Hdata : forallb json_serializable
                    (map (fun kv : TrialKey * TrialValue => json_entry (fst kv) (snd kv))
                         (saved_trials r save_external)) = true).
  { apply forallb_forall. intros e He. apply in_map_iff in He as ([k v] & <- & Hin).
    cbn [fst snd]. rewrite json_entry_serializable.
    apply filter_In in Hin as [Hin _]. exact (proj1 (Hpay k v Hin)). }
  assert (Hcfg : forallb (fun kv : string * pyval => json_serializable (snd kv))
                   (flat_map
                      (fun ic : Z * Configuration =>
                         if bool_decide
                              (fst ic ∈ map (fun kv : TrialKey * TrialValue =>
                                               config_id (fst kv))
                                            (saved_trials r save_external))
                         then [(Py.str_of_int (fst ic), get_dictionary (snd ic))]
                         else []) (_ids_config r)) = true).
  { apply forallb_forall. intros e He. apply in_flat_map in He as ([i c] & Hic & He).
    cbn [fst snd] in He.
    destruct (bool_decide _) eqn:Hb; [|destruct He].
    destruct He as [<- | []]. cbn [snd].
    apply bool_decide_eq_true in Hb. apply list_elem_of_In in Hb.
    apply in_map_iff in Hb as ([k v] & Hid & Hin). cbn [fst] in Hid.
    apply filter_In in Hin as [Hin _].
    destruct (Hpay k v Hin) as (_ & c' & Hc' & Hdict).
    rewrite Hid in Hc'. apply dict_get_In in Hc'.
    assert (c' = c); [|now subst].
    apply (In_dict_get _ _ _ Hnd) in Hc', Hic. congruence. }
  rewrite Hdata, Hcfg. cbn [andb]. rewrite andb_true_r.
  rewrite forallb_map_comp. reflexivity.
Qed.

(** X7. [save_json] on a ledger built by [add], with a filename ending
    in [.json]: when the origin of every registered configuration can be
    written as JSON, the call returns normally and the file holds the
    document of the trials to save (all of them with [save_external], the
    internal ones without), with the dictionaries of their configurations
    and the origins of all registered configurations.  The checks [add]
    made on every recorded trial leave nothing else that could fail. *)
Theorem save_json_succeeds (filename : string) (save_external : bool) (w : World) :
  reachable w ->
  Py.endswith filename ".json" = true ->
  (forall i c, In (i, c) (_ids_config (self w)) ->
               json_serializable (Configuration_origin c) = true) ->
  save_json filename save_external w
  = (Ok tt, {| self := self w; logged := logged w;
               files := dict_set filename
                          (JsonText (saved_document (self w)
                                       (saved_trials (self w) save_external)))
                          (files w) |}).
Proof.
  intros Hw Hname Horigins. rewrite save_json_run by exact Hw. cbv zeta. rewrite Hname.
  rewrite saved_document_serializable.
  - assert (E : forallb (fun ic : Z * Configuration =>
                           json_serializable (Configuration_origin (snd ic)))
                        (_ids_config (self w)) = true).
    { apply forallb_forall. intros [i c] Hin. exact (Horigins i c Hin). }
    now rewrite E.
  - exact (proj2 (reachable_saved_shape w Hw)).
  - exact (wf_ids_nodup _ (reachable_well_formed w Hw)).
Qed.

(** X8. A configuration whose origin cannot be written as JSON makes
    [save_json] fail for good: [add] rejects its trial but keeps the
    configuration registered, and from then on [save_json] raises a
    [TypeError] and leaves a file behind that is not JSON. *)
Theorem save_json_fails_on_an_origin (filename : string) (save_external : bool)
    (w : World) (i : Z) (c : Configuration) :
  reachable w ->
  Py.endswith filename ".json" = true ->
  In (i, c) (_ids_config (self w)) ->
  json_serializable (Configuration_origin c) = false ->
  save_json filename save_external w
  = (Raise (TypeError "Object is not JSON serializable"),
     {| self := self w; logged := logged w;
        files := dict_set filename NotJson (files w) |}).
Proof.
  intros Hw Hname Hin Hbad. rewrite save_json_run by exact Hw. cbv zeta. rewrite Hname.
  rewrite saved_document_serializable.
  - assert (E : forallb (fun ic : Z * Configuration =>
                           json_serializable (Configuration_origin (snd ic)))
                        (_ids_config (self w)) = false).
    { apply not_true_is_false. intros Hall.
      rewrite forallb_forall in Hall. specialize (Hall (i, c) Hin). cbn in Hall.
      congruence. }
    now rewrite E.
  - exact (proj2 (reachable_saved_shape w Hw)).
  - exact (wf_ids_nodup _ (reachable_well_formed w Hw)).
Qed.

(** X9. [save_json] with a filename that does not end in [.json] fails its
    assertion before anything is written: on a ledger built by [add] the
    call raises an [AssertionError] and changes neither the ledger nor the
    files. *)
Theorem save_json_wants_a_json_name (filename : string) (save_external : bool)
    (w : World) :
  reachable w ->
  Py.endswith filename ".json" = false ->
  save_json filename save_external w = (Raise AssertionError, w).
Proof.
  intros Hw Hname. rewrite save_json_run by exact Hw. cbv zeta. now rewrite Hname.
Qed.

End Saving.

(** ** Configurations per budget *)

Section PerBudget.
Context `{Collaborators}.

Lemma map_ok_Forall2 {A B} (f : A -> outcome B) (R : A -> B -> Prop) (l : list A) :
  (forall x, In x l -> exists y, f x = Ok y /\ R x y) ->
  exists ys, map_ok f l = Ok ys /\ Forall2 R l ys.
Proof.
  induction l as [|x l IH]; intros Hall.
  - exists []. split; [reflexivity|constructor].
  - destruct (Hall x (or_introl eq_refl)) as (y & Hy & HR).
    destruct IH as (ys & Hys & HF); [intros; apply Hall; now right|].
    exists (y :: ys). cbn. rewrite Hy. cbn. rewrite Hys. split; [reflexivity|].
    now constructor.
Qed.

(** X10. [get_configs_per_budget] with a list of budgets, on a ledger
    built by [add]: the call finds the configuration of every trial (no
    [KeyError]) and returns one configuration per trial whose budget is in
    the list, in the order of the trials, each being the configuration
    registered under the trial's id; a configuration with several such
    trials is returned several times. *)
Theorem get_configs_per_budget_lists_trials (w : World)
    (budget_subset : list (option pyfloat)) :
  reachable w ->
  exists configs,
    get_configs_per_budget (self w) (Some budget_subset) = Ok configs
    /\ Forall2 (fun key config =>
                  dict_get config (_config_ids (self w)) = Some (config_id key))
               (List.filter (fun key => existsb (budget_eqb (tk_budget key)) budget_subset)
                            (__iter__ (self w)))
               configs.
Proof.
  intros Hw. assert (Hwf := reachable_well_formed w Hw).
  unfold get_configs_per_budget, __iter__. apply map_ok_Forall2.
  intros key Hin. apply filter_In in Hin as [Hin _].
  unfold dict_keys in Hin. apply in_map_iff in Hin as ([k v] & <- & Hin). cbn [fst].
  destruct (wf_data_ids _ Hwf k v Hin) as [c Hc]. exists c. rewrite Hc.
  split; [reflexivity|]. now apply (wf_ids_config _ Hwf).
Qed.

End PerBudget.

(** ** Merging ledgers *)

Section Merging.
Context `{Collaborators}.

Lemma for_each_preserves {A} (P : World -> Prop) (body : A -> M unit) (l : list A) :
  (forall x w, P w -> P (snd (body x w))) ->
  forall w, P w -> P (snd (for_each l body w)).
Proof.
  intros Hbody. induction l as [|x l IH]; intros w Hw; [exact Hw|].
  cbn [for_each]. unfold bind. specialize (Hbody x w Hw).
  destruct (body x w) as [[[]|e] w1]; cbn [snd] in *; [now apply IH|exact Hbody].
Qed.

(** The call of [add] that [update] makes for a trial of the other ledger. *)
Lemma update_body_is_a_call (origin : DataOrigin) (c : Configuration)
    (k : TrialKey) (v : TrialValue) :
  add c (cost v) (time v) (status v) (tk_instance k) (tk_seed k) (tk_budget k)
      (starttime v) (endtime v) (additional_info v) origin false
  = call {| call_config := c; call_cost := cost v; call_time := time v;
            call_status := status v; call_instance := tk_instance k;
            call_seed := tk_seed k; call_budget := tk_budget k;
            call_starttime := starttime v; call_endtime := endtime v;
            call_additional_info := additional_info v; call_origin := origin;
            call_force_update := false |}.
Proof. reflexivity. Qed.

Lemma call_keeps_ids (a : add_call) (w : World) (c : Configuration) (i : Z) :
  dict_get c (_config_ids (self w)) = Some i ->
  dict_get c (_config_ids (self (snd (call a w)))) = Some i.
Proof.
  intros Hc. destruct (call_registry a w) as (-> & _). unfold register.
  destruct (dict_get (call_config a) (_config_ids (self w))) eqn:E; [exact Hc|].
  cbn. rewrite dict_get_set_ne; [exact Hc|]. intros <-. congruence.
Qed.

Lemma call_keeps_trials (a : add_call) (w : World) (k : TrialKey) :
  dict_contains k (_data (self w)) = true ->
  dict_contains k (_data (self (snd (call a w)))) = true.
Proof.
  intros Hk. destruct (call_data a w) as [-> | (c & _ & _ & ->)]; [exact Hk|].
  exact (dict_contains_set _ k (value_of_call c a) _ Hk).
Qed.

(** X11. When [update] returns normally, every trial of the other ledger
    is in this one: its configuration has an id here, whatever its id
    was there, and the ledger holds a trial under that id and the trial's
    instance, seed and budget. *)
Theorem update_transfers_the_trials (runhistory : RunHistory) (origin : DataOrigin)
    (w : World) :
  fst (update runhistory origin w) = Ok tt ->
  forall k v, In (k, v) (_data runhistory) ->
    exists c i,
      dict_get (config_id k) (_ids_config runhistory) = Some c
      /\ dict_get c (_config_ids (self (snd (update runhistory origin w)))) = Some i
      /\ __contains__ (self (snd (update runhistory origin w)))
           {| config_id := i; tk_instance := tk_instance k; tk_seed := tk_seed k;
              tk_budget := option_map PyFloat.float (tk_budget k) |} = true.
Proof.
  unfold update, __contains__.
  set (body := fun kv : TrialKey * TrialValue => _).
  generalize (_data runhistory). intros l. revert w.
  induction l as [|[k0 v0] l IH]; intros w Hok k v Hin; [destruct Hin|].
  cbn [for_each] in Hok |- *. unfold bind in Hok |- *.
  destruct (body (k0, v0) w) as [[[]|e] w1] eqn:Hbody; [|discriminate Hok].
  destruct Hin as [[= -> ->] | Hin]; [|exact (IH w1 Hok k v Hin)].
  unfold body in Hbody. cbn [fst snd] in Hbody. unfold bind, lift in Hbody.
  destruct (dict_get (config_id k) (_ids_config runhistory)) as [c|] eqn:Hc;
    [|discriminate Hbody].
  cbn [subscript] in Hbody. rewrite update_body_is_a_call in Hbody.
  match type of Hbody with call ?a0 w = _ => set (a := a0) in * end.
  assert (Hok1 : fst (call a w) = Ok tt) by now rewrite Hbody.
  destruct (call_ok_recorded a w Hok1) as (c' & _ & Hk & _).
  rewrite Hbody in Hk. cbn [snd] in Hk.
  assert (Hid : dict_get c (_config_ids (self w1)) = Some (id_of c (self w))).
  { replace w1 with (snd (call a w)) by now rewrite Hbody.
    destruct (call_registry a w) as (-> & _). apply register_get. }
  exists c, (id_of c (self w)). split; [reflexivity|].
  split.
  - apply (for_each_preserves
             (fun w' => dict_get c (_config_ids (self w')) = Some (id_of c (self w))));
      [|exact Hid].
    intros [k1 v1] w' Hw'. unfold body. cbn [fst snd]. unfold bind, lift.
    destruct (dict_get (config_id k1) (_ids_config runhistory)); [|exact Hw'].
    cbn [subscript]. rewrite update_body_is_a_call. now apply call_keeps_ids.
  - apply (for_each_preserves
             (fun w' => dict_contains (key_of_call (self w) a) (_data (self w')) = true));
      [|exact Hk].
    intros [k1 v1] w' Hw'. unfold body. cbn [fst snd]. unfold bind, lift.
    destruct (dict_get (config_id k1) (_ids_config runhistory)); [|exact Hw'].
    cbn [subscript]. rewrite update_body_is_a_call. now apply call_keeps_trials.
Qed.

(** X12. [update] into a ledger that does not overwrite only appends:
    whatever it returns, the trials the ledger held before are still its
    first trials, unchanged and in their order, also when the other
    ledger holds a trial under the same key. *)
Theorem update_is_append_only (runhistory : RunHistory) (origin : DataOrigin)
    (w : World) :
  _overwrite_existing_trials (self w) = false ->
  exists rest,
    _data (self (snd (update runhistory origin w))) = (_data (self w) ++ rest)%list.
Proof.
  intros Ho. unfold update.
  apply (for_each_preserves
           (fun w' => _overwrite_existing_trials (self w') = false
                      /\ exists rest, _data (self w') = (_data (self w) ++ rest)%list)).
  - intros [k v] w' [Ho' [rest Hrest]]. cbn [fst snd]. unfold bind, lift.
    destruct (dict_get (config_id k) (_ids_config runhistory)); [|cbn; eauto].
    cbn [subscript]. rewrite update_body_is_a_call.
    match goal with |- context [call ?a0 w'] => set (a := a0) end.
    destruct (call_registry a w') as (_ & _ & _ & ->). split; [exact Ho'|].
    destruct (call_appends a w' Ho' eq_refl) as [rest' ->].
    exists (rest ++ rest')%list. now rewrite Hrest, app_assoc.
  - split; [exact Ho|]. exists []. now rewrite app_nil_r.
Qed.

(** X13. [update_from_json] with a file that is missing, unreadable or
    not JSON: the failed load is only logged, nothing is merged, and the
    call returns normally with the ledger and the files untouched. *)
Theorem update_from_json_unreadable (filename : string)
    (configspace : ConfigurationSpace) (origin : DataOrigin) (w : World) :
  dict_get filename (files w) = None
  \/ dict_get filename (files w) = Some Unreadable
  \/ dict_get filename (files w) = Some NotJson ->
  update_from_json filename configspace origin w
  = (Ok tt, {| self := self w;
               logged := (logged w ++ [{| level := WARNING;
                                          message := warning_message |}])%list;
               files := files w |}).
Proof.
  intros Hf. unfold update_from_json, load_json, bind, get_file. cbn [fst snd files].
  destruct Hf as [-> | [-> | ->]]; reflexivity.
Qed.

End Merging.

(** ** Budget 0: the incremental update and the index *)

Section ZeroRuns.
Context `{Collaborators}.

#[local] Arguments _add : simpl never.

Lemma incremental_update_cost_run (c : Configuration) (x old : pyfloat) (i : Z)
    (w : World) :
  dict_get c (_config_ids (self w)) = Some i ->
  _n_objectives (self w) = 1 ->
  dict_get_default i (CScalar (Fin 0)) (_cost_per_config (self w)) = CScalar old ->
  0 <= dict_get_default i 0 (_num_trials_per_config (self w)) ->
  incremental_update_cost c (CScalar x) w
  = let n := dict_get_default i 0 (_num_trials_per_config (self w)) in
    (Ok tt,
     with_self w
       (set_num_trials_per_config
          (dict_set i (n + 1) (_num_trials_per_config (self w)))
          (set_cost_per_config
             (dict_set i
                (CScalar (PyFloat.np_div
                            (PyFloat.add (PyFloat.mul old (PyFloat.of_Z n)) x)
                            (PyFloat.of_Z (n + 1))))
                (_cost_per_config (self w)))
             (self w)))).
Proof.
  intros Hc Hn Hold Hpos. destruct w as [r lg fs]. cbn [self] in *.
  unfold incremental_update_cost.
  unfold bind at 1. unfold query at 1. cbn [fst snd self]. rewrite Hc. cbn [subscript].
  unfold bind at 1. unfold read at 1. cbn [fst snd self].
  unfold bind at 1. unfold read at 1. cbn [fst snd self]. rewrite Hn.
  cbn [Z.ltb Z.compare Pos.compare Pos.compare_cont].
  unfold bind at 1. unfold bind at 1. unfold read at 1. cbn [fst snd self].
  rewrite Hold.
  destruct (dict_get_default i 0 (_num_trials_per_config r) + 1 =? 0) eqn:E;
    [apply Z.eqb_eq in E; lia|].
  reflexivity.
Qed.

Lemma budget_zero_canonical (b : option pyfloat) :
  budget_eq_zero (option_map PyFloat.float b) = true ->
  option_map PyFloat.float b = Some PyFloat.zero.
Proof.
  destruct b as [[q| | |]|]; cbn; try discriminate.
  intros Hq. apply Qeq_bool_iff in Hq. do 2 f_equal.
  rewrite Qred_correct in Hq. now apply Qred_complete in Hq.
Qed.

Lemma zero_index_recorded (r : RunHistory) (i : Z)
    (isks : dict InstanceSeedKey (list (option pyfloat))) :
  zero_core r -> dict_get i (_config_id_to_isk_to_budget r) = Some isks ->
  forall isk bs, In (isk, bs) isks ->
    dict_contains (indexed_key i isk (Some PyFloat.zero)) (_data r) = true.
Proof.
  intros Hz Hi isk bs Hin.
  destruct (zc_index r Hz i isks Hi) as (_ & _ & _ & Hall).
  destruct (Hall isk bs Hin) as (_ & v & x & Hv & _).
  unfold dict_contains. now rewrite Hv.
Qed.

(** A ledger that differs from a budget-0 ledger by a new trial that is
    not counted. *)
Lemma zero_insert_uncounted (r r' : RunHistory) (k : TrialKey) (v : TrialValue) :
  zero_core r -> zero_caches r ->
  dict_get k (_data r) = None ->
  tk_budget k = Some PyFloat.zero ->
  _data r' = dict_set k v (_data r) ->
  _overwrite_existing_trials r' = false ->
  _n_objectives r' = 1 ->
  (forall i c, dict_get i (_ids_config r) = Some c -> dict_get i (_ids_config r') = Some c) ->
  _config_id_to_isk_to_budget r' = _config_id_to_isk_to_budget r ->
  _cost_per_config r' = _cost_per_config r ->
  _num_trials_per_config r' = _num_trials_per_config r ->
  zero_core r' /\ zero_caches r'.
Proof.
  intros Hz Hc Hk Hb Hd Ho Hn Hids Hidx Hcost Hnum. split.
  - split.
    + exact Ho.
    + intros k' v' Hin. rewrite Hd in Hin.
      apply dict_set_In_key in Hin as [Hin | [-> _]]; [exact (zc_budget r Hz k' v' Hin)|].
      exact Hb.
    + intros _. exact Hn.
    + intros i isks Hi. rewrite Hidx in Hi.
      destruct (zc_index r Hz i isks Hi) as (Hne & Hnd & [c Hc0] & Hall).
      split; [exact Hne|]. split; [exact Hnd|]. split; [exists c; now apply Hids|].
      intros isk bs Hin. destruct (Hall isk bs Hin) as (Hbs & v0 & x & Hv0 & Hx).
      split; [exact Hbs|]. exists v0, x. split; [|exact Hx].
      rewrite Hd, dict_get_set_ne; [exact Hv0|]. intros Heq. congruence.
  - intros i. unfold count_spec. rewrite Hidx, Hcost, Hnum. exact (Hc i).
Qed.

Lemma key_of_parts (k : TrialKey) :
  indexed_key (config_id k) {| isk_instance := tk_instance k; isk_seed := tk_seed k |}
              (tk_budget k) = k.
Proof. now destruct k. Qed.

(** The instance-seed pair of a new budget-0 key is new to the index. *)
Lemma zero_isk_fresh (r : RunHistory) (k : TrialKey) :
  zero_core r -> dict_get k (_data r) = None -> tk_budget k = Some PyFloat.zero ->
  dict_get {| isk_instance := tk_instance k; isk_seed := tk_seed k |}
           (dict_get_default (config_id k) [] (_config_id_to_isk_to_budget r)) = None.
Proof.
  intros Hz Hk Hb. unfold dict_get_default. norm_dict.
  destruct (dict_get (config_id k) (_config_id_to_isk_to_budget r)) as [isks|] eqn:Hi;
    [|reflexivity].
  match goal with |- ?lhs = None => destruct lhs as [bs|] eqn:Hisk; [|reflexivity] end.
  apply dict_get_In in Hisk.
  assert (Hrec := zero_index_recorded r _ isks Hz Hi _ bs Hisk).
  rewrite <- Hb, key_of_parts in Hrec. unfold dict_contains in Hrec.
  now rewrite Hk in Hrec.
Qed.

(** A ledger that differs from a budget-0 ledger by a new counted trial,
    entered in the index and in the caches. *)
Lemma zero_insert_counted (r r' : RunHistory) (k : TrialKey) (v : TrialValue)
    (x avg : pyfloat) :
  zero_core r -> zero_caches r ->
  dict_get k (_data r) = None ->
  tk_budget k = Some PyFloat.zero ->
  cost v = CScalar x ->
  _data r' = dict_set k v (_data r) ->
  _overwrite_existing_trials r' = false ->
  _n_objectives r' = 1 ->
  (forall i c, dict_get i (_ids_config r) = Some c -> dict_get i (_ids_config r') = Some c) ->
  (exists c, dict_get (config_id k) (_ids_config r') = Some c) ->
  let isk := {| isk_instance := tk_instance k; isk_seed := tk_seed k |} in
  let isks0 := dict_get_default (config_id k) [] (_config_id_to_isk_to_budget r) in
  let n := dict_get_default (config_id k) 0 (_num_trials_per_config r) in
  _config_id_to_isk_to_budget r'
  = dict_set (config_id k) (dict_set isk [Some PyFloat.zero] isks0)
             (_config_id_to_isk_to_budget r) ->
  _cost_per_config r' = dict_set (config_id k) (CScalar avg) (_cost_per_config r) ->
  _num_trials_per_config r' = dict_set (config_id k) (n + 1) (_num_trials_per_config r) ->
  zero_core r' /\ zero_caches r'.
Proof.
  intros Hz Hc Hk Hb Hx Hd Ho Hn Hids Hreg isk isks0 n Hidx Hcost Hnum.
  norm_dict.
  assert (Hfresh := zero_isk_fresh r k Hz Hk Hb).
  change (dict_get isk isks0 = None) in Hfresh.
  assert (Hsnoc : dict_set isk [Some PyFloat.zero] isks0
                  = (isks0 ++ [(isk, [Some PyFloat.zero])])%list)
    by now apply dict_set_fresh.
  assert (Hkey : indexed_key (config_id k) isk (Some PyFloat.zero) = k).
  { rewrite <- Hb. apply key_of_parts. }
  assert (Hcase : (dict_get (config_id k) (_config_id_to_isk_to_budget r) = Some isks0
                   /\ isks0 <> [] /\ NoDup (map fst isks0))
                  \/ (dict_get (config_id k) (_config_id_to_isk_to_budget r) = None
                      /\ isks0 = [])).
  { unfold isks0, dict_get_default. norm_dict.
    destruct (dict_get (config_id k) (_config_id_to_isk_to_budget r)) as [isks|] eqn:Hi;
      [left|right; now split].
    destruct (zc_index r Hz _ isks Hi) as (Hne & Hnd & _). now split. }
  assert (Hdefn : n = match dict_get (config_id k) (_num_trials_per_config r) with
                      | Some m => m | None => 0 end) by reflexivity.
  clearbody isks0 n.
  assert (Hlook : forall i isk' bs isks,
             dict_get i (_config_id_to_isk_to_budget r) = Some isks ->
             In (isk', bs) isks ->
             bs = [Some PyFloat.zero]
             /\ exists v0 x0,
                  dict_get (indexed_key i isk' (Some PyFloat.zero)) (_data r') = Some v0
                  /\ cost v0 = CScalar x0).
  { intros i isk' bs isks Hi Hin.
    destruct (zc_index r Hz i isks Hi) as (_ & _ & _ & Hall).
    destruct (Hall isk' bs Hin) as (Hbs & v0 & x0 & Hv0 & Hx0).
    split; [exact Hbs|]. exists v0, x0. split; [|exact Hx0].
    rewrite Hd, dict_get_set_ne; [exact Hv0|]. intros Heq. congruence. }
  split.
  - split.
    + exact Ho.
    + intros k' v' Hin. rewrite Hd in Hin.
      apply dict_set_In_key in Hin as [Hin | [-> _]]; [exact (zc_budget r Hz k' v' Hin)|].
      exact Hb.
    + intros _. exact Hn.
    + intros i isks Hi. rewrite Hidx in Hi.
      destruct (decide (config_id k = i)) as [<-|Hne].
      * rewrite dict_get_set_eq in Hi. injection Hi as <-. rewrite Hsnoc.
        split; [now destruct isks0|]. split; [|split; [exact Hreg|]].
        -- rewrite map_app. cbn [map fst]. apply NoDup_snoc.
           ++ destruct Hcase as [(_ & _ & Hnd) | [_ ->]]; [exact Hnd|apply NoDup_nil_2].
           ++ exact (proj1 (dict_get_None_keys isk isks0) Hfresh).
        -- intros isk' bs Hin. apply in_app_or in Hin as [Hin | [[= <- <-] | []]].
           ++ destruct Hcase as [(Hi & _) | [_ ->]]; [|destruct Hin].
              exact (Hlook _ isk' bs isks0 Hi Hin).
           ++ split; [reflexivity|]. exists v, x. split; [|exact Hx].
              rewrite Hkey, Hd. apply dict_get_set_eq.
      * rewrite dict_get_set_ne in Hi by exact Hne.
        destruct (zc_index r Hz i isks Hi) as (Hne0 & Hnd & [c Hc0] & _).
        split; [exact Hne0|]. split; [exact Hnd|]. split; [exists c; now apply Hids|].
        intros isk' bs Hin. exact (Hlook i isk' bs isks Hi Hin).
  - intros i. unfold count_spec. rewrite Hidx, Hcost, Hnum.
    destruct (Hc i) as [Hni Hci]. unfold count_spec in Hni.
    destruct (decide (config_id k = i)) as [<-|Hne].
    + rewrite !dict_get_set_eq, Hsnoc, length_app. cbn [length]. split.
      * f_equal. destruct Hcase as [(Hi & _) | [Hi ->]];
          rewrite Hi in Hni; rewrite Hni in Hdefn; subst n; cbn [length]; lia.
      * intros c0 [= <-]. eauto.
    + rewrite !dict_get_set_ne by exact Hne. split; [exact Hni|exact Hci].
Qed.

Lemma cost_step_incremental (k : TrialKey) (v : TrialValue) (c0 : Configuration)
    (w : World) :
  _overwrite_existing_trials (self w) = false ->
  budget_eq_zero (tk_budget k) = true ->
  dict_get (config_id k) (_ids_config (self w)) = Some c0 ->
  cost_step k v w
  = incremental_update_cost c0 (cost v)
      {| self := self w;
         logged := (logged w ++ [{| level := DEBUG;
                                    message := "Incremental update cost for config" |}])%list;
         files := files w |}.
Proof.
  intros Ho Hb Hc. unfold cost_step.
  unfold bind at 1. unfold read at 1. cbn [fst snd]. rewrite Ho, Hb. cbn [negb andb].
  unfold bind at 1. unfold log at 1. cbn [fst snd].
  unfold bind at 1. unfold query at 1. cbn [fst snd self]. rewrite Hc. reflexivity.
Qed.

(** A ledger that differs from a budget-0 ledger in its registry only. *)
Lemma zero_frame (r r' : RunHistory) :
  zero_core r -> zero_caches r ->
  _data r' = _data r ->
  _overwrite_existing_trials r' = _overwrite_existing_trials r ->
  (_data r <> [] -> _n_objectives r' = 1) ->
  (forall i c, dict_get i (_ids_config r) = Some c -> dict_get i (_ids_config r') = Some c) ->
  _config_id_to_isk_to_budget r' = _config_id_to_isk_to_budget r ->
  _cost_per_config r' = _cost_per_config r ->
  _num_trials_per_config r' = _num_trials_per_config r ->
  zero_core r' /\ zero_caches r'.
Proof.
  intros Hz Hc Hd Ho Hn Hids Hidx Hcost Hnum. split.
  - split.
    + rewrite Ho. exact (zc_overwrite r Hz).
    + rewrite Hd. exact (zc_budget r Hz).
    + rewrite Hd. exact Hn.
    + intros i isks Hi. rewrite Hidx in Hi. rewrite Hd.
      destruct (zc_index r Hz i isks Hi) as (Hne & Hnd & [c Hc0] & Hall).
      split; [exact Hne|]. split; [exact Hnd|]. split; [exists c; now apply Hids|].
      exact Hall.
  - intros i. unfold count_spec. rewrite Hidx, Hcost, Hnum. exact (Hc i).
Qed.

Lemma register_ids_mono (config : Configuration) (r : RunHistory) (i : Z)
    (c : Configuration) :
  well_formed r ->
  dict_get i (_ids_config r) = Some c ->
  dict_get i (_ids_config (register config r)) = Some c.
Proof.
  intros Hwf Hc. unfold register.
  destruct (dict_get config (_config_ids r)) eqn:E; [exact Hc|].
  cbn. rewrite dict_get_set_ne; [exact Hc|].
  intros Heq. rewrite <- Heq in Hc.
  apply (wf_ids_config _ Hwf) in Hc. apply (wf_ids_bound _ Hwf) in Hc. lia.
Qed.

Lemma zero_registered (a : add_call) (w : World) :
  cardinality (call_cost a) = 1 ->
  well_formed (self w) -> zero_core (self w) -> zero_caches (self w) ->
  let r1 := register (call_config a) (self w) in
  let r2 := fix_objectives 1 r1 in
  (zero_core r1 /\ zero_caches r1) /\ (zero_core r2 /\ zero_caches r2).
Proof.
  intros Hcard Hwf Hz Hc r1 r2.
  destruct (register_caches (call_config a) 1 (self w)) as [Efix Ereg].
  cbv zeta in Efix. fold r1 r2 in Efix, Ereg.
  injection Efix as F1 F2 F3 F4. injection Ereg as R1 R2 R3 R4.
  destruct (fix_objectives_registry 1 r1) as (_ & Ei & _ & Ed & Eo). fold r2 in Ei, Ed, Eo.
  assert (Hd1 : _data r1 = _data (self w)) by apply register_data.
  assert (Ho1 : _overwrite_existing_trials r1 = _overwrite_existing_trials (self w))
    by apply register_overwrite.
  assert (Hn1 : _n_objectives r1 = _n_objectives (self w)) by apply register_n_objectives.
  split.
  - apply (zero_frame (self w)); auto.
    + intros Hne. rewrite Hn1. exact (zc_objectives _ Hz Hne).
    + intros i c. apply register_ids_mono, Hwf.
  - apply (zero_frame (self w)); auto.
    + congruence.
    + congruence.
    + intros Hne. unfold r2, fix_objectives.
      destruct (_n_objectives r1 =? -1); [reflexivity|].
      rewrite Hn1. exact (zc_objectives _ Hz Hne).
    + intros i c Hic. rewrite Ei. now apply register_ids_mono.
Qed.

(** A budget-0 call keeps the counts in step with the index. *)
Lemma zero_call (a : add_call) (w : World) :
  zero_budget_call a ->
  well_formed (self w) -> bounds_invariant (self w) ->
  zero_core (self w) -> zero_caches (self w) ->
  zero_core (self (snd (call a w))) /\ zero_caches (self (snd (call a w))).
Proof.
  intros (Hforce & Hcard & Hbud) Hwf Hbi Hz Hc.
  destruct (zero_registered a w Hcard Hwf Hz Hc) as [H1 [Hz2 Hc2]].
  destruct (call_cases_checked a w) as [[-> | ->] | (c & Hfl & Hn & _ & Hcond & Hrun)].
  - exact H1.
  - rewrite Hcard. now split.
  - rewrite Hcard in *.
    set (r2 := fix_objectives 1 (register (call_config a) (self w))) in *.
    set (k := key_of_call (self w) a) in *. set (v := value_of_call c a) in *.
    rewrite (zc_overwrite _ Hz), Hforce in Hcond. cbn [orb] in Hcond.
    apply negb_true_iff in Hcond. unfold dict_contains in Hcond.
    destruct (fix_objectives_registry 1 (register (call_config a) (self w)))
      as (Eci & Eic & _ & Ed & Eo). fold r2 in Eci, Eic, Ed, Eo.
    assert (Hk : dict_get k (_data r2) = None).
    { rewrite Ed, register_data. now destruct (dict_get k (_data (self w))). }
    assert (Hb : tk_budget k = Some PyFloat.zero) by now apply budget_zero_canonical.
    assert (Hx : exists x, cost v = CScalar x).
    { unfold v. cbn [cost value_of_call]. unfold to_floats in Hfl. cbn in Hfl.
      destruct (squeeze (call_cost a)); [|discriminate]. injection Hfl as <-. eauto. }
    destruct Hx as [x Hx].
    assert (Hid : dict_get (config_id k) (_ids_config r2) = Some (call_config a)).
    { rewrite Eic. now apply register_ids_config. }
    assert (Hcid : dict_get (call_config a) (_config_ids r2) = Some (config_id k)).
    { rewrite Eci. apply register_get. }
    assert (Hfit : costs_fit (set_data (dict_set k v (_data r2)) r2)).
    { assert (Hfit := call_insert_fits a w c Hbi). cbv zeta in Hfit.
      rewrite Hcard in Hfit. exact (Hfit Hfl Hn). }
    rewrite Hrun.
    assert (Hreg := _add_keeps_registry k v (call_status a) (call_origin a) (with_self w r2)).
    unfold registry in Hreg. cbn [self with_self] in Hreg.
    injection Hreg as Hreg1 Hreg2 Hreg3 Hreg4 Hreg5.
    destruct (registers_cost (call_origin a) (call_status a)) eqn:Hr.
    + rewrite (_add_run k v _ _ (with_self w r2) Hfit Hr). cbv zeta.
      cbn [self with_self].
      assert (Hfresh := zero_isk_fresh r2 k Hz2 Hk Hb).
      unfold budget_check, index_after. norm_dict. rewrite Hfresh.
      match goal with
      | |- context [cost_step k v ?w0] => set (w3 := w0)
      end.
      rewrite (cost_step_incremental k v (call_config a) w3);
        [|exact (zc_overwrite _ Hz2)|now rewrite Hb|exact Hid].
      destruct (Hc2 (config_id k)) as [Hnum Hcache].
      assert (Hold : exists old,
                 dict_get_default (config_id k) (CScalar (Fin 0)) (_cost_per_config r2)
                 = CScalar old).
      { unfold dict_get_default.
        destruct (dict_get (config_id k) (_cost_per_config r2)) as [c0|] eqn:E; [|eauto].
        destruct (Hcache c0 eq_refl) as [x0 ->]. eauto. }
      destruct Hold as [old Hold].
      assert (Hpos : 0 <= dict_get_default (config_id k) 0 (_num_trials_per_config r2)).
      { unfold dict_get_default. rewrite Hnum. unfold count_spec.
        destruct (dict_get (config_id k) (_config_id_to_isk_to_budget r2)); lia. }
      rewrite Hx.
      rewrite (incremental_update_cost_run (call_config a) x old (config_id k));
        [|exact Hcid|exact Hn|exact Hold|exact Hpos].
      cbv zeta. cbn [snd self with_self].
      apply (zero_insert_counted r2 _ k v x
               (PyFloat.np_div
                  (PyFloat.add
                     (PyFloat.mul old
                        (PyFloat.of_Z
                           (dict_get_default (config_id k) 0 (_num_trials_per_config r2))))
                     x)
                  (PyFloat.of_Z
                     (dict_get_default (config_id k) 0 (_num_trials_per_config r2) + 1)))
               Hz2 Hc2 Hk Hb Hx);
        try reflexivity.
      * exact (zc_overwrite _ Hz2).
      * exact Hn.
      * intros i c0 Hi. exact Hi.
      * exists (call_config a). exact Hid.
      * unfold w3. cbn [self with_self _config_id_to_isk_to_budget
                          set_config_id_to_isk_to_budget]. now rewrite Hb.
    + destruct (_add_unregistered k v _ _ Hr) as [Hkc Hkb].
      specialize (Hkc (with_self w r2)). specialize (Hkb (with_self w r2)).
      unfold caches, budgets in Hkc, Hkb. cbn [self with_self] in Hkc, Hkb.
      injection Hkc as Hkc1 _ Hkc3.
      apply (zero_insert_uncounted r2 _ k v Hz2 Hc2 Hk Hb).
      * now rewrite _add_data.
      * rewrite Hreg1. exact (zc_overwrite _ Hz2).
      * now rewrite Hreg5.
      * intros i c0 Hi. now rewrite Hreg3.
      * exact Hkb.
      * exact Hkc1.
      * exact Hkc3.
Qed.

End ZeroRuns.

(** ** Budget 0: what [update_costs] recomputes *)

Section ZeroRecompute.
Context `{Collaborators}.

Lemma max_observed_budget_zero :
  max_observed_budget [Some PyFloat.zero] = Ok [Some PyFloat.zero].
Proof. reflexivity. Qed.

Lemma get_trials_zero (r : RunHistory) (c : Configuration) (i : Z) :
  zero_core r ->
  dict_get c (_config_ids r) = Some i ->
  get_trials r c true
  = Ok (zero_keys (dict_get_default i [] (_config_id_to_isk_to_budget r))).
Proof.
  intros Hz Hc. unfold get_trials. rewrite Hc. unfold dict_get_default. norm_dict.
  destruct (dict_get i (_config_id_to_isk_to_budget r)) as [isks|] eqn:Hi; [|reflexivity].
  destruct (zc_index r Hz i isks Hi) as (_ & _ & _ & Hall).
  assert (Hmax : map_ok (fun kv : InstanceSeedKey * list (option pyfloat) =>
                           let? v := max_observed_budget (snd kv) in Ok (fst kv, v)) isks
                 = Ok (map (fun e => (fst e, [Some PyFloat.zero])) isks)).
  { clear Hi. induction isks as [|[isk bs] isks IH]; [reflexivity|].
    destruct (Hall isk bs (or_introl eq_refl)) as [-> _].
    cbn [map_ok map fst snd]. rewrite max_observed_budget_zero. cbn [obind].
    rewrite IH; [reflexivity|]. intros isk' bs' Hin. apply Hall. now right. }
  rewrite Hmax. cbn [obind]. f_equal. unfold zero_keys. clear.
  induction isks as [|e isks IH]; [reflexivity|]. cbn. f_equal. apply IH.
Qed.

Lemma fromkeys_acc_NoDup {K} `{EqDecision K} (seen l : list K) :
  NoDup l -> (forall x, In x l -> ~ In x seen) -> fromkeys_acc seen l = l.
Proof.
  revert seen. induction l as [|x l IH]; intros seen Hnd Hdis; [reflexivity|].
  apply NoDup_cons in Hnd as [Hx Hnd]. cbn.
  rewrite bool_decide_false.
  - f_equal. apply IH; [exact Hnd|].
    intros y Hy [<- | Hin]; [apply Hx; now apply list_elem_of_In|].
    apply (Hdis y); [now right|exact Hin].
  - rewrite list_elem_of_In. apply Hdis. now left.
Qed.

Lemma dict_fromkeys_NoDup {K} `{EqDecision K} (l : list K) :
  NoDup l -> dict_fromkeys l = l.
Proof. intros Hnd. apply fromkeys_acc_NoDup; [exact Hnd|]. intros x _ []. Qed.

Lemma zero_keys_NoDup (isks : dict InstanceSeedKey (list (option pyfloat))) :
  NoDup (map fst isks) -> NoDup (zero_keys isks).
Proof.
  unfold zero_keys. induction isks as [|[isk bs] isks IH]; cbn; [intros _; apply NoDup_nil_2|].
  intros Hnd. apply NoDup_cons in Hnd as [Hx Hnd]. apply NoDup_cons. split; [|now apply IH].
  intros Hin. apply Hx. apply list_elem_of_In in Hin. apply in_map_iff in Hin
    as ([isk' bs'] & Heq & Hin). cbn in Heq. injection Heq as Hi Hs.
  apply list_elem_of_In. apply in_map_iff. exists (isk', bs'). split; [|exact Hin].
  cbn. destruct isk, isk'; cbn in *; congruence.
Qed.

Lemma _cost_zero (r : RunHistory) (c : Configuration) (i : Z)
    (isks : dict InstanceSeedKey (list (option pyfloat))) :
  zero_core r ->
  dict_get c (_config_ids r) = Some i ->
  dict_get i (_config_id_to_isk_to_budget r) = Some isks ->
  exists xs, _cost r c (Some (zero_keys isks)) = Ok (map CScalar xs)
             /\ length xs = length isks.
Proof.
  intros Hz Hc Hi. unfold _cost. rewrite Hc. cbn [obind].
  destruct (zc_index r Hz i isks Hi) as (_ & _ & _ & Hall). clear Hi.
  unfold zero_keys.
  induction isks as [|[isk bs] isks IH]; [exists []; now split|].
  destruct (Hall isk bs (or_introl eq_refl)) as (_ & v & x & Hv & Hx).
  destruct IH as (xs & IH & Hlen); [intros isk' bs' Hin; apply Hall; now right|].
  exists (x :: xs). cbn [map map_ok fst isb_instance isb_seed isb_budget length].
  unfold indexed_key in Hv. rewrite Hv. cbn [subscript obind]. rewrite Hx, IH.
  split; [reflexivity|now rewrite Hlen].
Qed.

Lemma np_array_of_scalars (xs : list pyfloat) : np_array (map CScalar xs) = Ok (Arr1 xs).
Proof.
  unfold np_array.
  assert (E : all_some (map as_scalar (map CScalar xs)) = Some xs).
  { induction xs as [|x xs IH]; [reflexivity|]. cbn. now rewrite IH. }
  now rewrite E.
Qed.

Lemma average_cost_zero (r : RunHistory) (c : Configuration) (i : Z)
    (isks : dict InstanceSeedKey (list (option pyfloat))) :
  zero_core r ->
  dict_get c (_config_ids r) = Some i ->
  dict_get i (_config_id_to_isk_to_budget r) = Some isks ->
  exists a m,
    average_cost r c (Some (zero_keys isks)) false = Ok a
    /\ min_cost r c (Some (zero_keys isks)) false = Ok m.
Proof.
  intros Hz Hc Hi. unfold average_cost, min_cost.
  destruct (_cost_zero r c i isks Hz Hc Hi) as (xs & -> & Hlen).
  cbn [obind].
  destruct (zc_index r Hz i isks Hi) as (Hne & _ & _ & Hall).
  assert (Hn : _n_objectives r = 1).
  { apply (zc_objectives r Hz). destruct isks as [|[isk bs] isks]; [congruence|].
    destruct (Hall isk bs (or_introl eq_refl)) as (_ & v & x & Hv & _).
    intros Hnil. rewrite Hnil in Hv. discriminate Hv. }
  rewrite Hn. cbn [Z.ltb Z.compare Pos.compare Pos.compare_cont].
  unfold np_mean, np_min.
  destruct xs as [|x xs]; [destruct isks; [congruence|discriminate Hlen]|].
  rewrite np_array_of_scalars. cbn. eauto.
Qed.

(** One step of the loop of [update_costs], for a configuration of a
    budget-0 ledger: only the caches change, and the number of trials
    cached for the configuration's id is the one of the index. *)
Lemma update_costs_step_zero (c : Configuration) (i : Z) (w : World) :
  zero_core (self w) ->
  dict_get c (_config_ids (self w)) = Some i ->
  exists r',
    update_costs_step None (c, i) w = (Ok tt, with_self w r')
    /\ core r' = core (self w)
    /\ forall j,
         dict_get j (_num_trials_per_config r')
         = (if decide (i = j)
            then match count_spec (self w) i with
                 | Some n => Some n
                 | None => dict_get j (_num_trials_per_config (self w))
                 end
            else dict_get j (_num_trials_per_config (self w))).
Proof.
  intros Hz Hc. destruct w as [r lg fs]. cbn [self] in *.
  unfold update_costs_step. cbn [fst snd].
  unfold bind at 1. unfold query at 1. cbn [fst snd self].
  rewrite (get_trials_zero r c i Hz Hc). cbn [obind].
  unfold count_spec, dict_get_default. norm_dict.
  destruct (dict_get i (_config_id_to_isk_to_budget r)) as [isks|] eqn:Hi.
  - destruct (zc_index r Hz i isks Hi) as (Hne & Hnd & _).
    rewrite (dict_fromkeys_NoDup _ (zero_keys_NoDup isks Hnd)).
    destruct (average_cost_zero r c i isks Hz Hc Hi) as (a & m & Havg & Hmin).
    destruct (zero_keys isks) as [|key keys] eqn:Hkeys.
    { destruct isks; [congruence|discriminate Hkeys]. }
    unfold bind at 1. unfold query at 1. cbn [fst snd self]. rewrite Havg.
    unfold bind at 1. unfold modify at 1. cbn [fst snd self logged files].
    unfold bind at 1. unfold query at 1. cbn [fst snd self].
    match goal with
    | |- context [min_cost ?r0 c ?ks false] =>
        change (min_cost r0 c ks false) with (min_cost r c ks false)
    end.
    rewrite Hmin.
    unfold bind at 1. unfold modify at 1. cbn [fst snd self logged files].
    unfold modify at 1. cbn [fst snd self logged files].
    eexists. split; [reflexivity|]. split; [reflexivity|].
    intros j. cbn [_cost_per_config _num_trials_per_config set_cost_per_config
                    set_min_cost_per_config set_num_trials_per_config].
    assert (Hlen : length (key :: keys) = length isks).
    { rewrite <- Hkeys. unfold zero_keys. apply length_map. }
    rewrite Hlen.
    destruct (decide (i = j)) as [<-|Hne'].
    + now rewrite !dict_get_set_eq.
    + now rewrite !dict_get_set_ne.
  - cbn. exists r. split; [reflexivity|]. split; [reflexivity|].
    intros j. now destruct (decide (i = j)).
Qed.

Lemma zero_core_of_core (r r' : RunHistory) :
  core r' = core r -> zero_core r ->
  zero_core r' /\ (forall j, count_spec r' j = count_spec r j).
Proof.
  unfold core. intros [= Hd Hi Hc Hic Hn Ho] Hz. split.
  - split; rewrite ?Hd, ?Hi, ?Hic, ?Hn, ?Ho; apply Hz.
  - intros j. unfold count_spec. now rewrite Hi.
Qed.

Lemma update_costs_loop (r : RunHistory) :
  zero_core r ->
  NoDup (map fst (_config_ids r)) -> NoDup (map snd (_config_ids r)) ->
  forall (todo done : dict Configuration Z) (w : World),
    (done ++ todo)%list = _config_ids r ->
    core (self w) = core r ->
    (forall j, dict_get j (_num_trials_per_config (self w))
               = (if bool_decide (j ∈ map snd done) then count_spec r j else None)) ->
    exists w',
      for_each todo (update_costs_step None) w = (Ok tt, w')
      /\ forall j,
           dict_get j (_num_trials_per_config (self w'))
           = (if bool_decide (j ∈ map snd (_config_ids r)) then count_spec r j else None).
Proof.
  intros Hz Hndc Hndi. induction todo as [|[c i] todo IH]; intros done w Hsplit Hcore Hinv.
  - exists w. split; [reflexivity|]. rewrite app_nil_r in Hsplit. now subst done.
  - destruct (zero_core_of_core r (self w) Hcore Hz) as [Hzw Hspec].
    assert (Hin : In (c, i) (_config_ids r)).
    { rewrite <- Hsplit. apply in_or_app. right. now left. }
    assert (Hc : dict_get c (_config_ids (self w)) = Some i).
    { injection Hcore as _ _ -> _ _ _. now apply In_dict_get. }
    destruct (update_costs_step_zero c i w Hzw Hc) as (r' & Hstep & Hcore' & Hcaches).
    assert (Hfresh : ~ In i (map snd done)).
    { rewrite <- Hsplit, map_app in Hndi. apply NoDup_app in Hndi as (_ & Hdis & _).
      intros Hi. apply (Hdis i); [now apply list_elem_of_In|].
      apply list_elem_of_In. now left. }
    destruct (IH (done ++ [(c, i)])%list (with_self w r')) as (w' & Hrun & Hfinal).
    + now rewrite <- app_assoc.
    + cbn [self with_self]. congruence.
    + intros j. cbn [self with_self]. rewrite (Hcaches j).
      assert (Hnj := Hinv j). rewrite (Hspec i).
      rewrite map_app. cbn [map snd].
      destruct (decide (i = j)) as [<-|Hne].
      * rewrite bool_decide_true by (apply list_elem_of_In, in_or_app; right; now left).
        rewrite Hnj. rewrite bool_decide_false by now rewrite list_elem_of_In.
        now destruct (count_spec r i).
      * rewrite Hnj.
        assert (Hb : bool_decide (j ∈ (map snd done ++ [i])%list)
                     = bool_decide (j ∈ map snd done)).
        { apply bool_decide_ext. rewrite !list_elem_of_In, in_app_iff. cbn. tauto. }
        now rewrite Hb.
    + exists w'. split; [|exact Hfinal].
      cbn [for_each]. unfold bind. now rewrite Hstep.
Qed.

Lemma update_costs_zero (w : World) :
  well_formed (self w) -> registry_consistent (self w) -> zero_core (self w) ->
  exists w',
    update_costs None w = (Ok tt, w')
    /\ forall j, dict_get j (_num_trials_per_config (self w')) = count_spec (self w) j.
Proof.
  intros Hwf (Hmirror & Hids & _ & Hnd) Hz.
  assert (Hndi : NoDup (map snd (_config_ids (self w)))).
  { rewrite Hids. apply NoDup_fmap_2; [intros a b; lia|]. apply NoDup_ListNoDup, seq_NoDup. }
  unfold update_costs.
  unfold bind at 1. unfold modify at 1. cbn [fst snd self logged files].
  unfold bind at 1. unfold modify at 1. cbn [fst snd self logged files].
  unfold bind at 1. unfold read at 1. cbn [fst snd self].
  match goal with
  | |- context [for_each ?l ?body ?w0] =>
      destruct (update_costs_loop (self w) Hz Hnd Hndi l [] w0) as (w' & Hrun & Hfinal)
  end.
  - reflexivity.
  - reflexivity.
  - intros j. reflexivity.
  - exists w'. split; [exact Hrun|].
    intros j. rewrite (Hfinal j).
    unfold count_spec.
    destruct (dict_get j (_config_id_to_isk_to_budget (self w))) as [isks|] eqn:Hi;
      [|now destruct (bool_decide _)].
    destruct (zc_index _ Hz j isks Hi) as (_ & _ & [c Hc] & _).
    apply (wf_ids_config _ Hwf) in Hc. apply dict_get_In in Hc.
    rewrite bool_decide_true; [reflexivity|].
    apply list_elem_of_In. change j with (snd (c, j)). now apply in_map.
Qed.

End ZeroRecompute.

(** ** Budget 0: the trial counts against a recomputation *)

Section ZeroTheorem.
Context `{Collaborators}.

Lemma zero_after_calls (calls : list add_call) (w : World) :
  reachable w -> Forall zero_budget_call calls ->
  zero_core (self w) -> zero_caches (self w) ->
  zero_core (self (after_calls calls w)) /\ zero_caches (self (after_calls calls w)).
Proof.
  revert w. induction calls as [|a calls IH]; intros w Hw Hall Hz Hc; [now split|].
  apply Forall_cons_iff in Hall as [Ha Hall].
  cbn [after_calls fold_left]. fold (after_calls calls (snd (call a w))).
  destruct (zero_call a w Ha (reachable_well_formed w Hw)
              (reachable_bounds_invariant w Hw) Hz Hc) as [Hz' Hc'].
  apply IH; [now apply reachable_call|exact Hall|exact Hz'|exact Hc'].
Qed.

Lemma zero_init (lg : list log_record) (fs : dict string file) :
  zero_core (RunHistory_init false) /\ zero_caches (RunHistory_init false).
Proof.
  split.
  - split.
    + reflexivity.
    + intros k v Hin. destruct Hin.
    + cbn. congruence.
    + intros i isks Hi. discriminate Hi.
  - intros i. split; [reflexivity|]. intros c Hc. discriminate Hc.
Qed.

(** X14. The trial counts the incremental update keeps are the ones a
    recomputation finds: in a ledger that does not overwrite, after any
    sequence of [add] calls that all have one objective and budget 0 and
    none of which is forced, [update_costs] returns normally and leaves,
    for every configuration id, the number of trials that
    [incremental_update_cost] has counted.  Calls may fail, repeat a key,
    or record trials that do not count. *)
Theorem budget_zero_trial_counts_match_recomputation (calls : list add_call)
    (lg : list log_record) (fs : dict string file) :
  Forall zero_budget_call calls ->
  let w := after_calls calls {| self := RunHistory_init false; logged := lg;
                                files := fs |} in
  fst (update_costs None w) = Ok tt
  /\ forall i,
       dict_get i (_num_trials_per_config (self (snd (update_costs None w))))
       = dict_get i (_num_trials_per_config (self w)).
Proof.
  intros Hall w.
  assert (Hw : reachable w) by apply reachable_after_calls, reachable_init.
  destruct (zero_init lg fs) as [Hz0 Hc0].
  destruct (zero_after_calls calls _ (reachable_init false lg fs) Hall Hz0 Hc0)
    as [Hz Hc].
  fold w in Hz, Hc.
  destruct (update_costs_zero w (reachable_well_formed w Hw)
              (registry_consistent_reachable w Hw) Hz) as (w' & Hrun & Hfinal).
  rewrite Hrun. cbn [fst snd]. split; [reflexivity|].
  intros i. rewrite (Hfinal i). symmetry. exact (proj1 (Hc i)).
Qed.

End ZeroTheorem.

(** ** Properties kept by the methods *)

Section Preserved.
Context `{Collaborators}.

Lemma preserves_ret {A} (P : World -> Prop) (a : A) : preserves P (ret a).
Proof. intros w Hw. exact Hw. Qed.

Lemma preserves_raise {A} (P : World -> Prop) e : preserves P (@raise _ A e).
Proof. intros w Hw. exact Hw. Qed.

Lemma preserves_bind {A B} (P : World -> Prop) (m : M A) (k : A -> M B) :
  preserves P m -> (forall a, preserves P (k a)) -> preserves P (bind m k).
Proof.
  intros Hm Hk w Hw. unfold bind. specialize (Hm w Hw).
  destruct (m w) as [[a|e] w']; cbn [snd] in *; [now apply Hk|exact Hm].
Qed.

Lemma preserves_read_bind {A B} (P : World -> Prop) (f : RunHistory -> A) (k : A -> M B) :
  (forall w, P w -> P (snd (k (f (self w)) w))) -> preserves P (bind (read f) k).
Proof. intros Hk w Hw. unfold bind, read. cbn. now apply Hk. Qed.

Lemma preserves_query_bind {A B} (P : World -> Prop) (f : RunHistory -> outcome A)
    (k : A -> M B) :
  (forall w a, P w -> f (self w) = Ok a -> P (snd (k a w))) ->
  preserves P (bind (query f) k).
Proof.
  intros Hk w Hw. unfold bind, query. cbn.
  destruct (f (self w)) as [a|e] eqn:E; [now apply (Hk w a)|exact Hw].
Qed.

Lemma preserves_keeps {A B} (P : World -> Prop) (proj : World -> B) (m : M A) :
  keeps proj m -> (forall w w', proj w' = proj w -> P w -> P w') -> preserves P m.
Proof. intros Hk HP w Hw. exact (HP w _ (Hk w) Hw). Qed.

Lemma preserves_modify (P : World -> Prop) (f : RunHistory -> RunHistory) :
  (forall w, P w -> P (with_self w (f (self w)))) -> preserves P (modify f).
Proof. intros Hf w Hw. exact (Hf w Hw). Qed.

End Preserved.

(** ** The cache of minimal costs under budget 0 *)

Section MinCache.
Context `{Collaborators}.

Lemma keeps_min_overwrite {A} (m0 : dict Z cost_t) (m : M A) :
  keeps (fun w => (_overwrite_existing_trials (self w), _min_cost_per_config (self w))) m ->
  preserves (fun w => _overwrite_existing_trials (self w) = false
                      /\ _min_cost_per_config (self w) = m0) m.
Proof.
  intros Hk. apply (preserves_keeps _ _ m Hk). intros w w' [= -> ->] Hw. exact Hw.
Qed.

Lemma incremental_update_cost_keeps_min config cost :
  keeps (fun w => (_overwrite_existing_trials (self w), _min_cost_per_config (self w)))
        (incremental_update_cost config cost).
Proof. unfold incremental_update_cost. frame. Qed.

Lemma _update_objective_bounds_keeps_min :
  keeps (fun w => (_overwrite_existing_trials (self w), _min_cost_per_config (self w)))
        _update_objective_bounds.
Proof. unfold _update_objective_bounds. frame. Qed.

Lemma _add_keeps_min (k : TrialKey) (v : TrialValue) (status : StatusType)
    (origin : DataOrigin) (m0 : dict Z cost_t) :
  budget_eq_zero (tk_budget k) = true ->
  preserves (fun w => _overwrite_existing_trials (self w) = false
                      /\ _min_cost_per_config (self w) = m0)
            (_add k v status origin).
Proof.
  intros Hb. unfold _add.
  apply preserves_bind; [apply keeps_min_overwrite; frame|intros _].
  apply preserves_bind; [apply keeps_min_overwrite; frame|intros _].
  apply preserves_bind;
    [apply keeps_min_overwrite, _update_objective_bounds_keeps_min|intros _].
  destruct (registers_cost origin status); [|apply preserves_ret].
  apply preserves_bind; [apply keeps_min_overwrite; frame|intros _].
  apply preserves_bind; [apply keeps_min_overwrite; frame|intros recorded].
  apply preserves_bind; [apply keeps_min_overwrite; frame|intros _].
  apply preserves_bind; [apply keeps_min_overwrite; frame|intros _].
  apply preserves_read_bind. intros w [Ho Hm]. rewrite Ho, Hb. cbn [negb andb].
  revert w Ho Hm.
  assert (Hp : preserves (fun w => _overwrite_existing_trials (self w) = false
                                   /\ _min_cost_per_config (self w) = m0)
                 (log DEBUG "Incremental update cost for config" ;;;
                  let* config := query (fun r => subscript (dict_get (config_id k)
                                                              (_ids_config r))
                                                           "config id") in
                  incremental_update_cost config (cost v))).
  { apply keeps_min_overwrite. frame; apply incremental_update_cost_keeps_min. }
  intros w Ho Hm. apply Hp. now split.
Qed.

Lemma call_keeps_min (a : add_call) (w : World) (m0 : dict Z cost_t) :
  at_budget_zero a ->
  _overwrite_existing_trials (self w) = false /\ _min_cost_per_config (self w) = m0 ->
  _overwrite_existing_trials (self (snd (call a w))) = false
  /\ _min_cost_per_config (self (snd (call a w))) = m0.
Proof.
  intros Hb [Ho Hm].
  destruct (register_caches (call_config a) (cardinality (call_cost a)) (self w))
    as [Efix Ereg].
  cbv zeta in Efix. injection Efix as _ F2 _ _. injection Ereg as _ R2 _ _.
  destruct (fix_objectives_registry (cardinality (call_cost a))
              (register (call_config a) (self w))) as (_ & _ & _ & _ & Eo).
  assert (Ho1 := register_overwrite (call_config a) (self w)).
  destruct (call_cases a w) as [[-> | ->] | (c & Hc & Hn & Hrun)].
  - split; congruence.
  - split; congruence.
  - rewrite Hrun. apply (_add_keeps_min _ _ _ _ m0); [exact Hb|].
    cbn [self with_self]. split; congruence.
Qed.

(** X15. The incremental path never writes the cache of minimal costs: in
    a ledger that does not overwrite, after any sequence of [add] calls
    with budget 0 (any cost, status, origin, forced or not) the cache
    [_min_cost_per_config] is still empty, so that with at most one
    objective [get_min_cost] answers [nan] for every configuration,
    whatever trials were recorded. *)
Theorem min_cost_cache_stays_empty (calls : list add_call) (lg : list log_record)
    (fs : dict string file) :
  Forall at_budget_zero calls ->
  let w := after_calls calls {| self := RunHistory_init false; logged := lg;
                                files := fs |} in
  _min_cost_per_config (self w) = []
  /\ forall config, _n_objectives (self w) <= 1 -> get_min_cost (self w) config = Ok NaN.
Proof.
  intros Hall w.
  assert (Hinv : _overwrite_existing_trials (self w) = false
                 /\ _min_cost_per_config (self w) = []).
  { subst w.
    assert (H0 : _overwrite_existing_trials
                   (self {| self := RunHistory_init false; logged := lg; files := fs |})
                 = false
                 /\ _min_cost_per_config
                      (self {| self := RunHistory_init false; logged := lg; files := fs |})
                    = []) by now split.
    revert H0. generalize {| self := RunHistory_init false; logged := lg; files := fs |}.
    induction Hall as [|a calls Ha Hall IH]; intros w0 Hw0; [exact Hw0|].
    cbn [after_calls fold_left]. apply IH. now apply call_keeps_min. }
  destruct Hinv as [_ Hmin]. split; [exact Hmin|].
  intros config Hn. unfold get_min_cost. rewrite Hmin.
  assert (E : (1 <? _n_objectives (self w)) = false) by (apply Z.ltb_ge; lia).
  rewrite E. unfold cache_get, dict_get_default.
  now destruct (dict_get config (_config_ids (self w))).
Qed.

End MinCache.

(** ** The cached costs with at most one objective *)

Section ScalarCaches.
Context `{Collaborators}.

#[local] Arguments _add : simpl never.

Lemma shaped_keeps {A} (n0 : Z) (m : M A) :
  keeps (fun w => (_n_objectives (self w), _cost_per_config (self w))) m ->
  preserves (shaped n0) m.
Proof.
  intros Hk. apply (preserves_keeps _ _ m Hk). intros w w' [= Hn Hc] [Hn0 Hs].
  unfold shaped. now rewrite Hn, Hc.
Qed.

Lemma shaped_set (n0 : Z) (i : Z) (c : cost_t) :
  (n0 <= 1 -> exists x, c = CScalar x) ->
  preserves (shaped n0)
    (modify (fun r => set_cost_per_config (dict_set i c (_cost_per_config r)) r)).
Proof.
  intros Hc. apply preserves_modify. intros w [Hn Hs]. split; [exact Hn|].
  intros Hle j c' Hj. cbn [self with_self _cost_per_config set_cost_per_config] in Hj.
  destruct (decide (i = j)) as [<-|Hne].
  - rewrite dict_get_set_eq in Hj. injection Hj as <-. now apply Hc.
  - rewrite dict_get_set_ne in Hj by exact Hne. exact (Hs Hle j c' Hj).
Qed.

Lemma average_cost_scalar (r : RunHistory) (config : Configuration)
    (keys : option (list InstanceSeedBudgetKey)) (a : cost_t) :
  _n_objectives r <= 1 -> average_cost r config keys false = Ok a ->
  exists x, a = CScalar x.
Proof.
  intros Hn. unfold average_cost.
  destruct (_cost r config keys) as [[|c costs]|e]; cbn [obind]; try discriminate.
  - intros [= <-]. eauto.
  - assert (E : (1 <? _n_objectives r) = false) by (apply Z.ltb_ge; lia). rewrite E.
    destruct (np_mean (c :: costs)); cbn [obind]; [|discriminate].
    intros [= <-]. eauto.
Qed.

Lemma update_cost_shaped (n0 : Z) (config : Configuration) :
  preserves (shaped n0) (update_cost config).
Proof.
  unfold update_cost.
  apply preserves_bind; [apply shaped_keeps; frame|intros id].
  apply preserves_bind; [apply shaped_keeps; frame|intros isb].
  apply preserves_query_bind.
  assert (Hrest : forall avg, (n0 <= 1 -> exists x, avg = CScalar x) ->
            preserves (shaped n0)
              (modify (fun r => set_cost_per_config
                                  (dict_set id avg (_cost_per_config r)) r) ;;;
               modify (fun r => set_num_trials_per_config
                                  (dict_set id (Z.of_nat (length isb))
                                            (_num_trials_per_config r)) r) ;;;
               let* all_isb :=
                 query (fun r => let? t := get_trials r config false in
                                 Ok (dict_fromkeys t)) in
               let* minimum := query (fun r => min_cost r config (Some all_isb) false) in
               modify (fun r => set_min_cost_per_config
                                  (dict_set id minimum (_min_cost_per_config r)) r))).
  { intros avg Havg. apply preserves_bind; [now apply shaped_set|intros _].
    apply shaped_keeps. frame. }
  intros w avg Hw Havg. apply Hrest; [|exact Hw].
  intros Hle. destruct Hw as [Hn _]. rewrite <- Hn in Hle.
  exact (average_cost_scalar _ _ _ _ Hle Havg).
Qed.

Lemma incremental_update_cost_shaped (n0 : Z) (config : Configuration) (cost : cost_t) :
  preserves (shaped n0) (incremental_update_cost config cost).
Proof.
  unfold incremental_update_cost.
  apply preserves_bind; [apply shaped_keeps; frame|intros id].
  apply preserves_bind; [apply shaped_keeps; frame|intros n_trials].
  apply preserves_read_bind. intros w Hw. revert w Hw.
  enough (Hp : forall n, (n = n0) ->
            preserves (shaped n0)
              ((if 1 <? n
                then
                  let* old_costs :=
                    read (fun r => dict_get_default id
                                     (CList (repeat (Fin 0) (Z.to_nat n)))
                                     (_cost_per_config r)) in
                  let* scaled :=
                    lift (np_broadcast PyFloat.mul old_costs
                                       (CScalar (PyFloat.of_Z n_trials))) in
                  let* summed := lift (np_broadcast PyFloat.add scaled cost) in
                  let* new_costs :=
                    lift (np_broadcast PyFloat.np_div summed
                                       (CScalar (PyFloat.of_Z (n_trials + 1)))) in
                  modify (fun r => set_cost_per_config
                                     (dict_set id new_costs (_cost_per_config r)) r)
                else
                  let* old_cost :=
                    read (fun r => dict_get_default id (CScalar (Fin 0))
                                                    (_cost_per_config r)) in
                  match cost, old_cost with
                  | CScalar c, CScalar old =>
                      if n_trials + 1 =? 0 then raise ZeroDivisionError
                      else
                        modify (fun r =>
                          set_cost_per_config
                            (dict_set id
                               (CScalar (PyFloat.np_div
                                           (PyFloat.add
                                              (PyFloat.mul old (PyFloat.of_Z n_trials)) c)
                                           (PyFloat.of_Z (n_trials + 1))))
                               (_cost_per_config r)) r)
                  | _, _ => raise AssertionError
                  end) ;;;
               modify (fun r => set_num_trials_per_config
                                  (dict_set id (n_trials + 1)
                                            (_num_trials_per_config r)) r))).
  { intros w Hw. apply Hp; [exact (proj1 Hw)|exact Hw]. }
  intros n Hn. apply preserves_bind; [|intros _; apply shaped_keeps; frame].
  destruct (1 <? n) eqn:E.
  - apply Z.ltb_lt in E.
    apply preserves_bind; [apply shaped_keeps; frame|intros old].
    apply preserves_bind; [apply shaped_keeps; frame|intros scaled].
    apply preserves_bind; [apply shaped_keeps; frame|intros summed].
    apply preserves_bind; [apply shaped_keeps; frame|intros new_costs].
    apply shaped_set. intros Hle. lia.
  - apply preserves_bind; [apply shaped_keeps; frame|intros old].
    destruct cost as [c|l]; [|apply preserves_raise].
    destruct old as [o|l]; [|apply preserves_raise].
    destruct (n_trials + 1 =? 0); [apply preserves_raise|].
    apply shaped_set. eauto.
Qed.

Lemma _add_shaped (n0 : Z) k v status origin :
  preserves (shaped n0) (_add k v status origin).
Proof.
  unfold _add.
  apply preserves_bind; [apply shaped_keeps; frame|intros _].
  apply preserves_bind; [apply shaped_keeps; frame|intros _].
  apply preserves_bind.
  { apply shaped_keeps. unfold _update_objective_bounds. frame. }
  intros _. destruct (registers_cost origin status); [|apply preserves_ret].
  apply preserves_bind; [apply shaped_keeps; frame|intros _].
  apply preserves_bind; [apply shaped_keeps; frame|intros recorded].
  apply preserves_bind; [apply shaped_keeps; frame|intros _].
  apply preserves_bind; [apply shaped_keeps; frame|intros _].
  apply preserves_bind; [apply shaped_keeps; frame|intros overwrite].
  destruct (negb overwrite && budget_eq_zero (tk_budget k)).
  - apply preserves_bind; [apply shaped_keeps; frame|intros _].
    apply preserves_bind; [apply shaped_keeps; frame|intros config].
    apply incremental_update_cost_shaped.
  - apply preserves_bind; [apply shaped_keeps; frame|intros _].
    apply preserves_bind; [apply shaped_keeps; frame|intros config].
    apply update_cost_shaped.
Qed.

Lemma scalar_caches_call (a : add_call) (w : World) :
  scalar_caches (self w) -> scalar_caches (self (snd (call a w))).
Proof.
  intros [Hempty Hscalar].
  set (r1 := register (call_config a) (self w)).
  set (n := cardinality (call_cost a)).
  assert (Hn1 : _n_objectives r1 = _n_objectives (self w)) by apply register_n_objectives.
  destruct (register_caches (call_config a) n (self w)) as [Efix Ereg].
  cbv zeta in Efix. fold r1 in Efix, Ereg.
  injection Efix as F1 _ _ _. injection Ereg as R1 _ _ _.
  assert (H1 : scalar_caches r1).
  { split; rewrite Hn1, R1; assumption. }
  assert (Hpos : 0 <= n) by apply np_size_nonneg.
  assert (H2 : scalar_caches (fix_objectives n r1)).
  { unfold fix_objectives. destruct (_n_objectives r1 =? -1) eqn:E; [|exact H1].
    apply Z.eqb_eq in E. rewrite Hn1 in E.
    split; cbn [_n_objectives _cost_per_config set_n_objectives]; [lia|].
    intros _ i c. rewrite R1, (Hempty E). discriminate. }
  destruct (call_cases a w) as [[-> | ->] | (c & Hc & Hn & Hrun)]; [exact H1|exact H2|].
  fold r1 n in Hn, Hrun. rewrite Hrun.
  assert (Hs : shaped n (with_self w (fix_objectives n r1))).
  { split; [exact Hn|]. intros Hle. apply (proj2 H2). cbn [self with_self]. lia. }
  match goal with
  | |- context [_add ?k0 ?v0 ?s0 ?o0 ?w0] => apply (_add_shaped n k0 v0 s0 o0) in Hs
  end.
  destruct Hs as [Hn' Hs]. split.
  - rewrite Hn'. lia.
  - rewrite Hn'. exact Hs.
Qed.

Lemma reachable_scalar_caches (w : World) : reachable w -> scalar_caches (self w).
Proof.
  induction 1 as [ow lg fs|a w Hw IH].
  - split; [reflexivity|]. intros _ i c Hi. discriminate Hi.
  - now apply scalar_caches_call.
Qed.

Lemma get_cost_scalar (r : RunHistory) (config : Configuration) :
  scalar_caches r -> _n_objectives r <= 1 -> exists x, get_cost r config = Ok x.
Proof.
  intros [_ Hs] Hn. unfold get_cost.
  assert (E : (1 <? _n_objectives r) = false) by (apply Z.ltb_ge; lia). rewrite E.
  unfold cache_get, dict_get_default.
  destruct (dict_get config (_config_ids r)) as [i|]; [|eauto].
  destruct (dict_get i (_cost_per_config r)) as [c|] eqn:Hc; [|eauto].
  destruct (Hs Hn i c Hc) as [x ->]. eauto.
Qed.

(** X16. With at most one objective, reading the cached cost never fails
    on a ledger built by [add]: [get_cost] returns a float for every
    configuration, registered or not, and [get_incumbent] returns. *)
Theorem single_objective_costs_are_readable (w : World) :
  reachable w -> _n_objectives (self w) <= 1 ->
  (forall config, exists x, get_cost (self w) config = Ok x)
  /\ exists incumbent, get_incumbent (self w) = Ok incumbent.
Proof.
  intros Hw Hn. assert (Hs := reachable_scalar_caches w Hw).
  split; [intros config; now apply get_cost_scalar|].
  unfold get_incumbent. generalize (@None Configuration) PInf.
  induction (dict_keys (_config_ids (self w))) as [|config configs IH];
    intros incumbent lowest; cbn [incumbent_scan]; [eauto|].
  destruct (get_cost_scalar (self w) config Hs Hn) as [x ->]. cbn [obind].
  destruct (PyFloat.ltb x lowest); apply IH.
Qed.

End ScalarCaches.

(** ** The instance check of [_add] *)

Section RaisesOnly.
Context `{Collaborators}.
Variable ok : exn -> Prop.

Lemma raises_only_obind {A B} (r : outcome A) (k : A -> outcome B) :
  raises_only ok r -> (forall a, raises_only ok (k a)) -> raises_only ok (obind r k).
Proof. destruct r; simpl; auto. Qed.

Lemma raises_only_map_ok {A B} (f : A -> outcome B) (l : list A) :
  (forall x, raises_only ok (f x)) -> raises_only ok (map_ok f l).
Proof.
  intros Hf. induction l as [|x l IH]; simpl; [exact I|].
  apply raises_only_obind; [apply Hf|]. intros y.
  apply raises_only_obind; [apply IH|]. intros ys. exact I.
Qed.

Lemma only_raises_ret {A} (a : A) : only_raises ok (ret a).
Proof. intros w. exact I. Qed.

Lemma only_raises_lift {A} (r : outcome A) : raises_only ok r -> only_raises ok (lift r).
Proof. intros Hr w. exact Hr. Qed.

Lemma only_raises_read {A} (f : RunHistory -> A) : only_raises ok (read f).
Proof. intros w. exact I. Qed.

Lemma only_raises_query {A} (f : RunHistory -> outcome A) :
  (forall r, raises_only ok (f r)) -> only_raises ok (query f).
Proof. intros Hf w. apply Hf. Qed.

Lemma only_raises_modify f : only_raises ok (modify f).
Proof. intros w. exact I. Qed.

Lemma only_raises_log l msg : only_raises ok (log l msg).
Proof. intros w. exact I. Qed.

Lemma only_raises_raise {A} e : ok e -> only_raises ok (@raise _ A e).
Proof. intros He w. exact He. Qed.

Lemma only_raises_bind {A B} (m : M A) (k : A -> M B) :
  only_raises ok m -> (forall a, only_raises ok (k a)) -> only_raises ok (bind m k).
Proof.
  intros Hm Hk w. unfold bind. specialize (Hm w).
  destruct (m w) as [[a|e] w']; simpl in *; [apply Hk|assumption].
Qed.

Lemma only_raises_for_each {A} (l : list A) (body : A -> M unit) :
  (forall x, only_raises ok (body x)) -> only_raises ok (for_each l body).
Proof.
  intros Hb. induction l as [|x l IH]; simpl.
  - apply only_raises_ret.
  - apply only_raises_bind; [apply Hb|intros _; apply IH].
Qed.

End RaisesOnly.

(** An exception of another class, or with another message, is not the
    one of the instance check. *)
Ltac other_exception :=
  unfold not_mixed_instances, mixed_instances, cardinality_message; cbn; discriminate.

Ltac raises_only :=
  repeat first
    [ exact I
    | apply raises_only_obind; [|intros ?]
    | apply raises_only_map_ok; intros ?
    | match goal with
      | |- raises_only _ (Ok _) => exact I
      | |- raises_only _ (Raise _) => simpl; other_exception
      | |- raises_only _ (subscript ?o _) => destruct o; simpl; [exact I|other_exception]
      | |- raises_only _ (assert ?b) => destruct b; simpl; [exact I|other_exception]
      | |- raises_only _ (if ?b then _ else _) => destruct b
      | |- raises_only _ (match ?x with _ => _ end) => destruct x
      end ].

Ltac only_raises :=
  repeat first
    [ apply only_raises_ret | apply only_raises_read | apply only_raises_modify
    | apply only_raises_log
    | apply only_raises_raise; other_exception
    | apply only_raises_lift; raises_only
    | apply only_raises_query; intros ?; raises_only
    | apply only_raises_bind; [|intros ?]
    | apply only_raises_for_each; intros ?
    | match goal with
      | |- only_raises _ (if ?b then _ else _) => destruct b
      | |- only_raises _ (match ?x with _ => _ end) => destruct x
      end ].

Section InstanceCheck.
Context `{Collaborators}.

#[local] Arguments _add : simpl never.

Lemma np_array_quiet costs : raises_only not_mixed_instances (np_array costs).
Proof. unfold np_array. raises_only. Qed.

Lemma get_trials_quiet r config b : raises_only not_mixed_instances (get_trials r config b).
Proof. unfold get_trials, max_observed_budget. raises_only. Qed.

Lemma _cost_quiet r config keys : raises_only not_mixed_instances (_cost r config keys).
Proof.
  unfold _cost. destruct (dict_get config (_config_ids r)); [|exact I].
  apply raises_only_obind.
  - destruct keys; [exact I|apply get_trials_quiet].
  - intros l. raises_only.
Qed.

Lemma average_cost_quiet r config keys : raises_only not_mixed_instances (average_cost r config keys false).
Proof.
  unfold average_cost. apply raises_only_obind; [apply _cost_quiet|]. intros [|c l]; [exact I|].
  unfold np_mean_axis0, np_mean.
  destruct (1 <? _n_objectives r);
    (apply raises_only_obind; [apply raises_only_obind; [apply np_array_quiet|]|]);
    intros; raises_only.
Qed.

Lemma min_cost_quiet r config keys : raises_only not_mixed_instances (min_cost r config keys false).
Proof.
  unfold min_cost. apply raises_only_obind; [apply _cost_quiet|]. intros [|c l]; [exact I|].
  unfold np_min_axis0, np_min.
  destruct (1 <? _n_objectives r);
    (apply raises_only_obind; [apply raises_only_obind; [apply np_array_quiet|]|]);
    intros; raises_only.
Qed.

Lemma update_cost_quiet config : only_raises not_mixed_instances (update_cost config).
Proof.
  unfold update_cost.
  apply only_raises_bind; [only_raises|intros id].
  apply only_raises_bind.
  { apply only_raises_query. intros r.
    apply raises_only_obind; [apply get_trials_quiet|intros; exact I]. }
  intros isb.
  apply only_raises_bind; [apply only_raises_query; intros; apply average_cost_quiet|].
  intros avg.
  apply only_raises_bind; [apply only_raises_modify|intros _].
  apply only_raises_bind; [apply only_raises_modify|intros _].
  apply only_raises_bind.
  { apply only_raises_query. intros r.
    apply raises_only_obind; [apply get_trials_quiet|intros; exact I]. }
  intros all_isb.
  apply only_raises_bind; [apply only_raises_query; intros; apply min_cost_quiet|].
  intros mn. apply only_raises_modify.
Qed.

Lemma np_broadcast_quiet f a b : raises_only not_mixed_instances (np_broadcast f a b).
Proof.
  unfold np_broadcast.
  destruct a as [x|[|x [|x' l]]], b as [y|[|y [|y' l']]]; try exact I;
    destruct (Nat.eqb _ _); try exact I; simpl; other_exception.
Qed.

Lemma incremental_update_cost_quiet config cost :
  only_raises not_mixed_instances (incremental_update_cost config cost).
Proof.
  unfold incremental_update_cost.
  apply only_raises_bind; [only_raises|intros id].
  apply only_raises_bind; [apply only_raises_read|intros n].
  apply only_raises_bind; [apply only_raises_read|intros nobj].
  apply only_raises_bind; [|intros; apply only_raises_modify].
  destruct (1 <? nobj).
  - apply only_raises_bind; [apply only_raises_read|intros old].
    apply only_raises_bind; [apply only_raises_lift, np_broadcast_quiet|intros ?].
    apply only_raises_bind; [apply only_raises_lift, np_broadcast_quiet|intros ?].
    apply only_raises_bind; [apply only_raises_lift, np_broadcast_quiet|intros ?].
    apply only_raises_modify.
  - apply only_raises_bind; [apply only_raises_read|intros old].
    destruct cost, old; try (apply only_raises_raise; other_exception).
    destruct (n + 1 =? 0); [apply only_raises_raise; other_exception|].
    apply only_raises_modify.
Qed.

Lemma collect_costs_quiet n values : raises_only not_mixed_instances (collect_costs n values).
Proof.
  induction values as [|v values IH]; simpl; [exact I|].
  destruct (decide (status v = SUCCESS)); [|exact IH].
  apply raises_only_obind; [raises_only|intros _].
  apply raises_only_obind; [exact IH|intros; exact I].
Qed.

Lemma _add_quiet k v status origin : only_raises not_mixed_instances (_add k v status origin).
Proof.
  unfold _add.
  apply only_raises_bind; [apply only_raises_modify|intros _].
  apply only_raises_bind; [apply only_raises_modify|intros _].
  apply only_raises_bind.
  { unfold _update_objective_bounds.
    apply only_raises_bind;
      [apply only_raises_query; intros; apply collect_costs_quiet|intros rows].
    destruct (reduce_axis0 PyFloat.np_minimum rows),
      (reduce_axis0 PyFloat.np_maximum rows); apply only_raises_modify. }
  intros _. destruct (registers_cost origin status); [|apply only_raises_ret].
  apply only_raises_bind; [apply only_raises_modify|intros _].
  apply only_raises_bind; [only_raises|intros recorded].
  apply only_raises_bind.
  { (* the check compares [isinstance(key, str)] for two key objects *)
    apply only_raises_for_each. intros isk_. cbn. apply only_raises_ret. }
  intros _. apply only_raises_bind.
  { destruct (dict_get _ recorded) as [bs|]; [|apply only_raises_modify].
    destruct (_ && _); [|apply only_raises_ret].
    apply only_raises_bind.
    - apply only_raises_lift. destruct bs; [simpl; other_exception|exact I].
    - intros first. destruct (negb _); [apply only_raises_raise; other_exception|].
      apply only_raises_modify. }
  intros _. apply only_raises_bind; [apply only_raises_read|intros ow].
  destruct (_ && _).
  - apply only_raises_bind; [apply only_raises_log|intros _].
    apply only_raises_bind; [only_raises|intros c].
    apply incremental_update_cost_quiet.
  - apply only_raises_bind; [apply only_raises_log|intros _].
    apply only_raises_bind; [only_raises|intros c].
    apply update_cost_quiet.
Qed.

(** X17. The instance check of [_add] is dead code: it asks whether the
    key objects, not their instances, are strings, which is false on both
    sides.  No call of [add], in any ledger and with any arguments, raises
    its [ValueError]. *)
Theorem add_never_reports_mixed_instances (a : add_call) (w : World) :
  fst (call a w) <> Raise mixed_instances.
Proof.
  assert (Hq : raises_only not_mixed_instances (fst (call a w))).
  { rewrite call_run. cbv zeta.
    destruct (_ && _); [cbn; other_exception|].
    destruct (to_floats _ _) as [c|e] eqn:Ef.
    - match goal with
      | |- context [first_failure ?f ?l] => destruct (first_failure f l) as [[]|e] eqn:Ep
      end.
      + destruct (_ || _); [apply _add_quiet|exact I].
      + cbn. unfold payload, first_failure, _check_json_serializable in Ep.
        cbn [fst snd] in Ep.
        repeat match type of Ep with
               | (match (if ?b then _ else _) with _ => _ end) = _ =>
                   destruct b; [|injection Ep as <-; other_exception]
               end.
        discriminate Ep.
    - cbn. unfold to_floats in Ef.
      destruct (_ =? 1), (squeeze (call_cost a)); try discriminate;
        injection Ef as <-; other_exception. }
  intros Heq. rewrite Heq in Hq. cbn in Hq. now apply Hq.
Qed.

End InstanceCheck.

(** ** The claims on concrete ledgers *)

Section Concrete.
Import Toy Run.

(** C1, at a forced overwrite.  Two calls under one key with budget 0, the
    second with [force_update]: the moving average counts both costs and
    caches 2, while the ledger holds only the second trial and
    [update_costs] computes 3. *)
Example forced_overwrite_breaks_cache_consistency :
  let calls := [ trial 5 (CScalar one) None (Some 1) (Some (Fin 0));
                 forced (trial 5 (CScalar three) None (Some 1) (Some (Fin 0))) ] in
  let w := after_calls calls (fresh false) in
  outcomes calls (fresh false) = [Ok tt; Ok tt]
  /\ _cost_per_config (self w) = [(1, CScalar two)]
  /\ fst (update_costs None w) = Ok tt
  /\ _cost_per_config (self (snd (update_costs None w))) = [(1, CScalar three)].
Proof. vm_compute. repeat split; reflexivity. Qed.

(** C6, at mixed instances.  A trial with instance [None] and then one
    with instance ["i1"] for the same configuration: both calls return
    normally and both pairs are recorded. *)
Example mixed_instances_are_accepted :
  let calls := [ trial 5 (CScalar one) None (Some 1) None;
                 trial 5 (CScalar one) (Some "i1") (Some 1) None ] in
  let w := after_calls calls (fresh false) in
  outcomes calls (fresh false) = [Ok tt; Ok tt]
  /\ length (_data (self w)) = 2%nat
  /\ _config_id_to_isk_to_budget (self w)
     = [(1, [ ({| isk_instance := None; isk_seed := Some 1 |}, [None]);
              ({| isk_instance := Some "i1"; isk_seed := Some 1 |}, [None]) ])].
Proof. vm_compute. repeat split; reflexivity. Qed.

(** C6, at mixed budgets.  A numeric budget followed by budget [None] on
    the instance-seed pair with instance [None] is accepted. *)
Example mixed_budgets_are_accepted :
  let calls := [ trial 5 (CScalar one) None (Some 1) (Some one);
                 trial 5 (CScalar one) None (Some 1) None ] in
  outcomes calls (fresh false) = [Ok tt; Ok tt]
  /\ length (_data (self (after_calls calls (fresh false)))) = 2%nat.
Proof. vm_compute. repeat split; reflexivity. Qed.

(** C6, where the budget check fires: the [ValueError] comes after the
    trial has been written to the ledger. *)
Example rejected_budget_is_recorded :
  let calls := [ trial 5 (CScalar one) None (Some 1) None;
                 trial 5 (CScalar one) None (Some 1) (Some three) ] in
  outcomes calls (fresh false)
  = [Ok tt;
     Raise (ValueError
              "Can not mix budgets of different types for the same instance-seed pair.")]
  /\ length (_data (self (after_calls calls (fresh false)))) = 2%nat.
Proof. vm_compute. repeat split; reflexivity. Qed.

(** C7: for a configuration that was never run, [sum_cost] is [0.0], not
    [nan]. *)
Example sum_cost_without_data_is_zero :
  sum_cost (RunHistory_init false) 5 None false = Ok (CScalar (Fin 0))
  /\ sum_cost (RunHistory_init false) 5 None false <> Ok (CScalar NaN).
Proof. split; [reflexivity|discriminate]. Qed.

(** C7: with two objectives, [get_cost] of a configuration without a
    cached cost fails its assertion. *)
Example get_cost_without_data_two_objectives :
  let w := after_calls [ with_status RUNNING (trial 5 (CList [one; two]) None (Some 1) None) ]
                       (fresh false) in
  get_cost (self w) 5 = Raise AssertionError
  /\ get_cost (self w) 7 = Raise AssertionError.
Proof. vm_compute. split; reflexivity. Qed.

(** C4, at an infinite cost.  The only registered configuration has the
    cost [+inf], which is the minimal [get_cost] of the ledger, yet
    [get_incumbent] returns [None]: the scan starts from [+inf] and takes
    only a strictly lower cost. *)
Example no_incumbent_at_infinite_cost :
  let w := after_calls [ trial 5 (CScalar PInf) None (Some 1) None ] (fresh false) in
  get_configs (self w) = [5]
  /\ get_cost (self w) 5 = Ok PInf
  /\ get_incumbent (self w) = Ok None.
Proof. vm_compute. repeat split; reflexivity. Qed.

(** C4: likewise when the only trial is still running. *)
Example no_incumbent_while_running :
  let w := after_calls [ with_status RUNNING (trial 5 (CScalar one) None (Some 1) None) ]
                       (fresh false) in
  get_configs (self w) = [5]
  /\ get_cost (self w) 5 = Ok NaN
  /\ get_incumbent (self w) = Ok None.
Proof. vm_compute. repeat split; reflexivity. Qed.

(** C8: a file that holds the JSON document [{}] is not in the persisted
    format; [load_json] raises a [KeyError], logs nothing, and has
    already emptied the id-to-configuration map. *)
Example load_json_wrong_schema_alters_ledger :
  let w := put "rh.json" (JsonText (PyDict []))
             (after_calls [ trial 5 (CScalar one) None (Some 1) None ] (fresh false)) in
  _ids_config (self w) = [(1, 5)]
  /\ fst (load_json "rh.json" (0, 10) w) = Raise (KeyError "configs")
  /\ _ids_config (self (snd (load_json "rh.json" (0, 10) w))) = []
  /\ logged (snd (load_json "rh.json" (0, 10) w)) = logged w.
Proof. vm_compute. repeat split; reflexivity. Qed.

(** C5: a configuration registered by a call that failed has an id but no
    trial; it is not saved, and the loaded ledger does not know it. *)
Example save_load_drops_unrecorded_configuration :
  let w := after_calls [ trial 5 (CScalar one) None (Some 1) None;
                         trial 7 (CList [one; two]) None (Some 1) None ] (fresh false) in
  let saved := snd (save_json "rh.json" false w) in
  let loaded := load_json "rh.json" (0, 10)
                  {| self := RunHistory_init false; logged := []; files := files saved |} in
  fst (save_json "rh.json" false w) = Ok tt
  /\ fst loaded = Ok tt
  /\ _external (self w) = [(Build_TrialKey 1 None (Some 1) None, INTERNAL)]
  /\ _ids_config (self w) = [(1, 5); (2, 7)]
  /\ _ids_config (self (snd loaded)) = [(1, 5)].
Proof. vm_compute. repeat split; reflexivity. Qed.

End Concrete.

(** ** The theorems at concrete inputs *)

Section Witnesses.
Import Toy Run.

Lemma reachable_from_fresh (calls : list add_call) (overwrite : bool) :
  reachable (after_calls calls (fresh overwrite)).
Proof. apply reachable_after_calls. apply reachable_init. Qed.

Lemma duplicate_add_is_dropped_witness :
  let first := trial 5 (CScalar one) None (Some 1) None in
  let second := trial 5 (CScalar three) None (Some 1) None in
  let w1 := snd (call first (fresh false)) in
  let k := key_of_call (self (fresh false)) first in
  fst (call first (fresh false)) = Ok tt
  /\ exists c,
       to_floats (cardinality (call_cost first)) (squeeze (call_cost first)) = Ok c
       /\ List.filter (fun kv => bool_decide (fst kv = k)) (_data (self w1))
          = [(k, value_of_call c first)]
       /\ self (snd (call second w1)) = self w1
       /\ List.filter (fun kv => bool_decide (fst kv = k))
                      (_data (self (snd (call second w1))))
          = [(k, value_of_call c first)]
       /\ (cardinality (call_cost second) = cardinality (call_cost first) ->
           json_serializable (call_additional_info second) = true ->
           call second w1
           = (Ok tt, {| self := self w1;
                        logged := (logged w1 ++ [{| level := INFO;
                                                    message := duplicate_message |}])%list;
                        files := files w1 |})).
Proof.
  cbv zeta. split; [reflexivity|].
  apply (duplicate_add_is_dropped (fresh false)
           (trial 5 (CScalar one) None (Some 1) None)
           (trial 5 (CScalar three) None (Some 1) None)); reflexivity.
Defined.

Lemma n_objectives_fixed_by_first_successful_add_witness :
  let first := trial 5 (CList [one; two]) None (Some 1) None in
  let between := [ trial 6 (CList [three; one]) None (Some 1) None;
                   trial 6 (CScalar one) None (Some 2) None ] in
  let later := trial 7 (CScalar one) None (Some 1) None in
  let w' := after_calls between (snd (call first (fresh false))) in
  fst (call first (fresh false)) = Ok tt
  /\ (cardinality (call_cost later) <> cardinality (call_cost first) ->
      fst (call later w') = Raise (ValueError cardinality_message))
  /\ (cardinality (call_cost later) = cardinality (call_cost first) ->
      fst (call later w') <> Raise (ValueError cardinality_message)).
Proof.
  cbv zeta. split; [reflexivity|].
  apply (n_objectives_fixed_by_first_successful_add (fresh false)
           (trial 5 (CList [one; two]) None (Some 1) None)
           [ trial 6 (CList [three; one]) None (Some 1) None;
             trial 6 (CScalar one) None (Some 2) None ]
           (trial 7 (CScalar one) None (Some 1) None)).
  reflexivity.
Defined.

Lemma add_is_not_atomic_witness :
  let w := after_calls [ trial 5 (CScalar one) None (Some 1) None ] (fresh false) in
  let a := trial 7 (CList [one; two]) None (Some 1) None in
  let res := call a w in
  dict_get (call_config a) (_config_ids (self w)) = None
  /\ _n_objectives (self w) <> -1
  /\ _n_objectives (self w) <> cardinality (call_cost a)
  /\ (exists msg, fst res = Raise (ValueError msg))
  /\ dict_get (call_config a) (_config_ids (self (snd res))) = Some (_n_id (self w) + 1)
  /\ dict_get (_n_id (self w) + 1) (_ids_config (self (snd res))) = Some (call_config a)
  /\ _n_id (self (snd res)) = _n_id (self w) + 1
  /\ _data (self (snd res)) = _data (self w)
  /\ (_n_objectives (self w) = -1 ->
      _n_objectives (self (snd res)) = cardinality (call_cost a)).
Proof.
  cbv zeta. split; [vm_compute; reflexivity|].
  split; [vm_compute; discriminate|]. split; [vm_compute; discriminate|].
  apply (add_is_not_atomic
           (after_calls [ trial 5 (CScalar one) None (Some 1) None ] (fresh false))
           (trial 7 (CList [one; two]) None (Some 1) None)).
  - vm_compute. reflexivity.
  - left. split; vm_compute; discriminate.
Defined.

Lemma cost_queries_without_data_witness :
  let w := after_calls [ trial 5 (CScalar one) None (Some 1) None ] (fresh false) in
  unrecorded (self w) 7
  /\ average_cost (self w) 7 None false = Ok (CScalar NaN)
  /\ min_cost (self w) 7 None false = Ok (CScalar NaN)
  /\ sum_cost (self w) 7 None false = Ok (CScalar (Fin 0))
  /\ (_n_objectives (self w) <= 1 ->
      get_cost (self w) 7 = Ok NaN /\ get_min_cost (self w) 7 = Ok NaN)
  /\ (dict_get 7 (_config_ids (self w)) = None ->
      forall keys,
        average_cost (self w) 7 keys false = Ok (CScalar NaN)
        /\ min_cost (self w) 7 keys false = Ok (CScalar NaN)
        /\ sum_cost (self w) 7 keys false = Ok (CScalar (Fin 0))).
Proof.
  cbv zeta. split; [exact I|].
  apply (cost_queries_without_data
           (self (after_calls [ trial 5 (CScalar one) None (Some 1) None ] (fresh false)))
           7 false).
  exact I.
Defined.

Lemma load_json_unreadable_leaves_ledger_witness :
  let w := put "rh.json" NotJson
             (after_calls [ trial 5 (CScalar one) None (Some 1) None ] (fresh false)) in
  dict_get "rh.json" (files w) = Some NotJson
  /\ load_json "rh.json" (0, 10) w
     = (Ok tt, {| self := self w;
                  logged := (logged w ++ [{| level := WARNING;
                                             message := warning_message |}])%list;
                  files := files w |}).
Proof.
  cbv zeta. split; [reflexivity|].
  apply (load_json_unreadable_leaves_ledger
           (put "rh.json" NotJson
              (after_calls [ trial 5 (CScalar one) None (Some 1) None ] (fresh false)))
           "rh.json" (0, 10)).
  right. right. reflexivity.
Defined.

Lemma objective_bounds_after_insertion_witness :
  let w := after_calls
             [ trial 5 (CList [one; two]) None (Some 1) None;
               with_status CRASHED (trial 6 (CList [three; three]) None (Some 1) None);
               trial 7 (CList [three; one]) None (Some 1) None ] (fresh false) in
  _data (self w) <> []
  /\ _objective_bounds (self w)
     = objective_bounds_spec (_n_objectives (self w)) (_data (self w)).
Proof.
  cbv zeta. split; [vm_compute; discriminate|].
  apply (objective_bounds_after_insertion
           (after_calls
              [ trial 5 (CList [one; two]) None (Some 1) None;
                with_status CRASHED (trial 6 (CList [three; three]) None (Some 1) None);
                trial 7 (CList [three; one]) None (Some 1) None ] (fresh false))).
  - apply reachable_from_fresh.
  - vm_compute. discriminate.
Defined.

Lemma save_load_roundtrip_witness :
  let w := after_calls [ trial 5 (CScalar one) None (Some 1) None;
                         trial 7 (CList [one; two]) None (Some 1) None;
                         trial 6 (CScalar three) (Some "i1") (Some 2) (Some two) ]
                       (fresh false) in
  let saved := save_json "rh.json" false w in
  let loaded := load_json (H := collaborators) "rh.json" (0, 10)
                  {| self := RunHistory_init true; logged := [];
                     files := files (snd saved) |} in
  fst saved = Ok tt
  /\ fst loaded = Ok tt
  /\ _ids_config (self (snd loaded))
     = List.filter (fun ic => bool_decide (fst ic ∈ recorded_ids (self w)))
                   (_ids_config (self w))
  /\ map trial_tuple (_data (self (snd loaded))) = map trial_tuple (_data (self w)).
Proof.
  cbv zeta. split; [vm_compute; reflexivity|]. split; [vm_compute; reflexivity|].
  apply (save_load_roundtrip (H := collaborators) "rh.json" (0, 10)
           (after_calls [ trial 5 (CScalar one) None (Some 1) None;
                          trial 7 (CList [one; two]) None (Some 1) None;
                          trial 6 (CScalar three) (Some "i1") (Some 2) (Some two) ]
                        (fresh false))
           true []).
  - apply reachable_from_fresh.
  - apply only_internal_values. vm_compute. intros ko [<-|[<-|[]]]; reflexivity.
  - intros i c Hd. apply dict_get_In in Hd. vm_compute in Hd.
    destruct Hd as [[= <- <-]|[[= <- <-]|[[= <- <-]|[]]]]; reflexivity.
  - vm_compute. reflexivity.
  - vm_compute. reflexivity.
Defined.

End Witnesses.

(** ** More theorems at concrete inputs *)

Section Witnesses2.
Import Toy Run.

Lemma reachable_after (calls : list add_call) (overwrite : bool) :
  reachable (after_calls calls (fresh overwrite)).
Proof. apply reachable_after_calls. apply reachable_init. Qed.

Lemma add_is_append_only_witness :
  let w := after_calls [ trial 5 (CScalar one) None (Some 1) None ] (fresh false) in
  let calls := [ trial 5 (CScalar three) None (Some 1) None;
                 trial 6 (CScalar two) None (Some 1) None ] in
  exists rest, _data (self (after_calls calls w)) = (_data (self w) ++ rest)%list.
Proof.
  cbv zeta.
  apply (add_is_append_only
           [ trial 5 (CScalar three) None (Some 1) None;
             trial 6 (CScalar two) None (Some 1) None ]
           (after_calls [ trial 5 (CScalar one) None (Some 1) None ] (fresh false))).
  - vm_compute. reflexivity.
  - repeat constructor.
Defined.

Lemma added_trial_is_retrievable_witness :
  let w := after_calls [ trial 5 (CScalar one) None (Some 1) None ] (fresh false) in
  let a := forced (trial 5 (CScalar three) None (Some 1) None) in
  let k := key_of_call (self w) a in
  fst (call a w) = Ok tt
  /\ exists c,
       to_floats (cardinality (call_cost a)) (squeeze (call_cost a)) = Ok c
       /\ __contains__ (self (snd (call a w))) k = true
       /\ __getitem__ (self (snd (call a w))) k
          = Ok (match dict_get k (_data (self w)) with
                | Some old =>
                    if _overwrite_existing_trials (self w) || call_force_update a
                    then value_of_call c a else old
                | None => value_of_call c a
                end).
Proof.
  cbv zeta. split; [vm_compute; reflexivity|].
  apply (added_trial_is_retrievable
           (forced (trial 5 (CScalar three) None (Some 1) None))
           (after_calls [ trial 5 (CScalar one) None (Some 1) None ] (fresh false))).
  vm_compute. reflexivity.
Defined.

Lemma registry_of_a_built_ledger_witness :
  registry_consistent
    (self (after_calls [ trial 5 (CScalar one) None (Some 1) None;
                         trial 7 (CList [one; two]) None (Some 1) None;
                         trial 5 (CScalar two) None (Some 2) None ] (fresh false))).
Proof.
  apply (registry_of_a_built_ledger
           (after_calls [ trial 5 (CScalar one) None (Some 1) None;
                          trial 7 (CList [one; two]) None (Some 1) None;
                          trial 5 (CScalar two) None (Some 2) None ] (fresh false))).
  apply reachable_after.
Defined.

Lemma uncounted_trial_leaves_the_caches_witness :
  let w := after_calls [ trial 5 (CScalar one) None (Some 1) None ] (fresh false) in
  let a := with_status RUNNING (trial 5 (CScalar three) None (Some 2) None) in
  let r' := self (snd (call a w)) in
  _cost_per_config r' = _cost_per_config (self w)
  /\ _min_cost_per_config r' = _min_cost_per_config (self w)
  /\ _num_trials_per_config r' = _num_trials_per_config (self w)
  /\ _config_id_to_isk_to_budget r' = _config_id_to_isk_to_budget (self w).
Proof.
  cbv zeta.
  apply (uncounted_trial_leaves_the_caches
           (with_status RUNNING (trial 5 (CScalar three) None (Some 2) None))
           (after_calls [ trial 5 (CScalar one) None (Some 1) None ] (fresh false))).
  reflexivity.
Defined.

Lemma cost_queries_return_witness :
  let w := after_calls [ trial 5 (CList [one; two]) None (Some 1) (Some one);
                         trial 5 (CList [three; one]) None (Some 2) (Some two) ]
                       (fresh false) in
  (exists a, average_cost (self w) 5 None false = Ok a)
  /\ (exists s, sum_cost (self w) 5 None false = Ok s)
  /\ (_n_objectives (self w) <> 0 -> exists m, min_cost (self w) 5 None false = Ok m).
Proof.
  cbv zeta.
  apply (cost_queries_return
           (after_calls [ trial 5 (CList [one; two]) None (Some 1) (Some one);
                          trial 5 (CList [three; one]) None (Some 2) (Some two) ]
                        (fresh false)) 5).
  apply reachable_after.
Defined.

Lemma save_json_succeeds_witness :
  let w := after_calls [ trial 5 (CScalar one) None (Some 1) None;
                         trial 6 (CScalar two) None (Some 1) None ] (fresh false) in
  save_json "out/runhistory.json" false w
  = (Ok tt, {| self := self w; logged := logged w;
               files := dict_set "out/runhistory.json"
                          (JsonText (saved_document (self w) (saved_trials (self w) false)))
                          (files w) |}).
Proof.
  cbv zeta.
  apply (save_json_succeeds "out/runhistory.json" false
           (after_calls [ trial 5 (CScalar one) None (Some 1) None;
                          trial 6 (CScalar two) None (Some 1) None ] (fresh false))).
  - apply reachable_after.
  - vm_compute. reflexivity.
  - intros i c Hin. reflexivity.
Defined.

Lemma save_json_wants_a_json_name_witness :
  let w := after_calls [ trial 5 (CScalar one) None (Some 1) None ] (fresh false) in
  save_json "runhistory.txt" true w = (Raise AssertionError, w).
Proof.
  cbv zeta.
  apply (save_json_wants_a_json_name "runhistory.txt" true
           (after_calls [ trial 5 (CScalar one) None (Some 1) None ] (fresh false))).
  - apply reachable_after.
  - vm_compute. reflexivity.
Defined.

Lemma get_configs_per_budget_lists_trials_witness :
  let w := after_calls [ trial 5 (CScalar one) None (Some 1) (Some one);
                         trial 5 (CScalar two) None (Some 2) (Some one);
                         trial 6 (CScalar two) None (Some 1) (Some two) ] (fresh false) in
  exists configs,
    get_configs_per_budget (self w) (Some [Some one]) = Ok configs
    /\ Forall2 (fun key config =>
                  dict_get config (_config_ids (self w)) = Some (config_id key))
               (List.filter (fun key => existsb (budget_eqb (tk_budget key)) [Some one])
                            (__iter__ (self w)))
               configs.
Proof.
  cbv zeta.
  apply (get_configs_per_budget_lists_trials
           (after_calls [ trial 5 (CScalar one) None (Some 1) (Some one);
                          trial 5 (CScalar two) None (Some 2) (Some one);
                          trial 6 (CScalar two) None (Some 1) (Some two) ] (fresh false))
           [Some one]).
  apply reachable_after.
Defined.

Lemma update_transfers_the_trials_witness :
  let other := self (after_calls [ trial 7 (CScalar one) None (Some 1) None;
                                   trial 5 (CScalar two) None (Some 1) None ]
                                 (fresh false)) in
  let w := after_calls [ trial 5 (CScalar three) None (Some 2) None ] (fresh false) in
  let w' := snd (update other EXTERNAL_SAME_INSTANCES w) in
  fst (update other EXTERNAL_SAME_INSTANCES w) = Ok tt
  /\ forall k v, In (k, v) (_data other) ->
       exists c i,
         dict_get (config_id k) (_ids_config other) = Some c
         /\ dict_get c (_config_ids (self w')) = Some i
         /\ __contains__ (self w')
              {| config_id := i; tk_instance := tk_instance k; tk_seed := tk_seed k;
                 tk_budget := option_map PyFloat.float (tk_budget k) |} = true.
Proof.
  cbv zeta. split; [vm_compute; reflexivity|].
  apply (update_transfers_the_trials
           (self (after_calls [ trial 7 (CScalar one) None (Some 1) None;
                                trial 5 (CScalar two) None (Some 1) None ]
                              (fresh false)))
           EXTERNAL_SAME_INSTANCES
           (after_calls [ trial 5 (CScalar three) None (Some 2) None ] (fresh false))).
  vm_compute. reflexivity.
Defined.

Lemma update_is_append_only_witness :
  let other := self (after_calls [ trial 5 (CScalar one) None (Some 1) None;
                                   trial 6 (CScalar two) None (Some 1) None ]
                                 (fresh false)) in
  let w := after_calls [ trial 5 (CScalar three) None (Some 1) None ] (fresh false) in
  exists rest,
    _data (self (snd (update other INTERNAL w))) = (_data (self w) ++ rest)%list.
Proof.
  cbv zeta.
  apply (update_is_append_only
           (self (after_calls [ trial 5 (CScalar one) None (Some 1) None;
                                trial 6 (CScalar two) None (Some 1) None ]
                              (fresh false)))
           INTERNAL
           (after_calls [ trial 5 (CScalar three) None (Some 1) None ] (fresh false))).
  vm_compute. reflexivity.
Defined.

Lemma update_from_json_unreadable_witness :
  let w := put "old.json" Unreadable
             (after_calls [ trial 5 (CScalar one) None (Some 1) None ] (fresh false)) in
  update_from_json (H := collaborators) "old.json" (0, 10) EXTERNAL_SAME_INSTANCES w
  = (Ok tt, {| self := self w;
               logged := (logged w ++ [{| level := WARNING;
                                          message := warning_message |}])%list;
               files := files w |}).
Proof.
  cbv zeta.
  apply (update_from_json_unreadable (H := collaborators) "old.json" (0, 10)
           EXTERNAL_SAME_INSTANCES
           (put "old.json" Unreadable
              (after_calls [ trial 5 (CScalar one) None (Some 1) None ] (fresh false)))).
  right. left. vm_compute. reflexivity.
Defined.

Lemma save_json_fails_on_an_origin_witness :
  let w := after_calls (H := Tagged.collaborators)
             [ Tagged.trial 5 (CScalar one) (Some 1);
               Tagged.trial (-3) (CScalar two) (Some 1) ] Tagged.fresh in
  save_json (H := Tagged.collaborators) "runhistory.json" false w
  = (Raise (TypeError "Object is not JSON serializable"),
     {| self := self w; logged := logged w;
        files := dict_set "runhistory.json" NotJson (files w) |}).
Proof.
  cbv zeta.
  apply (save_json_fails_on_an_origin (H := Tagged.collaborators) "runhistory.json" false
           (after_calls (H := Tagged.collaborators)
              [ Tagged.trial 5 (CScalar one) (Some 1);
                Tagged.trial (-3) (CScalar two) (Some 1) ] Tagged.fresh)
           2 (-3)).
  - apply (reachable_after_calls (H := Tagged.collaborators)).
    apply (reachable_init (H := Tagged.collaborators)).
  - vm_compute. reflexivity.
  - vm_compute. right. left. reflexivity.
  - reflexivity.
Defined.

Lemma budget_zero_trial_counts_match_recomputation_witness :
  let w := after_calls [ trial 5 (CScalar one) None (Some 1) (Some (Fin 0));
                         trial 5 (CScalar three) None (Some 2) (Some (Fin 0));
                         trial 6 (CScalar two) None (Some 1) (Some (Fin 0)) ]
             (fresh false) in
  fst (update_costs None w) = Ok tt
  /\ forall i,
       dict_get i (_num_trials_per_config (self (snd (update_costs None w))))
       = dict_get i (_num_trials_per_config (self w)).
Proof.
  cbv zeta.
  apply (budget_zero_trial_counts_match_recomputation (H := collaborators)
           [ trial 5 (CScalar one) None (Some 1) (Some (Fin 0));
             trial 5 (CScalar three) None (Some 2) (Some (Fin 0));
             trial 6 (CScalar two) None (Some 1) (Some (Fin 0)) ] [] []).
  repeat (apply Forall_cons_2; [repeat split; vm_compute; reflexivity|]).
  apply Forall_nil_2.
Defined.

Lemma min_cost_cache_stays_empty_witness :
  let w := after_calls [ trial 5 (CScalar one) None (Some 1) (Some (Fin 0));
                         trial 5 (CScalar three) None (Some 2) (Some (Fin 0)) ]
             (fresh false) in
  _min_cost_per_config (self w) = []
  /\ get_min_cost (self w) 5 = Ok NaN.
Proof.
  cbv zeta.
  destruct (min_cost_cache_stays_empty (H := collaborators)
              [ trial 5 (CScalar one) None (Some 1) (Some (Fin 0));
                trial 5 (CScalar three) None (Some 2) (Some (Fin 0)) ] [] [])
    as [Hempty Hmin].
  - repeat (apply Forall_cons_2; [vm_compute; reflexivity|]). apply Forall_nil_2.
  - split; [exact Hempty|]. apply Hmin. vm_compute. discriminate.
Defined.

Lemma single_objective_costs_are_readable_witness :
  let w := after_calls [ trial 5 (CScalar three) None (Some 1) None;
                         trial 6 (CScalar two) None (Some 1) (Some one) ]
             (fresh true) in
  (forall config, exists x, get_cost (self w) config = Ok x)
  /\ exists incumbent, get_incumbent (self w) = Ok incumbent.
Proof.
  cbv zeta.
  apply (single_objective_costs_are_readable (H := collaborators)
           (after_calls [ trial 5 (CScalar three) None (Some 1) None;
                          trial 6 (CScalar two) None (Some 1) (Some one) ]
              (fresh true))).
  - apply reachable_after.
  - vm_compute. discriminate.
Defined.

End Witnesses2.
